(** * One-click provisioning flow of the Franklin sidekick extension

    A shallow embedding of [src/extension/hellofranklin.js]: the stage
    helpers ([getGitHubAuthToken], [getAccessToken], [createUserRepo],
    [getGoogleAccessToken], [createFolder], [createPermission],
    [editFsTab], [addTemplate], [installHelixbot]) and the orchestrator
    [oneclicksample], together with the later revision of the same file
    (module [Revised]), whose stages go through [handleGitErrors] and
    [handleGoogleErrors], and the folder creation of the revision in
    between (module [Interim]).

    JavaScript values are an inductive type, exceptions are explicit, and
    every asynchronous function is a computation in a writer/exception
    monad whose log is the sequence of messages sent to the popup and of
    requests issued to the platform ([fetch], [launchWebAuthFlow]).  The
    replies of the outside world are read from a [World] record, one field
    per call site; the body of a reply is whatever value it parses to.
    Calls to [log.*] have no observable effect and are left out. *)

From Stdlib Require Import String Ascii List ZArith Lia Bool DecimalString
Permutation.
Import ListNotations.

Set Warnings "-register-all".

Local Open Scope string_scope.
Local Open Scope Z_scope.

(** ** JavaScript strings

    A string is a sequence of code units below 256, which is the domain on
    which [btoa] is defined. *)

Module JS.

Definition LF : string := String "010"%char EmptyString.

Definition length (s : string) : Z := Z.of_nat (String.length s).

(** [s.startsWith(p)]. *)
Fixpoint startsWith (s p : string) {struct p} : bool :=
  match p with
  | EmptyString => true
  | String c p' =>
      match s with
      | EmptyString => false
      | String d s' => Ascii.eqb c d && startsWith s' p'
      end
  end.

(** [s.indexOf(sub)] scanning from position [i]. *)
Fixpoint indexOf_from (sub s : string) (i : Z) : Z :=
  if startsWith s sub then i
  else match s with
       | EmptyString => -1
       | String _ s' => indexOf_from sub s' (i + 1)
       end.

Definition indexOf (s sub : string) : Z := indexOf_from sub s 0.

Definition includes (s sub : string) : bool := negb (indexOf s sub =? -1).

Definition clamp (len n : Z) : Z := Z.max 0 (Z.min n len).

(** [s.substring(a, b)]: both indices are clamped to [0, length] and
    swapped when out of order. *)
Definition substring (s : string) (a b : Z) : string :=
  let len := length s in
  let fa := clamp len a in
  let fb := clamp len b in
  let from := Z.min fa fb in
  let to := Z.max fa fb in
  String.substring (Z.to_nat from) (Z.to_nat (to - from)) s.

(** [s.substring(a)]. *)
Definition substring_from (s : string) (a : Z) : string :=
  substring s a (length s).

End JS.

(** ** Values, exceptions, promises *)

Inductive value : Type :=
| VUndefined
| VNull
| VBool (b : bool)
| VNum (n : Z)
| VStr (s : string)
| VArr (items : list value)
| VObj (members : list (string * value)).

Inductive ErrorKind : Type := KError | KTypeError | KSyntaxError.

Record Exn : Type := mkExn { kind : ErrorKind; message : string }.

(** [Error(msg)] as the source throws it. *)
Definition Error (msg : string) : Exn := mkExn KError msg.

Inductive result (A : Type) : Type :=
| Return (a : A)
| Throw (e : Exn).
Arguments Return {A} a.
Arguments Throw {A} e.

(** A settled promise. *)
Inductive Async (A : Type) : Type :=
| Resolved (a : A)
| Rejected (reason : Exn).
Arguments Resolved {A} a.
Arguments Rejected {A} reason.

(** Truthiness, as tested by [if (x)]. *)
Definition truthy (v : value) : bool :=
  match v with
  | VUndefined | VNull => false
  | VBool b => b
  | VNum n => negb (n =? 0)
  | VStr s => negb (String.eqb s EmptyString)
  | VArr _ | VObj _ => true
  end.

Definition is_undefined (v : value) : bool :=
  match v with VUndefined => true | _ => false end.

(** String conversion, as performed by template literals and by
    [Array.prototype.join]. *)
Fixpoint to_string (v : value) : string :=
  match v with
  | VUndefined => "undefined"
  | VNull => "null"
  | VBool true => "true"
  | VBool false => "false"
  | VNum n => NilZero.string_of_int (Z.to_int n)
  | VStr s => s
  | VArr items =>
      (fix join (l : list value) : string :=
         match l with
         | [] => EmptyString
         | x :: rest =>
             let sx := match x with
                       | VUndefined | VNull => EmptyString
                       | _ => to_string x
                       end in
             match rest with
             | [] => sx
             | _ :: _ => sx ++ "," ++ join rest
             end
         end) items
  | VObj _ => "[object Object]"
  end.

Fixpoint lookup (k : string) (members : list (string * value)) : value :=
  match members with
  | [] => VUndefined
  | (k', v) :: rest => if String.eqb k k' then v else lookup k rest
  end.

(** ** Observable behaviour *)

Inductive Body : Type :=
| NoBody
| JsonBody (v : value)          (* the argument of [JSON.stringify] *)
| BlobBody (bytes : string).

Inductive Call : Type :=
| WebAuthFlow (url : string)
| Fetch (method url : string) (headers : list (string * string)) (body : Body).

Inductive Event : Type :=
| StatusUpdate (statusMessage : string) (percentCompletion : Z)
| Publish (gitcloneUrl : value)
| Net (c : Call)
| Detached (calls : list Call).
(** [Detached calls] marks the point at which a continuation was registered
    with [.then] and not awaited; [calls] are the requests that the
    continuation issues, in order, at some later time. *)

(** ** The monad of asynchronous functions *)

Definition M (A : Type) : Type := (list Event * result A)%type.

Definition ret {A} (a : A) : M A := ([], Return a).
Definition throw {A} (e : Exn) : M A := ([], Throw e).
Definition emit (e : Event) : M unit := ([e], Return tt).

Definition bind {A B} (m : M A) (k : A -> M B) : M B :=
  match m with
  | (t, Return a) => let (t', r) := k a in ((t ++ t')%list, r)
  | (t, Throw e) => (t, Throw e)
  end.

Definition await {A} (p : Async A) : M A :=
  match p with
  | Resolved a => ret a
  | Rejected e => throw e
  end.

Definition try_catch {A} (m : M A) (handler : Exn -> M A) : M A :=
  match m with
  | (t, Return a) => (t, Return a)
  | (t, Throw e) => let (t', r) := handler e in ((t ++ t')%list, r)
  end.

Declare Scope js_scope.
Delimit Scope js_scope with js.
Notation "x <- m ;; k" := (bind m (fun x => k))
  (at level 100, m at next level, right associativity) : js_scope.
Notation "m ;; k" := (bind m (fun _ => k))
  (at level 100, right associativity) : js_scope.
Local Open Scope js_scope.

Definition trace {A} (m : M A) : list Event := fst m.
Definition outcome {A} (m : M A) : result A := snd m.

(** Member access [v.k] for the keys the program reads ([error],
    [message], [id], [name], [mimeType], [files], [url], [clone_url], [sha],
    [commit], [errors]); none of them names a built-in member of a string,
    number, boolean or array, so on those the access yields [undefined]. *)
Definition get (v : value) (k : string) : M value :=
  match v with
  | VUndefined =>
      throw (mkExn KTypeError
               ("Cannot read properties of undefined (reading '" ++ k ++ "')"))
  | VNull =>
      throw (mkExn KTypeError
               ("Cannot read properties of null (reading '" ++ k ++ "')"))
  | VObj members => ret (lookup k members)
  | _ => ret VUndefined
  end.

(** [v === s] for a string [s]. *)
Definition is_string (s : string) (v : value) : bool :=
  match v with VStr s' => String.eqb s s' | _ => false end.

Definition nullish (v : value) : bool :=
  match v with VUndefined | VNull => true | _ => false end.

(** [v.k] at a point where an earlier access has shown that [v] is neither
    [null] nor [undefined]. *)
Definition member (v : value) (k : string) : value :=
  match v with VObj members => lookup k members | _ => VUndefined end.

(** [v.includes(sub)]: strings and arrays carry the method. *)
Definition includes_method (v : value) (sub : string) : M bool :=
  match v with
  | VStr s => ret (JS.includes s sub)
  | VArr items => ret (existsb (is_string sub) items)
  | VUndefined | VNull =>
      throw (mkExn KTypeError
               "Cannot read properties of undefined (reading 'includes')")
  | _ => throw (mkExn KTypeError "includes is not a function")
  end.

(** [v.substring(v.indexOf(sub) + k)]: only strings carry [substring]. *)
Definition substring_after (v : value) (sub : string) (k : Z) : M value :=
  match v with
  | VStr s => ret (VStr (JS.substring_from s (JS.indexOf s sub + k)))
  | _ => throw (mkExn KTypeError "substring is not a function")
  end.

(** ** [handleErrors] *)

Definition handleErrors (data : value) : M value :=
  error <- get data "error" ;;
  if truthy error then
    msg <- get error "message" ;;
    if truthy msg then
      found <- includes_method msg "User message" ;;
      if found : bool then substring_after msg "User message" 14
      else ret msg
    else ret data
  else ret VUndefined.

(** ** Base64

    [btoa] is the platform's encoder (RFC 4648, standard alphabet, with
    padding); [decode] is the matching decoder, as applied by the content
    API to the [content] member of the PUT body. *)

Module Base64.

Inductive sextet : Type := Sextet (b5 b4 b3 b2 b1 b0 : bool).

Definition alphabet : string :=
  "ABCDEFGHIJKLMNOPQRSTUVWXYZabcdefghijklmnopqrstuvwxyz0123456789+/".

Definition pad : ascii := "="%char.

Definition bit (b : bool) (w : nat) : nat := if b then w else 0%nat.

Definition sextet_index (s : sextet) : nat :=
  let (b5, b4, b3, b2, b1, b0) := s in
  (bit b5 32 + bit b4 16 + bit b3 8 + bit b2 4 + bit b1 2 + bit b0 1)%nat.

Definition sextet_of_index (n : nat) : sextet :=
  let t := N.testbit (N.of_nat n) in
  Sextet (t 5%N) (t 4%N) (t 3%N) (t 2%N) (t 1%N) (t 0%N).

Definition char_of_sextet (s : sextet) : ascii :=
  match String.get (sextet_index s) alphabet with
  | Some c => c
  | None => pad
  end.

Fixpoint position (c : ascii) (s : string) (i : nat) : option nat :=
  match s with
  | EmptyString => None
  | String c' s' => if Ascii.eqb c c' then Some i else position c s' (S i)
  end.

Definition sextet_of_char (c : ascii) : option sextet :=
  option_map sextet_of_index (position c alphabet 0).

(** Three octets are regrouped into four sextets, most significant bit
    first; a constructor [Ascii] lists its bits least significant first. *)
Definition first_sextet (a : ascii) : sextet :=
  let (a0, a1, a2, a3, a4, a5, a6, a7) := a in Sextet a7 a6 a5 a4 a3 a2.

Definition second_sextet (a b : ascii) : sextet :=
  let (a0, a1, a2, a3, a4, a5, a6, a7) := a in
  let (b0, b1, b2, b3, b4, b5, b6, b7) := b in Sextet a1 a0 b7 b6 b5 b4.

Definition third_sextet (b c : ascii) : sextet :=
  let (b0, b1, b2, b3, b4, b5, b6, b7) := b in
  let (c0, c1, c2, c3, c4, c5, c6, c7) := c in Sextet b3 b2 b1 b0 c7 c6.

Definition fourth_sextet (c : ascii) : sextet :=
  let (c0, c1, c2, c3, c4, c5, c6, c7) := c in Sextet c5 c4 c3 c2 c1 c0.

Definition first_octet (s1 s2 : sextet) : ascii :=
  let (p5, p4, p3, p2, p1, p0) := s1 in
  let (q5, q4, q3, q2, q1, q0) := s2 in Ascii q4 q5 p0 p1 p2 p3 p4 p5.

Definition second_octet (s2 s3 : sextet) : ascii :=
  let (q5, q4, q3, q2, q1, q0) := s2 in
  let (r5, r4, r3, r2, r1, r0) := s3 in Ascii r2 r3 r4 r5 q0 q1 q2 q3.

Definition third_octet (s3 s4 : sextet) : ascii :=
  let (r5, r4, r3, r2, r1, r0) := s3 in
  let (t5, t4, t3, t2, t1, t0) := s4 in Ascii t0 t1 t2 t3 t4 t5 r0 r1.

Fixpoint btoa (s : string) : string :=
  match s with
  | EmptyString => EmptyString
  | String a EmptyString =>
      String (char_of_sextet (first_sextet a))
        (String (char_of_sextet (second_sextet a zero))
           (String pad (String pad EmptyString)))
  | String a (String b EmptyString) =>
      String (char_of_sextet (first_sextet a))
        (String (char_of_sextet (second_sextet a b))
           (String (char_of_sextet (third_sextet b zero))
              (String pad EmptyString)))
  | String a (String b (String c rest)) =>
      String (char_of_sextet (first_sextet a))
        (String (char_of_sextet (second_sextet a b))
           (String (char_of_sextet (third_sextet b c))
              (String (char_of_sextet (fourth_sextet c)) (btoa rest))))
  end.

Definition is_empty (s : string) : bool :=
  match s with EmptyString => true | _ => false end.

Fixpoint decode (s : string) : option string :=
  match s with
  | EmptyString => Some EmptyString
  | String c1 (String c2 (String c3 (String c4 rest))) =>
      match sextet_of_char c1, sextet_of_char c2 with
      | Some s1, Some s2 =>
          if Ascii.eqb c3 pad then
            if Ascii.eqb c4 pad && is_empty rest
            then Some (String (first_octet s1 s2) EmptyString)
            else None
          else
            match sextet_of_char c3 with
            | Some s3 =>
                if Ascii.eqb c4 pad then
                  if is_empty rest
                  then Some (String (first_octet s1 s2)
                               (String (second_octet s2 s3) EmptyString))
                  else None
                else
                  match sextet_of_char c4, decode rest with
                  | Some s4, Some tl =>
                      Some (String (first_octet s1 s2)
                              (String (second_octet s2 s3)
                                 (String (third_octet s3 s4) tl)))
                  | _, _ => None
                  end
            | None => None
            end
      | _, _ => None
      end
  | _ => None
  end.

End Base64.

(** ** URL encoding

    [encodeURIComponent] and the serialisation of [URLSearchParams]: a code
    unit is kept when it is in the safe set, and is otherwise written as the
    percent-encoded octets of its UTF-8 form. *)

Module Url.

Definition hex_digit (n : nat) : ascii :=
  match String.get n "0123456789ABCDEF" with
  | Some c => c
  | None => "0"%char
  end.

Definition percent (c : ascii) : string :=
  let n := nat_of_ascii c in
  String "%"%char (String (hex_digit (n / 16)) (String (hex_digit (n mod 16)) EmptyString)).

Definition utf8 (c : ascii) : list ascii :=
  let n := nat_of_ascii c in
  if (n <? 128)%nat then [c]
  else [ascii_of_nat (192 + n / 64); ascii_of_nat (128 + n mod 64)].

Definition alphanumeric (c : ascii) : bool :=
  let n := nat_of_ascii c in
  ((48 <=? n) && (n <=? 57) || (65 <=? n) && (n <=? 90)
   || (97 <=? n) && (n <=? 122))%nat.

Definition member (c : ascii) (set : string) : bool :=
  match index 0 (String c EmptyString) set with Some _ => true | None => false end.

Fixpoint encode_with (keep : ascii -> bool) (space : string) (s : string)
  : string :=
  match s with
  | EmptyString => EmptyString
  | String c rest =>
      (if keep c then String c EmptyString
       else if Ascii.eqb c " " then space
       else String.concat EmptyString (map percent (utf8 c)))
      ++ encode_with keep space rest
  end.

Definition encodeURIComponent : string -> string :=
  encode_with (fun c => alphanumeric c || member c "-_.!~*'()") "%20".

(** [`${new URLSearchParams({ q })}`] *)
Definition search_params_q (q : string) : string :=
  "q=" ++ encode_with (fun c => alphanumeric c || member c "*-._") "+" q.

End Url.

(** ** The outside world *)

(** An entry of a Drive [files.list] reply as the API documents it.  The
    program reads a reply as whatever [response.json()] yields, so replies
    are values; the record only serves to write down documented ones. *)
Record DriveFile : Type := mkDriveFile {
  id : string;
  name : string;
  mimeType : string
}.

Definition DriveFile_value (f : DriveFile) : value :=
  VObj [("id", VStr (id f)); ("name", VStr (name f));
        ("mimeType", VStr (mimeType f))].

(** The body of a documented [files.list] reply. *)
Definition listing_of (entries : list value) : value :=
  VObj [("files", VArr entries)].

(** A [Response]: [json] is the settlement of [response.json()], that is
    the parse of [text]; [location] is [headers.get('location')]; [blob]
    is the settlement of [response.blob()]. *)
Record Response (J : Type) : Type := mkResponse {
  ok : bool;
  status : Z;
  text : string;
  json : Async J;
  location : option string;
  blob : Async string
}.
Arguments mkResponse {J}.
Arguments ok {J}.
Arguments status {J}.
Arguments text {J}.
Arguments json {J}.
Arguments location {J}.
Arguments blob {J}.

(** One field per call site, holding how the platform settles the promise
    returned there. *)
Record World : Type := mkWorld {
  REDIRECT_URI : string;          (* chrome.identity.getRedirectURL() *)
  GIT_CLIENT_SECRET : string;     (* a literal in the source *)
  git_authorization : Async string;
  git_token_exchange : Async (Response value);
  repo_generation : Async (Response value);
  lastError : bool;               (* chrome.runtime.lastError *)
  google_authorization : Async string;
  folder_creation : Async (Response value);
  permission_grant : Async (Response value);
  fstab_read : Async (Response value);
  fstab_write : Async (Response value);
  template_lookup : Async (Response value);
  folder_listing : value -> Async (Response value);
  document_export : value -> string -> Async (Response value);
  upload_session : value -> Async (Response value);
  upload_content : value -> Async (Response value)
}.

Definition launchWebAuthFlow (url : string) (reply : Async string)
  : M string :=
  emit (Net (WebAuthFlow url)) ;; await reply.

Definition fetch {J} (method url : string) (headers : list (string * string))
  (body : Body) (reply : Async (Response J)) : M (Response J) :=
  emit (Net (Fetch method url headers body)) ;; await reply.

Definition bearer (token : value) : string := "Bearer " ++ to_string token.

Definition json_headers (authorization : string) : list (string * string) :=
  [("Authorization", authorization); ("Content-Type", "application/json")].

(** The requests carried by a log, in order of issue. *)
Definition calls_of (t : list Event) : list Call :=
  flat_map (fun e => match e with
                     | Net c => [c]
                     | Detached cs => cs
                     | _ => []
                     end) t.

(** [p.then(k)], not awaited: [k] runs once [p] is fulfilled; nothing
    runs when [p] is rejected, and an exception of [k] is lost. *)
Definition then_detached {A B} (p : Async A) (k : A -> M B) : M unit :=
  emit (Detached match p with
                 | Resolved a => calls_of (trace (k a))
                 | Rejected _ => []
                 end).

Fixpoint for_of {A} (l : list A) (body : A -> M unit) : M unit :=
  match l with
  | [] => ret tt
  | x :: rest => body x ;; for_of rest body
  end.

(** The sequence that [for (const x of v)] runs through: the elements of
    an array, the characters of a string; the other values are not
    iterable. *)
Definition iterate (what : string) (v : value) : M (list value) :=
  match v with
  | VArr items => ret items
  | VStr s =>
      ret (map (fun c => VStr (String c EmptyString)) (list_ascii_of_string s))
  | _ => throw (mkExn KTypeError (what ++ " is not iterable"))
  end.

(** ** The stages of [hellofranklin.js] *)

Definition CLIENT_ID : string := Url.encodeURIComponent "7f57ca41ae308a1e499c".
Definition TEMPLATE_FOLDER_ID : string := "1-5OSYB0kEPYD3q8JB0MvMVv-2ZaErbak".
Definition googleClientId : string :=
  Url.encodeURIComponent
    "709069296039-4j9ps75je88kfgvqgpp3sa3pb3c5fic2.apps.googleusercontent.com".

Definition sendStatusMessage (statusMessage : string) (percentCompletion : Z)
  : M unit :=
  emit (StatusUpdate statusMessage percentCompletion).

Definition publish (gitcloneUrl : value) : M unit :=
  emit (Publish gitcloneUrl).

Definition getDocumentType (fileMimeType : value) : string :=
  if is_string "application/vnd.google-apps.spreadsheet" fileMimeType
  then "xlsx"
  else if is_string "application/vnd.google-apps.document" fileMimeType
  then "docx"
  else if is_string "application/vnd.google-apps.folder" fileMimeType
  then "folder"
  else "file".

(** The value passed to [handleErrors] when its argument is a [Response]
    object rather than a parsed body: it has no [error] member. *)
Definition Response_object : value := VObj [].

Section Stages.

Variable w : World.

Definition getGoogleAccessToken : M value :=
  let googleScope :=
    Url.encodeURIComponent "https://www.googleapis.com/auth/drive" in
  let googleAuthURL :=
    "https://accounts.google.com/o/oauth2/v2/auth?scope=" ++ googleScope
    ++ "&include_granted_scopes=true&response_type=token"
    ++ "&state=state_parameter_passthrough_value&redirect_uri="
    ++ REDIRECT_URI w ++ "&client_id=" ++ googleClientId in
  redirectUrl <- launchWebAuthFlow googleAuthURL (google_authorization w) ;;
  if lastError w then ret VNull
  else if JS.includes redirectUrl "access_denied" then ret VNull
  else
    let googleAccessToken :=
      JS.substring_from redirectUrl
        (JS.indexOf redirectUrl "access_token=" + 13) in
    let googleAccessToken :=
      JS.substring googleAccessToken 0 (JS.indexOf googleAccessToken "&") in
    ret (VStr googleAccessToken).

(** The timer set by [setTimeout] only clears a local variable of a call
    that has already returned. *)
Definition getGitHubAuthToken : M string :=
  let gitAuthEndPoint :=
    "https://github.com/login/oauth/authorize?client_id=" ++ CLIENT_ID
    ++ "&redirect_uri=" ++ REDIRECT_URI w ++ "&scope=repo,gist,admin" in
  redirectUrl <- launchWebAuthFlow gitAuthEndPoint (git_authorization w) ;;
  if JS.includes redirectUrl "error=access_denied" then
    let errormsg := " Access denied !" in
    throw (Error ("Failed to Authorize Git : " ++ errormsg))
  else
    ret (JS.substring_from redirectUrl (JS.indexOf redirectUrl "code=" + 5)).

Definition getAccessToken (gitAuthToken : string) : M string :=
  let getaccesstokenurl := "https://github.com/login/oauth/access_token" in
  let bodyjson :=
    VObj [("client_id", VStr CLIENT_ID);
          ("client_secret", VStr (GIT_CLIENT_SECRET w));
          ("code", VStr gitAuthToken)] in
  response <- fetch "POST" getaccesstokenurl
                [("Authentication", gitAuthToken);
                 ("Content-Type", "application/json")]
                (JsonBody bodyjson) (git_token_exchange w) ;;
  let data := text response in
  let accessToken :=
    JS.substring_from data (JS.indexOf data "access_token=" + 13) in
  ret (JS.substring accessToken 0 (JS.indexOf accessToken "&")).

Definition createUserRepo (repoName accessToken : string) : M value :=
  let createRepoUrl :=
    "https://api.github.com/repos/hellofranklin/helix-project-boilerplate/generate" in
  let authtring := "Bearer " ++ accessToken in
  response <- fetch "POST" createRepoUrl (json_headers authtring)
                (JsonBody (VObj [("name", VStr repoName)]))
                (repo_generation w) ;;
  await (json response).

Definition createFolder (folderName : string) (googleAccessToken : value)
  : M value :=
  response <- fetch "POST" "https://www.googleapis.com/drive/v3/files"
                (json_headers (bearer googleAccessToken))
                (JsonBody
                   (VObj [("name", VStr folderName);
                          ("mimeType",
                           VStr "application/vnd.google-apps.folder")]))
                (folder_creation w) ;;
  data <- await (json response) ;;
  let errormsg := VUndefined in
  handled <- handleErrors data ;;
  if negb (is_undefined handled) then
    throw (Error (JS.LF ++ "Failed to create Google drive Folder : "
                  ++ to_string errormsg))
  else get data "id".

Definition createPermission (fileId googleAccessToken : value) : M unit :=
  let bodyjson :=
    VObj [("role", VStr "writer"); ("type", VStr "user");
          ("emailAddress", VStr "helix@adobe.com")] in
  response <- fetch "POST"
                ("https://www.googleapis.com/drive/v3/files/"
                 ++ to_string fileId ++ "/permissions")
                (json_headers (bearer googleAccessToken))
                (JsonBody bodyjson) (permission_grant w) ;;
  data <- await (json response) ;;
  errormsg <- handleErrors data ;;
  if negb (is_undefined errormsg) then
    throw (Error (JS.LF
                  ++ "Failed to give permission to Google drive Folder : "
                  ++ to_string errormsg))
  else ret tt.

(** The content written to [fstab.yaml]. *)
Definition contentString (folderId : value) : string :=
  let driveUrl :=
    "https://drive.google.com/drive/folders/" ++ to_string folderId in
  "mountpoints:" ++ JS.LF ++ "  /: " ++ driveUrl.

Definition editFsTab (giturl : value) (gitAccessToken : string)
  (folderId : value) : M value :=
  let editfsTaburl := to_string giturl ++ "/contents/fstab.yaml" in
  let authtring := "Bearer " ++ gitAccessToken in
  response1 <- fetch "GET" editfsTaburl (json_headers authtring) NoBody
                 (fstab_read w) ;;
  data1 <- await (json response1) ;;
  errormsg <- handleErrors data1 ;;
  if negb (is_undefined errormsg) then
    throw (Error (JS.LF ++ "Failed to update FsTab : " ++ to_string errormsg))
  else
    blobsha <- get data1 "sha" ;;
    let bodyjson :=
      VObj [("message", VStr "updated FsTab.Yaml");
            ("content", VStr (Base64.btoa (contentString folderId)));
            ("sha", blobsha)] in
    response <- fetch "PUT" editfsTaburl (json_headers authtring)
                  (JsonBody bodyjson) (fstab_write w) ;;
    data <- await (json response) ;;
    errormsg <- handleErrors data ;;
    if negb (is_undefined errormsg) then
      throw (Error (JS.LF ++ "Failed to update FsTab : "
                    ++ to_string errormsg))
    else
      commit <- get data "commit" ;;
      commit_message <- get commit "message" ;;
      _ <- includes_method commit_message "updated" ;;
      ret data.

(** [getFile] is called without [await]: the request is issued during the
    call, and the promise handed back settles later.  When [fetch]
    rejects, the handler only logs and [data.blob()] is then a member
    access on [undefined]. *)
Definition getFile (documentId : value) (docType : string)
  : M (Async string) :=
  let url :=
    "https://docs.google.com/document/d/" ++ to_string documentId
    ++ "/export?format=" ++ docType in
  emit (Net (Fetch "GET" url [] NoBody)) ;;
  ret match document_export w documentId docType with
      | Resolved data => blob data
      | Rejected _ =>
          Rejected
            (mkExn KTypeError
               "Cannot read properties of undefined (reading 'blob')")
      end.

Definition uploadFile (folderId fileName : value) (fileblob docType : string)
  (googleAccessToken : value) : M unit :=
  let url :=
    "https://www.googleapis.com/upload/drive/v3/files?uploadType=resumable" in
  let '(uploadContentType, mimeType) :=
    if String.eqb docType "xlsx" then
      (VStr "application/vnd.openxmlformats-officedocument.spreadsheetml.sheet",
       VStr "application/vnd.google-apps.spreadsheet")
    else if String.eqb docType "docx" then
      (VStr "application/vnd.openxmlformats-officedocument.wordprocessingml.document",
       VStr "application/vnd.google-apps.document")
    else (VUndefined, VUndefined) in
  metaResponse <- fetch "POST" url
                    [("Authorization", bearer googleAccessToken);
                     ("Content-Type", "application/json");
                     ("X-Upload-Content-Type", to_string uploadContentType)]
                    (JsonBody
                       (VObj [("name", fileName);
                              ("mimeType", mimeType);
                              ("parents", VArr [folderId])]))
                    (upload_session w fileName) ;;
  errormsg <- handleErrors Response_object ;;
  if negb (is_undefined errormsg) then
    throw (Error (JS.LF ++ "Failed to create Tempate : " ++ to_string errormsg))
  else
    let location :=
      match location metaResponse with
      | Some l => l
      | None => "null"
      end in
    response2 <- fetch "PUT" location
                   [("Authorization", bearer googleAccessToken)]
                   (BlobBody fileblob) (upload_content w fileName) ;;
    dataResponse <- await (json response2) ;;
    errormsg <- handleErrors dataResponse ;;
    if negb (is_undefined errormsg) then
      throw (Error (JS.LF ++ "Failed to create Tempate : "
                    ++ to_string errormsg))
    else ret tt.

(** The loop of [getTemplateFolderId]: the [id] of the first item whose
    [name] is [templateName], and [null] when the loop runs out. *)
Fixpoint first_named (templateName : string) (items : list value)
  : M value :=
  match items with
  | [] => ret VNull
  | item :: rest =>
      name <- get item "name" ;;
      if is_string templateName name then get item "id"
      else first_named templateName rest
  end.

(** [driveURL] for the query [q]. *)
Definition drive_query (q : string) : string :=
  "https://www.googleapis.com/drive/v3/files?" ++ Url.search_params_q q.

Definition getTemplateFolderId (templatesFolderID templateName : string)
  (googleAccessToken : value) : M value :=
  let driveURL :=
    drive_query ("'" ++ templatesFolderID ++ "' in parents and name='"
                 ++ templateName ++ "'") in
  response <- fetch "GET" driveURL (json_headers (bearer googleAccessToken))
                NoBody (template_lookup w) ;;
  responseJson <- await (json response) ;;
  _ <- handleErrors responseJson ;;
  files <- get responseJson "files" ;;
  items <- iterate "responseJson.files" files ;;
  first_named templateName items.

Definition getFolderItemsByID (templateFolderID googleAccessToken : value)
  : M value :=
  let driveURL :=
    drive_query ("'" ++ to_string templateFolderID ++ "' in parents") in
  response <- fetch "GET" driveURL (json_headers (bearer googleAccessToken))
                NoBody (folder_listing w templateFolderID) ;;
  responseJson <- await (json response) ;;
  get responseJson "files".

(** The body of the [for] loop of [addTemplate].  Once [tempFile.mimeType]
    has been read, [tempFile] is neither [null] nor [undefined]. *)
Definition copy_file (targetFolderId gAccessToken : value)
  (tempFile : value) : M unit :=
  mimeType <- get tempFile "mimeType" ;;
  let documentType := getDocumentType mimeType in
  if String.eqb documentType "xlsx" || String.eqb documentType "docx" then
    dataBlob <- getFile (member tempFile "id") documentType ;;
    then_detached dataBlob
      (fun result =>
         uploadFile targetFolderId (member tempFile "name") result
           documentType gAccessToken)
  else ret tt.

Definition addTemplate (tempName : string)
  (targetFolderId gAccessToken : value) : M unit :=
  templateFolderId <-
    getTemplateFolderId TEMPLATE_FOLDER_ID tempName gAccessToken ;;
  templateFiles <- getFolderItemsByID templateFolderId gAccessToken ;;
  entries <- iterate "templateFiles" templateFiles ;;
  for_of entries (copy_file targetFolderId gAccessToken).

(** The flow is launched and not awaited. *)
Definition installHelixbot : M unit :=
  emit (Net (WebAuthFlow "https://github.com/apps/helix-bot")).

(** The body of the [try] block of [oneclicksample]. *)
Definition provision (siteName templateName : string) : M unit :=
  sendStatusMessage "Setting Up Git Repo ..." 0 ;;
  sendStatusMessage "Setting Up Git Repo ..." 1 ;;
  gitAuthToken <- getGitHubAuthToken ;;
  gitAccessToken <- getAccessToken gitAuthToken ;;
  sendStatusMessage "Setting Up Git Repo ..." 15 ;;
  gitData <- createUserRepo siteName gitAccessToken ;;
  sendStatusMessage "Git repo successfully created" 33 ;;
  giturl <- get gitData "url" ;;
  gitcloneUrl <- get gitData "clone_url" ;;
  sendStatusMessage "Setting up Google Drive folder..." 40 ;;
  googleAccessToken <- getGoogleAccessToken ;;
  targetFolderId <- createFolder siteName googleAccessToken ;;
  sendStatusMessage "Google Drive folder created successfully" 50 ;;
  sendStatusMessage "Giving Permission to Google Drive" 53 ;;
  createPermission targetFolderId googleAccessToken ;;
  sendStatusMessage "Giving Permission to Google Drive" 60 ;;
  sendStatusMessage "Updating FsTab" 65 ;;
  _ <- editFsTab giturl gitAccessToken targetFolderId ;;
  sendStatusMessage "Adding Templates" 75 ;;
  addTemplate templateName targetFolderId googleAccessToken ;;
  sendStatusMessage "Templates Added Templates" 85 ;;
  sendStatusMessage "Setup Helix Bot" 90 ;;
  installHelixbot ;;
  sendStatusMessage "Helix Bot added successfully" 95 ;;
  sendStatusMessage "Project setup completed !" 100 ;;
  publish gitcloneUrl.

Definition failure_message (e : Exn) : string :=
  "Failed to create Franklin Project " ++ JS.LF ++ message e.

Definition oneclicksample (siteName templateName : string) : M unit :=
  try_catch (provision siteName templateName)
    (fun e => sendStatusMessage (failure_message e) 0).

End Stages.

(** ** The later revision

    The revision of the file that reads its client identifiers from the
    manifest replaces [handleErrors] by two helpers that take the
    [Response] itself, wraps each stage in a [try]/[catch] that rethrows
    with a prefix, and hands the error caught by [oneclicksample] to
    [sendStatusMessage] as a third argument.  [JSON.stringify] is kept
    abstract. *)

Module Revised.

Section Helpers.

Variable stringify : value -> string.

(** [responseBody = await response.text()], parsed when it is not empty;
    a body that does not parse raises, the message being built while
    [data] is still unassigned. *)
Definition parse_body (response : Response value) : M value :=
  if String.eqb (text response) EmptyString then ret VUndefined
  else match json response with
       | Resolved data => ret data
       | Rejected _ => throw (Error "Response Body not json : undefined")
       end.

(** [Error(v)]: the message is the string conversion of [v], and is empty
    when [v] is [undefined]. *)
Definition Error_of (v : value) : Exn :=
  Error match v with VUndefined => EmptyString | _ => to_string v end.

Definition handleGoogleErrors (response : Response value) : M value :=
  data <- parse_body response ;;
  if negb (ok response) then
    error <- get data "error" ;;
    errorMessage <-
      (if truthy error then
         msg <- get error "message" ;;
         if truthy msg then ret msg else ret data
       else ret data) ;;
    found <- includes_method errorMessage "User message" ;;
    errorMessage <-
      (if found : bool then substring_after errorMessage "User message" 14
       else ret errorMessage) ;;
    if negb (is_undefined errorMessage) then throw (Error_of errorMessage)
    else ret data
  else ret data.

(** [data.errors.join()]: only arrays carry [join]. *)
Definition join_method (v : value) : M string :=
  match v with
  | VArr _ => ret (to_string v)
  | _ => throw (mkExn KTypeError "data.errors.join is not a function")
  end.

(** The message is a string on both branches, so the test
    [errormsg !== undefined] that guards the [throw] always passes. *)
Definition handleGitErrors (response : Response value) : M value :=
  data <- parse_body response ;;
  if negb (ok response) then
    errors <- get data "errors" ;;
    errormsg <- (if truthy errors then join_method errors
                 else ret (stringify data)) ;;
    throw (Error errormsg)
  else ret data.

Definition createUserRepo (w : World) (repoName accessToken : string)
  : M value :=
  let createRepoUrl :=
    "https://api.github.com/repos/hellofranklin/helixboilerplate/generate" in
  let authtring := "Bearer " ++ accessToken in
  try_catch
    (response <- fetch "POST" createRepoUrl (json_headers authtring)
                   (JsonBody (VObj [("name", VStr repoName)]))
                   (repo_generation w) ;;
     handleGitErrors response)
    (fun e => throw (Error ("Failed to Create Git Repo : " ++ message e))).

Definition getTemplateFolderId (w : World)
  (templatesFolderID templateName : string) (googleAccessToken : value)
  : M value :=
  let driveURL :=
    drive_query ("'" ++ templatesFolderID ++ "' in parents and name='"
                 ++ templateName ++ "'") in
  try_catch
    (response <- fetch "GET" driveURL
                   (json_headers (bearer googleAccessToken)) NoBody
                   (template_lookup w) ;;
     if negb (ok response) then
       throw (Error ("Request failed with status code "
                     ++ to_string (VNum (status response))))
     else
       responseJson <- await (json response) ;;
       error <- get responseJson "error" ;;
       if truthy error then
         msg <- get error "message" ;;
         throw (Error_of msg)
       else
         files <- get responseJson "files" ;;
         items <- iterate "responseJson.files" files ;;
         first_named templateName items)
    (fun e =>
       throw (Error ("Failed to fetch template folder ID: " ++ message e))).

(** [`${e}`] for an error object: its name, then its message. *)
Definition exn_to_string (e : Exn) : string :=
  let name := match kind e with
              | KError => "Error"
              | KTypeError => "TypeError"
              | KSyntaxError => "SyntaxError"
              end in
  if String.eqb (message e) EmptyString then name
  else name ++ ": " ++ message e.

(** The client identifier and secret of the source-control application,
    read from the manifest. *)
Variables git_client_id git_client_secret : string.

Definition getGitHubAuthToken (w : World) : M string :=
  let gitAuthEndPoint :=
    "https://github.com/login/oauth/authorize?client_id=" ++ git_client_id
    ++ "&redirect_uri=" ++ REDIRECT_URI w ++ "&scope=repo,gist,admin" in
  try_catch
    (redirectUrl <- launchWebAuthFlow gitAuthEndPoint (git_authorization w) ;;
     if JS.includes redirectUrl "error=access_denied" then
       let errormsg := " Access denied !" in
       throw (Error ("Failed to Authorize Git : " ++ errormsg))
     else
       ret (JS.substring_from redirectUrl
              (JS.indexOf redirectUrl "code=" + 5)))
    (fun e =>
       throw (Error ("Failed to authorize Git Account : "
                     ++ exn_to_string e))).

(** The token is cut between the end of the first [access_token=] and the
    first ampersand of the whole reply. *)
Definition getGithubAccessToken (w : World) : M string :=
  gitAuthToken <- getGitHubAuthToken w ;;
  let url := "https://github.com/login/oauth/access_token" in
  let body :=
    VObj [("client_id", VStr git_client_id);
          ("client_secret", VStr git_client_secret);
          ("code", VStr gitAuthToken)] in
  try_catch
    (response <- fetch "POST" url
                   [("Authorization", gitAuthToken);
                    ("Content-Type", "application/json")]
                   (JsonBody body) (git_token_exchange w) ;;
     let data := text response in
     let startIndex := JS.indexOf data "access_token=" + 13 in
     let endIndex := JS.indexOf data "&" in
     ret (JS.substring data startIndex endIndex))
    (fun e =>
       throw (Error ("Failed to authorize Git Account : "
                     ++ exn_to_string e))).

(** [oauth2.scopes] and [oauth2.client_id] of the manifest. *)
Variable oauth2_scopes : value.
Variable oauth2_client_id : string.

Definition TEMPLATE_FOLDER_ID : string := "1x1IOTj3iTNqAonbzfvvKUv6lAzVHKZ_Z".

Definition getGoogleAccessToken (w : World) : M value :=
  let googleAuthURL :=
    "https://accounts.google.com/o/oauth2/v2/auth?scope="
    ++ to_string oauth2_scopes
    ++ "&include_granted_scopes=true&response_type=token"
    ++ "&state=state_parameter_passthrough_value&redirect_uri="
    ++ REDIRECT_URI w ++ "&client_id=" ++ oauth2_client_id in
  redirectUrl <- launchWebAuthFlow googleAuthURL (google_authorization w) ;;
  if lastError w then ret VNull
  else if JS.includes redirectUrl "access_denied" then ret VNull
  else
    let googleAccessToken :=
      JS.substring_from redirectUrl
        (JS.indexOf redirectUrl "access_token=" + 13) in
    let googleAccessToken :=
      JS.substring googleAccessToken 0 (JS.indexOf googleAccessToken "&") in
    ret (VStr googleAccessToken).

(** The template literal of the second [log.info] reads [data.id] before
    the [return] does. *)
Definition createGDriveFolder (w : World) (folderName : string)
  (googleAccessToken : value) : M value :=
  data <-
    try_catch
      (response <- fetch "POST" "https://www.googleapis.com/drive/v3/files"
                     (json_headers (bearer googleAccessToken))
                     (JsonBody
                        (VObj [("name", VStr folderName);
                               ("mimeType",
                                VStr "application/vnd.google-apps.folder")]))
                     (folder_creation w) ;;
       handleGoogleErrors response)
      (fun e =>
         throw (Error ("Failed to Create Google Drive Folder : "
                       ++ message e))) ;;
  get data "id".

Definition createPermission (w : World) (fileId googleAccessToken : value)
  : M unit :=
  let bodyjson :=
    VObj [("role", VStr "writer"); ("type", VStr "user");
          ("emailAddress", VStr "helix@adobe.com")] in
  try_catch
    (response <- fetch "POST"
                   ("https://www.googleapis.com/drive/v3/files/"
                    ++ to_string fileId ++ "/permissions")
                   (json_headers (bearer googleAccessToken))
                   (JsonBody bodyjson) (permission_grant w) ;;
     _ <- handleGoogleErrors response ;;
     ret tt)
    (fun e =>
       throw (Error ("Failed to Permission to Google Drive : " ++ message e))).

Definition editFsTab (w : World) (giturl : value) (gitAccessToken : string)
  (folderId : value) : M value :=
  let editfsTaburl := to_string giturl ++ "/contents/fstab.yaml" in
  let authtring := "Bearer " ++ gitAccessToken in
  try_catch
    (response1 <- fetch "GET" editfsTaburl (json_headers authtring) NoBody
                    (fstab_read w) ;;
     data1 <- handleGitErrors response1 ;;
     blobsha <- get data1 "sha" ;;
     let bodyjson :=
       VObj [("message", VStr "updated FsTab.Yaml");
             ("content", VStr (Base64.btoa (contentString folderId)));
             ("sha", blobsha)] in
     response <- fetch "PUT" editfsTaburl (json_headers authtring)
                   (JsonBody bodyjson) (fstab_write w) ;;
     data <- handleGitErrors response ;;
     commit <- get data "commit" ;;
     commit_message <- get commit "message" ;;
     _ <- includes_method commit_message "updated" ;;
     ret data)
    (fun e =>
       throw (Error ("Failed to Update FS Tab : " ++ message e ++ "||"
                     ++ exn_to_string e))).

(** [getFile] is called without [await].  The promise it hands back is
    rejected with the rethrown error when the request fails or is answered
    with a status that is not ok, and otherwise settles as
    [response.blob()] does. *)
Definition getFile (w : World) (documentId : value) (docType : string)
  : M (Async string) :=
  let documentPath :=
    if String.eqb docType "docx" then "document" else "spreadsheets" in
  let url :=
    "https://docs.google.com/" ++ documentPath ++ "/d/"
    ++ to_string documentId ++ "/export?format=" ++ docType in
  emit (Net (Fetch "GET" url [] NoBody)) ;;
  ret match document_export w documentId docType with
      | Resolved response =>
          if negb (ok response) then
            Rejected
              (Error ("Failed to fetch the default Document: "
                      ++ "Request failed with status code "
                      ++ to_string (VNum (status response))))
          else blob response
      | Rejected e =>
          Rejected
            (Error ("Failed to fetch the default Document: " ++ message e))
      end.

Definition uploadFile (w : World) (folderId fileName : value)
  (fileblob docType : string) (googleAccessToken : value) : M unit :=
  let url :=
    "https://www.googleapis.com/upload/drive/v3/files?uploadType=resumable" in
  let '(uploadContentType, mimeType) :=
    if String.eqb docType "xlsx" then
      (VStr "application/vnd.openxmlformats-officedocument.spreadsheetml.sheet",
       VStr "application/vnd.google-apps.spreadsheet")
    else if String.eqb docType "docx" then
      (VStr "application/vnd.openxmlformats-officedocument.wordprocessingml.document",
       VStr "application/vnd.google-apps.document")
    else (VUndefined, VUndefined) in
  try_catch
    (metaResponse <- fetch "POST" url
                       [("Authorization", bearer googleAccessToken);
                        ("Content-Type", "application/json");
                        ("X-Upload-Content-Type",
                         to_string uploadContentType)]
                       (JsonBody
                          (VObj [("name", fileName);
                                 ("mimeType", mimeType);
                                 ("parents", VArr [folderId])]))
                       (upload_session w fileName) ;;
     _ <- handleGoogleErrors metaResponse ;;
     let location :=
       match location metaResponse with
       | Some l => l
       | None => "null"
       end in
     response <- fetch "PUT" location
                   [("Authorization", bearer googleAccessToken)]
                   (BlobBody fileblob) (upload_content w fileName) ;;
     _ <- handleGoogleErrors response ;;
     ret tt)
    (fun e => throw (Error ("Failed to create Tempate  : " ++ message e))).

Definition getFolderItemsByID (w : World)
  (templateFolderID googleAccessToken : value) : M value :=
  let driveURL :=
    drive_query ("'" ++ to_string templateFolderID ++ "' in parents") in
  try_catch
    (response <- fetch "GET" driveURL
                   (json_headers (bearer googleAccessToken)) NoBody
                   (folder_listing w templateFolderID) ;;
     if negb (ok response) then
       throw (Error ("Request failed with status code "
                     ++ to_string (VNum (status response))))
     else
       responseJson <- await (json response) ;;
       error <- get responseJson "error" ;;
       if truthy error then
         msg <- get error "message" ;;
         throw (Error_of msg)
       else get responseJson "files")
    (fun e => throw (Error ("Failed to fetch folder items: " ++ message e))).

(** [DOCUMENT_TYPE_MAP[fileMimeType] || 'file']: the key is the string
    conversion of [fileMimeType].  A key that names an inherited member of
    the map yields that member, which is neither ['xlsx'] nor ['docx'] and
    stands as ['file'] here. *)
Definition getDocumentType (fileMimeType : value) : string :=
  let key := to_string fileMimeType in
  if String.eqb key "application/vnd.google-apps.spreadsheet" then "xlsx"
  else if String.eqb key "application/vnd.google-apps.document" then "docx"
  else if String.eqb key "application/vnd.google-apps.folder" then "folder"
  else "file".

Definition copy_file (w : World) (targetFolderId gAccessToken : value)
  (tempFile : value) : M unit :=
  mimeType <- get tempFile "mimeType" ;;
  let documentType := getDocumentType mimeType in
  if String.eqb documentType "xlsx" || String.eqb documentType "docx" then
    dataBlob <- getFile w (member tempFile "id") documentType ;;
    then_detached dataBlob
      (fun result =>
         uploadFile w targetFolderId (member tempFile "name") result
           documentType gAccessToken)
  else ret tt.

Definition addTemplate (w : World) (tempName : string)
  (targetFolderId gAccessToken : value) : M unit :=
  templateFolderId <-
    getTemplateFolderId w TEMPLATE_FOLDER_ID tempName gAccessToken ;;
  templateFiles <- getFolderItemsByID w templateFolderId gAccessToken ;;
  entries <- iterate "templateFiles" templateFiles ;;
  for_of entries (copy_file w targetFolderId gAccessToken).

(** The body of the [try] block of [oneclicksample]. *)
Definition provision (w : World) (siteName templateName : string) : M unit :=
  sendStatusMessage "Setting Up Git Repo ..." 0 ;;
  gitAccessToken <- getGithubAccessToken w ;;
  sendStatusMessage "Setting Up Git Repo ..." 15 ;;
  gitData <- createUserRepo w siteName gitAccessToken ;;
  sendStatusMessage "Git repo successfully created" 33 ;;
  giturl <- get gitData "url" ;;
  gitcloneUrl <- get gitData "clone_url" ;;
  sendStatusMessage "Setting up Google Drive folder..." 40 ;;
  googleAccessToken <- getGoogleAccessToken w ;;
  targetFolderId <- createGDriveFolder w siteName googleAccessToken ;;
  sendStatusMessage "Google Drive folder created successfully" 50 ;;
  sendStatusMessage "Giving Permission to Google Drive" 53 ;;
  createPermission w targetFolderId googleAccessToken ;;
  sendStatusMessage "Giving Permission to Google Drive" 60 ;;
  sendStatusMessage "Updating FsTab" 65 ;;
  _ <- editFsTab w giturl gitAccessToken targetFolderId ;;
  sendStatusMessage "Adding Templates" 75 ;;
  addTemplate w templateName targetFolderId googleAccessToken ;;
  sendStatusMessage "Templates Added Templates" 85 ;;
  sendStatusMessage "Setup Helix Bot" 90 ;;
  installHelixbot ;;
  sendStatusMessage "Helix Bot added successfully" 95 ;;
  sendStatusMessage "Project setup completed !" 100 ;;
  publish gitcloneUrl.

(** What this revision sends and requests.  Inside the [try] block
    [sendStatusMessage] is called with two arguments, so the member
    [error] of the message is [undefined] and the message is the one of
    the first revision; the [catch] block passes the error, whose
    [message] becomes the member [error]. *)
Inductive Sent : Type :=
| Before (e : Event)
| StatusError (statusMessage : string) (percentCompletion : Z)
    (error : string).

Definition oneclicksample (w : World) (siteName templateName : string)
  : list Sent :=
  match provision w siteName templateName with
  | (t, Return _) => map Before t
  | (t, Throw e) =>
      (map Before t
       ++ [StatusError "Failed to create Franklin Project " 0 (message e)])%list
  end.

End Helpers.

End Revised.

(** ** The intermediate revision of folder creation

    The revision that first reads its identifiers from the manifest keeps
    [handleErrors] on the parsed body, in a shorter form, and calls it from
    [createGDriveFolder] only when the status is not 200. *)

Module Interim.

Definition handleErrors (data : value) : M value :=
  error <- get data "error" ;;
  errorMessage <- (if truthy error then get error "message" else ret data) ;;
  found <- includes_method errorMessage "User message" ;;
  if found : bool then substring_after errorMessage "User message" 14
  else ret errorMessage.

Definition createGDriveFolder (w : World) (folderName : string)
  (googleAccessToken : value) : M value :=
  response <- fetch "POST" "https://www.googleapis.com/drive/v3/files"
                (json_headers (bearer googleAccessToken))
                (JsonBody
                   (VObj [("name", VStr folderName);
                          ("mimeType",
                           VStr "application/vnd.google-apps.folder")]))
                (folder_creation w) ;;
  data <- await (json response) ;;
  if negb (status response =? 200) then
    let errormsg := VUndefined in
    handled <- handleErrors data ;;
    if negb (is_undefined handled) then
      throw (Error (JS.LF ++ "Failed to create Google drive Folder : "
                    ++ to_string errormsg))
    else get data "id"
  else get data "id".

End Interim.

(** ** Sample worlds

    Replies are given by their parsed body; the text of a reply is filled
    in only where a stage reads it. *)

Module Sample.

Definition reply {J} (j : J) : Async (Response J) :=
  Resolved (mkResponse true 200 EmptyString (Resolved j) None (Resolved EmptyString)).

Definition refusal {J} (code : Z) (j : J) : Async (Response J) :=
  Resolved (mkResponse false code EmptyString (Resolved j) None (Resolved EmptyString)).

Definition plain (code : Z) (body : string) : Async (Response value) :=
  Resolved (mkResponse (code =? 200) code body
              (Rejected (mkExn KSyntaxError "Unexpected token"))
              None (Resolved EmptyString)).

Definition sheet : value :=
  DriveFile_value
    (mkDriveFile "s1" "helix-query" "application/vnd.google-apps.spreadsheet").
Definition doc : value :=
  DriveFile_value
    (mkDriveFile "d1" "index" "application/vnd.google-apps.document").
Definition picture : value :=
  DriveFile_value (mkDriveFile "p1" "logo" "image/png").
Definition blog : value :=
  DriveFile_value
    (mkDriveFile "t1" "blog" "application/vnd.google-apps.folder").

Definition repo : value :=
  VObj [("url", VStr "https://api.github.com/repos/me/site");
        ("clone_url", VStr "https://github.com/me/site.git")].

Definition library : value := listing_of [blog].

Definition children : value := listing_of [sheet; doc; picture].

(** A world in which every backend answers as documented, except for the
    replies given as arguments. *)
Definition world (token_exchange repo_reply : Async (Response value))
  (google_redirect : Async string) (folder_reply : Async (Response value))
  (lookup : Async (Response value))
  (listing : value -> Async (Response value)) : World :=
  {| REDIRECT_URI := "https://ext.chromiumapp.org/";
     GIT_CLIENT_SECRET := "secret";
     git_authorization := Resolved "https://ext.chromiumapp.org/?code=c0de";
     git_token_exchange := token_exchange;
     repo_generation := repo_reply;
     lastError := false;
     google_authorization := google_redirect;
     folder_creation := folder_reply;
     permission_grant := reply (VObj [("id", VStr "perm1")]);
     fstab_read := reply (VObj [("sha", VStr "abc123")]);
     fstab_write :=
       reply (VObj [("commit",
                     VObj [("message", VStr "updated FsTab.Yaml")])]);
     template_lookup := lookup;
     folder_listing := listing;
     document_export := fun _ _ =>
       Resolved (mkResponse true 200 EmptyString
                   (Rejected (mkExn KSyntaxError "Unexpected token"))
                   None (Resolved "bytes"));
     upload_session := fun _ =>
       Resolved (mkResponse true 200 EmptyString (Resolved VNull)
                   (Some "https://www.googleapis.com/upload/session/1")
                   (Resolved EmptyString));
     upload_content := fun _ => reply (VObj [("id", VStr "copy1")]) |}.

Definition token_granted : Async (Response value) :=
  plain 200 "access_token=gho_1&scope=repo&token_type=bearer".

Definition google_granted : Async string :=
  Resolved
    "https://ext.chromiumapp.org/#state=s&access_token=ya29&token_type=Bearer".

Definition folder_created : Async (Response value) :=
  reply (VObj [("id", VStr "folder1")]).

Definition healthy : World :=
  world token_granted (reply repo) google_granted folder_created
    (reply library) (fun _ => reply children).

(** The storage provider refuses to create the folder. *)
Definition quota_error : value :=
  VObj [("error",
         VObj [("code", VNum 403);
               ("message", VStr "User message: quota exceeded")])].

Definition folder_refused : World :=
  world token_granted (reply repo) google_granted (refusal 403 quota_error)
    (reply library) (fun _ => reply children).

(** The body that [editFsTab] writes for the folder [folder1]. *)
Definition fstab_update : value :=
  VObj [("message", VStr "updated FsTab.Yaml");
        ("content",
         VStr "bW91bnRwb2ludHM6CiAgLzogaHR0cHM6Ly9kcml2ZS5nb29nbGUuY29tL2RyaXZlL2ZvbGRlcnMvZm9sZGVyMQ==");
        ("sha", VStr "abc123")].

Definition folder_failure : Exn :=
  Error (JS.LF ++ "Failed to create Google drive Folder : undefined").



(** The name is taken: the repository is not generated. *)
Definition name_taken : value :=
  VObj [("message", VStr "Unprocessable Entity");
        ("errors",
         VArr [VStr "Could not clone: Name already exists on this account"])].

Definition repo_refused : World :=
  world token_granted (refusal 422 name_taken) google_granted folder_created
    (reply library) (fun _ => reply children).

(** The user declines the storage provider's consent screen. *)
Definition google_denied : World :=
  world token_granted (reply repo)
    (Resolved "https://ext.chromiumapp.org/#error=access_denied")
    (refusal 401
       (VObj [("error",
               VObj [("code", VNum 401);
                     ("message", VStr "Invalid Credentials")])]))
    (reply library) (fun _ => reply children).

(** The template library has no child of the requested name, while the
    query on the parent [null] lists a spreadsheet. *)
Definition template_missing : World :=
  world token_granted (reply repo) google_granted folder_created
    (reply (listing_of []))
    (fun parent =>
       match parent with
       | VNull => reply (listing_of [sheet])
       | _ => reply children
       end).

(** As [repo_refused], the reply having a text. *)
Definition repo_refused_text : World :=
  world token_granted
    (Resolved (mkResponse false 422 "Unprocessable" (Resolved name_taken)
                 None (Resolved EmptyString)))
    google_granted folder_created (reply library) (fun _ => reply children).

(** The reply that refuses the folder, with a text. *)
Definition quota_reply : Response value :=
  mkResponse false 403 "Forbidden" (Resolved quota_error) None
    (Resolved EmptyString).

(** The request that generates the repository does not complete. *)
Definition repo_unreachable : World :=
  world token_granted (Rejected (mkExn KTypeError "Failed to fetch"))
    google_granted folder_created (reply library) (fun _ => reply children).

(** Every export request is rejected. *)
Definition export_down : World :=
  {| REDIRECT_URI := REDIRECT_URI healthy;
     GIT_CLIENT_SECRET := GIT_CLIENT_SECRET healthy;
     git_authorization := git_authorization healthy;
     git_token_exchange := git_token_exchange healthy;
     repo_generation := repo_generation healthy;
     lastError := lastError healthy;
     google_authorization := google_authorization healthy;
     folder_creation := folder_creation healthy;
     permission_grant := permission_grant healthy;
     fstab_read := fstab_read healthy;
     fstab_write := fstab_write healthy;
     template_lookup := template_lookup healthy;
     folder_listing := folder_listing healthy;
     document_export := fun _ _ =>
       Rejected (mkExn KTypeError "Failed to fetch");
     upload_session := upload_session healthy;
     upload_content := upload_content healthy |}.

(** The token endpoint lists the token as its last parameter. *)
Definition token_last : World :=
  world (plain 200 "token_type=bearer&access_token=gho_1") (reply repo)
    google_granted folder_created (reply library) (fun _ => reply children).


(** Replies to the creation of the folder: an error whose message is a
    number, and a body with both a falsy [error] and an [id]. *)
Definition numeric_error : value :=
  VObj [("error", VObj [("message", VNum 42)])].

Definition zero_error : value :=
  VObj [("error", VNum 0); ("id", VStr "folder1")].

Definition folder_numeric_error : World :=
  world token_granted (reply repo) google_granted (refusal 400 numeric_error)
    (reply library) (fun _ => reply children).

Definition folder_zero_error : World :=
  world token_granted (reply repo) google_granted (reply zero_error)
    (reply library) (fun _ => reply children).

Definition folder_null : World :=
  world token_granted (reply repo) google_granted (reply VNull)
    (reply library) (fun _ => reply children).

End Sample.

(** ** Reading a log *)

Definition statuses (t : list Event) : list Z :=
  flat_map (fun e => match e with
                     | StatusUpdate _ p => [p]
                     | _ => []
                     end) t.

Definition is_publish (e : Event) : bool :=
  match e with Publish _ => true | _ => false end.

Definition is_detached (e : Event) : bool :=
  match e with Detached _ => true | _ => false end.

(** The message sent by the [catch] block of [oneclicksample]. *)
Definition is_failure (e : Event) : bool :=
  match e with
  | StatusUpdate m _ => JS.startsWith m "Failed to create Franklin Project "
  | _ => false
  end.

(** Events other than messages to the popup. *)
Definition is_request (e : Event) : bool :=
  match e with Net _ | Detached _ => true | _ => false end.

(** Requests issued on the awaited path. *)
Definition is_net (e : Event) : bool :=
  match e with Net _ => true | _ => false end.

Definition call_url (c : Call) : string :=
  match c with WebAuthFlow url => url | Fetch _ url _ _ => url end.

(** Requests addressed to the storage provider. *)
Definition storage_side (c : Call) : bool :=
  JS.startsWith (call_url c) "https://accounts.google.com/"
  || JS.startsWith (call_url c) "https://www.googleapis.com/"
  || JS.startsWith (call_url c) "https://docs.google.com/".

Definition is_export (c : Call) : bool :=
  match c with
  | Fetch method url _ _ =>
      String.eqb method "GET"
      && JS.startsWith url "https://docs.google.com/document/d/"
  | _ => false
  end.

Definition is_upload (c : Call) : bool :=
  match c with
  | Fetch method url _ _ =>
      String.eqb method "POST"
      && String.eqb url
           "https://www.googleapis.com/upload/drive/v3/files?uploadType=resumable"
  | _ => false
  end.

(** Events other than a failure message, a [publish] and a continuation:
    a log made of them leaves nothing to come once its last message is
    sent. *)
Definition clean (e : Event) : bool :=
  negb (is_failure e) && negb (is_publish e) && negb (is_detached e).

(** A request whose method is PUT carries a JSON object of which the
    [content] member is the string [expected]. *)
Definition carries_content (expected : string) (e : Event) : bool :=
  match e with
  | Net (Fetch method _ _ body) =>
      if String.eqb method "PUT" then
        match body with
        | JsonBody (VObj members) => is_string expected (lookup "content" members)
        | _ => false
        end
      else true
  | _ => true
  end.

(** An event none of whose requests is addressed to the storage provider. *)
Definition off_storage (e : Event) : bool :=
  forallb (fun c => negb (storage_side c)) (calls_of [e]).

(** Entries that the template copy exports and uploads: those whose
    [mimeType] is that of a spreadsheet or of a document. *)
Definition recognised (f : value) : bool :=
  is_string "application/vnd.google-apps.spreadsheet" (member f "mimeType")
  || is_string "application/vnd.google-apps.document" (member f "mimeType").

(** The export request of [getFile]. *)
Definition export_call (documentId docType : string) : Call :=
  Fetch "GET"
    ("https://docs.google.com/document/d/" ++ documentId
     ++ "/export?format=" ++ docType) [] NoBody.

Definition export_of (f : value) : Call :=
  export_call (to_string (member f "id"))
    (getDocumentType (member f "mimeType")).

(** The blob with which the export of an entry settles, if it does. *)
Definition exported_blob (w : World) (f : value) : option string :=
  match document_export w (member f "id")
          (getDocumentType (member f "mimeType")) with
  | Resolved data =>
      match blob data with Resolved b => Some b | Rejected _ => None end
  | Rejected _ => None
  end.

(** The export of an entry settles with a blob. *)
Definition exported (w : World) (f : value) : bool :=
  match exported_blob w f with Some _ => true | None => false end.

(** The request that opens the upload of a file named [fileName] into
    [folderId], for the document types [xlsx] and [docx]. *)
Definition session_call (folderId fileName : value) (docType : string)
  (googleAccessToken : value) : Call :=
  Fetch "POST"
    "https://www.googleapis.com/upload/drive/v3/files?uploadType=resumable"
    [("Authorization", bearer googleAccessToken);
     ("Content-Type", "application/json");
     ("X-Upload-Content-Type",
      if String.eqb docType "xlsx"
      then "application/vnd.openxmlformats-officedocument.spreadsheetml.sheet"
      else "application/vnd.openxmlformats-officedocument.wordprocessingml.document")]
    (JsonBody
       (VObj [("name", fileName);
              ("mimeType",
               VStr (if String.eqb docType "xlsx"
                     then "application/vnd.google-apps.spreadsheet"
                     else "application/vnd.google-apps.document"));
              ("parents", VArr [folderId])])).

(** The request that sends the exported bytes to the address given by the
    [location] header of the session reply. *)
Definition content_call (location : option string)
  (googleAccessToken : value) (fileblob : string) : Call :=
  Fetch "PUT" match location with Some l => l | None => "null" end
    [("Authorization", bearer googleAccessToken)] (BlobBody fileblob).

(** The requests of one upload: the session and, once that request has
    been answered, the content. *)
Definition upload_calls (w : World) (folderId fileName : value)
  (fileblob docType : string) (googleAccessToken : value) : list Call :=
  session_call folderId fileName docType googleAccessToken
  :: match upload_session w fileName with
     | Resolved metaResponse =>
         [content_call (location metaResponse) googleAccessToken fileblob]
     | Rejected _ => []
     end.

(** The continuation registered for an entry: it uploads the blob if the
    export yields one, and issues nothing otherwise. *)
Definition continuation (w : World) (targetFolderId gAccessToken : value)
  (f : value) : Event :=
  Detached match exported_blob w f with
           | Some fileblob =>
               upload_calls w targetFolderId (member f "name") fileblob
                 (getDocumentType (member f "mimeType")) gAccessToken
           | None => []
           end.

(** What one turn of the copy loop logs for an entry that is an object:
    nothing unless the entry is recognised, and else the export request
    and the continuation. *)
Definition copy_events (w : World) (targetFolderId gAccessToken : value)
  (f : value) : list Event :=
  if recognised f then
    [Net (export_of f); continuation w targetFolderId gAccessToken f]
  else [].


(** A request on the awaited path that is neither an export nor the
    opening of an upload. *)
Definition other_request (e : Event) : bool :=
  match e with
  | Net c => negb (is_export c) && negb (is_upload c)
  | _ => false
  end.

(** Every event logged by [m] satisfies [P]. *)
Definition only {A} (P : Event -> bool) (m : M A) : Prop :=
  forallb P (trace m) = true.

(** Requests whose method reads or writes, none that removes. *)
Definition known_method (c : Call) : bool :=
  match c with
  | WebAuthFlow _ => true
  | Fetch method _ _ _ =>
      String.eqb method "GET" || String.eqb method "POST"
      || String.eqb method "PUT"
  end.

Definition known_methods (e : Event) : bool :=
  match e with
  | Net c => known_method c
  | Detached calls => forallb known_method calls
  | _ => true
  end.

(** Messages to the popup that are not the last one of a run. *)
Definition intermediate (e : Event) : bool :=
  negb (is_publish e) && negb (is_failure e).

(** The part of a log that precedes its first upload continuation. *)
Fixpoint until_detached (t : list Event) : list Event :=
  match t with
  | [] => []
  | e :: rest => if is_detached e then [] else e :: until_detached rest
  end.

Fixpoint nondecreasing (l : list Z) : Prop :=
  match l with
  | x :: (y :: _) as rest => x <= y /\ nondecreasing rest
  | _ => True
  end.

(** The percentages of a complete run. *)
Definition progress : list Z :=
  [0; 1; 15; 33; 40; 50; 53; 60; 65; 75; 85; 90; 95; 100].

(** ** The stage at which a run stops

    The awaited steps of the [try] block of [oneclicksample], in order;
    [ReadRepo] stands for the reading of [gitData.url] and
    [gitData.clone_url]. *)

Inductive Stage : Type :=
| AuthSourceControl
| TokenExchange
| CreateRepo
| ReadRepo
| AuthStorage
| CreateFolder
| GrantPermission
| UpdateMountConfig
| CopyTemplate.

Section Halting.

Variable w : World.
Variables siteName templateName : string.

(** The log of the [try] block up to the end of each stage, given what the
    stages before it returned. *)
Definition log_git_authorization : list Event :=
  ([StatusUpdate "Setting Up Git Repo ..." 0;
    StatusUpdate "Setting Up Git Repo ..." 1]
   ++ trace (getGitHubAuthToken w))%list.

Definition log_token_exchange (gitAuthToken : string) : list Event :=
  (log_git_authorization ++ trace (getAccessToken w gitAuthToken))%list.

Definition log_repository (gitAuthToken gitAccessToken : string)
  : list Event :=
  (log_token_exchange gitAuthToken
   ++ [StatusUpdate "Setting Up Git Repo ..." 15]
   ++ trace (createUserRepo w siteName gitAccessToken))%list.

Definition log_repository_read (gitAuthToken gitAccessToken : string)
  : list Event :=
  (log_repository gitAuthToken gitAccessToken
   ++ [StatusUpdate "Git repo successfully created" 33])%list.

Definition log_storage_authorization (gitAuthToken gitAccessToken : string)
  : list Event :=
  (log_repository_read gitAuthToken gitAccessToken
   ++ [StatusUpdate "Setting up Google Drive folder..." 40]
   ++ trace (getGoogleAccessToken w))%list.

Definition log_folder (gitAuthToken gitAccessToken : string)
  (googleAccessToken : value) : list Event :=
  (log_storage_authorization gitAuthToken gitAccessToken
   ++ trace (createFolder w siteName googleAccessToken))%list.

Definition log_permission (gitAuthToken gitAccessToken : string)
  (googleAccessToken targetFolderId : value) : list Event :=
  (log_folder gitAuthToken gitAccessToken googleAccessToken
   ++ [StatusUpdate "Google Drive folder created successfully" 50;
       StatusUpdate "Giving Permission to Google Drive" 53]
   ++ trace (createPermission w targetFolderId googleAccessToken))%list.

Definition log_mount (gitAuthToken gitAccessToken : string)
  (giturl googleAccessToken targetFolderId : value) : list Event :=
  (log_permission gitAuthToken gitAccessToken googleAccessToken targetFolderId
   ++ [StatusUpdate "Giving Permission to Google Drive" 60;
       StatusUpdate "Updating FsTab" 65]
   ++ trace (editFsTab w giturl gitAccessToken targetFolderId))%list.

Definition log_template (gitAuthToken gitAccessToken : string)
  (giturl googleAccessToken targetFolderId : value) : list Event :=
  (log_mount gitAuthToken gitAccessToken giturl googleAccessToken
     targetFolderId
   ++ [StatusUpdate "Adding Templates" 75]
   ++ trace (addTemplate w templateName targetFolderId googleAccessToken))%list.

(** The first stage that raises, with its error and the log up to the end
    of that stage; [None] when no stage raises. *)
Definition first_failure : option (Stage * Exn * list Event) :=
  match outcome (getGitHubAuthToken w) with
  | Throw e => Some (AuthSourceControl, e, log_git_authorization)
  | Return gitAuthToken =>
  match outcome (getAccessToken w gitAuthToken) with
  | Throw e => Some (TokenExchange, e, log_token_exchange gitAuthToken)
  | Return gitAccessToken =>
  match outcome (createUserRepo w siteName gitAccessToken) with
  | Throw e => Some (CreateRepo, e, log_repository gitAuthToken gitAccessToken)
  | Return gitData =>
  match outcome (get gitData "url") with
  | Throw e =>
      Some (ReadRepo, e, log_repository_read gitAuthToken gitAccessToken)
  | Return giturl =>
  match outcome (getGoogleAccessToken w) with
  | Throw e =>
      Some (AuthStorage, e,
            log_storage_authorization gitAuthToken gitAccessToken)
  | Return googleAccessToken =>
  match outcome (createFolder w siteName googleAccessToken) with
  | Throw e =>
      Some (CreateFolder, e,
            log_folder gitAuthToken gitAccessToken googleAccessToken)
  | Return targetFolderId =>
  match outcome (createPermission w targetFolderId googleAccessToken) with
  | Throw e =>
      Some (GrantPermission, e,
            log_permission gitAuthToken gitAccessToken googleAccessToken
              targetFolderId)
  | Return _ =>
  match outcome (editFsTab w giturl gitAccessToken targetFolderId) with
  | Throw e =>
      Some (UpdateMountConfig, e,
            log_mount gitAuthToken gitAccessToken giturl googleAccessToken
              targetFolderId)
  | Return _ =>
  match outcome (addTemplate w templateName targetFolderId googleAccessToken)
  with
  | Throw e =>
      Some (CopyTemplate, e,
            log_template gitAuthToken gitAccessToken giturl googleAccessToken
              targetFolderId)
  | Return _ => None
  end end end end end end end end end.

End Halting.

(** ** Laws of the monad *)

Lemma trace_bind {A B} (m : M A) (k : A -> M B) :
  trace (bind m k)
  = (trace m ++ match outcome m with
                | Return a => trace (k a)
                | Throw _ => []
                end)%list.
Proof.
  destruct m as [t [a | e]]; cbn.
  - destruct (k a); reflexivity.
  - now rewrite app_nil_r.
Qed.

Lemma outcome_bind {A B} (m : M A) (k : A -> M B) :
  outcome (bind m k)
  = match outcome m with
    | Return a => outcome (k a)
    | Throw e => Throw e
    end.
Proof.
  destruct m as [t [a | e]]; cbn; [destruct (k a) |]; reflexivity.
Qed.

Lemma bind_returns {A B} (m : M A) (k : A -> M B) (b : B) :
  outcome (bind m k) = Return b ->
  exists a, outcome m = Return a /\ outcome (k a) = Return b
            /\ trace (bind m k) = (trace m ++ trace (k a))%list.
Proof.
  rewrite outcome_bind, trace_bind.
  destruct (outcome m) as [a | e]; [eauto | discriminate].
Qed.

Lemma bind_throws {A B} (m : M A) (k : A -> M B) (e : Exn) :
  outcome (bind m k) = Throw e ->
  (outcome m = Throw e /\ trace (bind m k) = trace m)
  \/ exists a, outcome m = Return a /\ outcome (k a) = Throw e
               /\ trace (bind m k) = (trace m ++ trace (k a))%list.
Proof.
  rewrite outcome_bind, trace_bind.
  destruct (outcome m) as [a | e'].
  - right; eauto.
  - intros [= ->]; left; now rewrite app_nil_r.
Qed.

Lemma bind_ret_l {A B} (a : A) (k : A -> M B) : bind (ret a) k = k a.
Proof. unfold bind, ret; destruct (k a); reflexivity. Qed.

Lemma statuses_app (t u : list Event) :
  statuses (t ++ u) = (statuses t ++ statuses u)%list.
Proof. apply flat_map_app. Qed.

Lemma statuses_status (m : string) (p : Z) (t : list Event) :
  statuses (StatusUpdate m p :: t) = p :: statuses t.
Proof. reflexivity. Qed.

Lemma calls_of_app (t u : list Event) :
  calls_of (t ++ u) = (calls_of t ++ calls_of u)%list.
Proof. apply flat_map_app. Qed.

(** *** Computations whose log is confined to a class of events *)

Section Only.

Variable P : Event -> bool.

Lemma only_ret {A} (a : A) : only P (ret a).
Proof. reflexivity. Qed.

Lemma only_throw {A} (e : Exn) : only P (@throw A e).
Proof. reflexivity. Qed.

Lemma only_await {A} (p : Async A) : only P (await p).
Proof. destruct p; reflexivity. Qed.

Lemma only_bind {A B} (m : M A) (k : A -> M B) :
  only P m -> (forall a, only P (k a)) -> only P (bind m k).
Proof.
  unfold only; intros Hm Hk; rewrite trace_bind, forallb_app, Hm.
  destruct (outcome m); [apply Hk | reflexivity].
Qed.

Lemma only_get (v : value) (k : string) : only P (get v k).
Proof. destruct v; reflexivity. Qed.

Lemma only_includes_method (v : value) (sub : string) :
  only P (includes_method v sub).
Proof. destruct v; reflexivity. Qed.

Lemma only_substring_after (v : value) (sub : string) (k : Z) :
  only P (substring_after v sub k).
Proof. destruct v; reflexivity. Qed.

Lemma only_iterate (what : string) (v : value) : only P (iterate what v).
Proof. destruct v; reflexivity. Qed.

Lemma only_try_catch {A} (m : M A) (handler : Exn -> M A) :
  only P m -> (forall e, only P (handler e)) -> only P (try_catch m handler).
Proof.
  unfold only, try_catch, trace; destruct m as [t [a | e]]; cbn; intros Hm Hh.
  - exact Hm.
  - specialize (Hh e). destruct (handler e) as [t' r]; cbn in *.
    now rewrite forallb_app, Hm, Hh.
Qed.

Lemma only_first_named (templateName : string) (items : list value) :
  only P (first_named templateName items).
Proof.
  induction items as [| item items IH]; cbn [first_named].
  - reflexivity.
  - apply only_bind; [apply only_get |].
    intros n; destruct (is_string templateName n); [apply only_get | exact IH].
Qed.

Lemma only_request (c : Call) : P (Net c) = true -> only P (emit (Net c)).
Proof. unfold only; cbn; now intros ->. Qed.

Lemma only_fetch {J} (method url : string) hs body
  (reply : Async (Response J)) :
  P (Net (Fetch method url hs body)) = true ->
  only P (fetch method url hs body reply).
Proof. unfold only; destruct reply; cbn; now intros ->. Qed.

Lemma only_launchWebAuthFlow (url : string) (reply : Async string) :
  P (Net (WebAuthFlow url)) = true -> only P (launchWebAuthFlow url reply).
Proof. unfold only; destruct reply; cbn; now intros ->. Qed.

Lemma only_for_of {A} (l : list A) (body : A -> M unit) :
  (forall x, only P (body x)) -> only P (for_of l body).
Proof.
  intros Hb; induction l as [| x l IH]; cbn [for_of].
  - reflexivity.
  - apply only_bind; auto.
Qed.

End Only.

Lemma only_then_detached {A B} (p : Async A) (k : A -> M B) :
  only is_request (then_detached p k).
Proof. reflexivity. Qed.

Create HintDb only discriminated.
#[local] Hint Resolve only_request only_ret only_throw only_await only_get
  only_includes_method only_substring_after only_iterate only_first_named
  only_fetch only_launchWebAuthFlow only_then_detached only_for_of : only.
#[local] Hint Extern 1 (_ (Net _) = true) => reflexivity : only.

Ltac confine :=
  repeat first
    [ progress auto with only
    | apply only_bind; [| intro]
    | match goal with
      | |- only _ (if ?b then _ else _) => destruct b
      | |- only _ (match ?x with _ => _ end) => destruct x
      | |- only _ (let '(_, _) := ?x in _) => destruct x
      end ].

Section OnlyStages.

Variable w : World.
Variable P : Event -> bool.
Hypothesis P_net : forall c, P (Net c) = true.

Lemma only_handleErrors (data : value) : only P (handleErrors data).
Proof. unfold handleErrors; confine. Qed.
Hint Resolve only_handleErrors : only.

Lemma only_getGitHubAuthToken : only P (getGitHubAuthToken w).
Proof. unfold getGitHubAuthToken; confine. Qed.

Lemma only_getAccessToken tok : only P (getAccessToken w tok).
Proof. unfold getAccessToken; confine. Qed.

Lemma only_createUserRepo n tok : only P (createUserRepo w n tok).
Proof. unfold createUserRepo; confine. Qed.

Lemma only_getGoogleAccessToken : only P (getGoogleAccessToken w).
Proof. unfold getGoogleAccessToken; confine. Qed.

Lemma only_createFolder n tok : only P (createFolder w n tok).
Proof. unfold createFolder; confine. Qed.

Lemma only_createPermission f tok : only P (createPermission w f tok).
Proof. unfold createPermission; confine. Qed.

Lemma only_editFsTab u tok f : only P (editFsTab w u tok f).
Proof. unfold editFsTab; confine. Qed.

Lemma only_getFile i ty : only P (getFile w i ty).
Proof. unfold getFile; confine. Qed.

Lemma only_getTemplateFolderId lib n tok :
  only P (getTemplateFolderId w lib n tok).
Proof. unfold getTemplateFolderId; confine. Qed.

Lemma only_getFolderItemsByID f tok : only P (getFolderItemsByID w f tok).
Proof. unfold getFolderItemsByID; confine. Qed.

Lemma only_installHelixbot : only P installHelixbot.
Proof. unfold installHelixbot; confine. Qed.

End OnlyStages.

Lemma silent_copy_file w target tok f :
  only is_request (copy_file w target tok f).
Proof.
  unfold copy_file.
  pose proof (only_getFile w is_request (fun _ => eq_refl)).
  confine.
Qed.

Lemma silent_addTemplate w n target tok :
  only is_request (addTemplate w n target tok).
Proof.
  unfold addTemplate.
  pose proof (only_getTemplateFolderId w is_request (fun _ => eq_refl)).
  pose proof (only_getFolderItemsByID w is_request (fun _ => eq_refl)).
  pose proof (silent_copy_file w).
  confine.
Qed.

Lemma requests_statuses (t : list Event) :
  forallb is_request t = true -> statuses t = [].
Proof.
  induction t as [| [] t IH]; cbn; intros H; try discriminate; auto.
Qed.

Lemma requests_not_publish (t : list Event) :
  forallb is_request t = true ->
  forallb (fun e => negb (is_publish e)) t = true.
Proof.
  induction t as [| [] t IH]; cbn; intros H; try discriminate; auto.
Qed.

Lemma requests_not_failure (t : list Event) :
  forallb is_request t = true ->
  forallb (fun e => negb (is_failure e)) t = true.
Proof.
  induction t as [| [] t IH]; cbn; intros H; try discriminate; auto.
Qed.

Lemma net_is_request (t : list Event) :
  forallb is_net t = true -> forallb is_request t = true.
Proof.
  induction t as [| [] t IH]; cbn; intros H; try discriminate; auto.
Qed.

Lemma net_not_detached (t : list Event) :
  forallb is_net t = true ->
  forallb (fun e => negb (is_detached e)) t = true.
Proof.
  induction t as [| [] t IH]; cbn; intros H; try discriminate; auto.
Qed.

(** ** The complete run *)

Lemma trace_emit_bind {B} (e : Event) (k : unit -> M B) :
  trace (bind (emit e) k) = e :: trace (k tt).
Proof. cbn; destruct (k tt); reflexivity. Qed.

Lemma outcome_emit_bind {B} (e : Event) (k : unit -> M B) :
  outcome (bind (emit e) k) = outcome (k tt).
Proof. cbn; destruct (k tt); reflexivity. Qed.

Lemma trace_get (v : value) (k : string) : trace (get v k) = [].
Proof. destruct v; reflexivity. Qed.

(** Splits on the outcome of the next awaited stage of a sequence. *)
Ltac next_stage H :=
  rewrite ?outcome_emit_bind in H;
  rewrite ?trace_emit_bind;
  rewrite outcome_bind in H;
  rewrite trace_bind;
  match type of H with
  | match outcome ?m with _ => _ end = _ =>
      let a := fresh "a" in
      let e := fresh "e" in
      let E := fresh "E" in
      destruct (outcome m) as [a | e] eqn:E
  end.

Lemma net_clean (t : list Event) :
  forallb is_net t = true -> forallb clean t = true.
Proof.
  induction t as [| [] t IH]; cbn; intros H; try discriminate; auto.
Qed.

Lemma net_statuses (t : list Event) :
  forallb is_net t = true -> statuses t = [].
Proof. intros H; apply requests_statuses, net_is_request, H. Qed.

(** *** Logs and outcomes of the elementary steps *)

Lemma trace_handleErrors (data : value) : trace (handleErrors data) = [].
Proof.
  pose proof (only_handleErrors (fun _ => false) data) as H.
  unfold only in H. destruct (trace (handleErrors data)); [reflexivity |].
  discriminate H.
Qed.

Lemma trace_fetch {J} (method url : string) hs body
  (reply : Async (Response J)) :
  trace (fetch method url hs body reply) = [Net (Fetch method url hs body)].
Proof. destruct reply; reflexivity. Qed.

Lemma outcome_fetch {J} (method url : string) hs body
  (reply : Async (Response J)) :
  outcome (fetch method url hs body reply)
  = match reply with Resolved r => Return r | Rejected e => Throw e end.
Proof. destruct reply; reflexivity. Qed.

Lemma trace_await {A} (p : Async A) : trace (await p) = [].
Proof. destruct p; reflexivity. Qed.

Lemma outcome_await {A} (p : Async A) :
  outcome (await p)
  = match p with Resolved a => Return a | Rejected e => Throw e end.
Proof. destruct p; reflexivity. Qed.

Lemma get_member (v : value) (k : string) :
  nullish v = false -> get v k = ret (member v k).
Proof. destruct v; cbn; intros H; try discriminate H; reflexivity. Qed.

Lemma get_nullish (v : value) (k : string) :
  nullish v = true ->
  exists e, get v k = throw e /\ kind e = KTypeError.
Proof.
  destruct v; cbn; intros H; try discriminate H; eexists; split; reflexivity.
Qed.

(** Once a member of [v] has been read, reading another does not raise. *)
Lemma get_again (v : value) (k k' : string) (a : value) (e : Exn) :
  outcome (get v k) = Return a -> outcome (get v k') = Throw e -> False.
Proof. destruct v; cbn; intros H1 H2; discriminate. Qed.

(** An entry as the API documents it is an object with its three members. *)
Lemma documented_entry (f : DriveFile) :
  nullish (DriveFile_value f) = false
  /\ member (DriveFile_value f) "id" = VStr (id f)
  /\ member (DriveFile_value f) "name" = VStr (name f)
  /\ member (DriveFile_value f) "mimeType" = VStr (mimeType f).
Proof. repeat split. Qed.

(** *** The copy loop *)

Lemma calls_of_requests (cs : list Call) : calls_of (map Net cs) = cs.
Proof.
  induction cs as [| c cs IH]; [reflexivity |].
  change (calls_of (map Net (c :: cs))) with (c :: calls_of (map Net cs)).
  now rewrite IH.
Qed.

Section Copy.

Variable w : World.
Variables targetFolderId gAccessToken : value.

(** The requests of [uploadFile], for the two document types that the
    loop passes to it. *)
Lemma uploadFile_requests (fileName : value) (fileblob docType : string) :
  docType = "xlsx" \/ docType = "docx" ->
  trace (uploadFile w targetFolderId fileName fileblob docType gAccessToken)
  = map Net (upload_calls w targetFolderId fileName fileblob docType
               gAccessToken).
Proof.
  intros Hty. unfold uploadFile, upload_calls, session_call, content_call.
  assert (Hrest : forall (response2 : Response value),
             trace (dataResponse <- await (json response2) ;;
                    errormsg <- handleErrors dataResponse ;;
                    if negb (is_undefined errormsg) then
                      throw (Error (JS.LF ++ "Failed to create Tempate : "
                                    ++ to_string errormsg))
                    else ret tt) = []).
  { intros response2. rewrite trace_bind, trace_await.
    destruct (outcome (await (json response2))); [| reflexivity].
    rewrite trace_bind, trace_handleErrors.
    destruct (outcome (handleErrors a)) as [v |]; [| reflexivity].
    destruct (negb (is_undefined v)); reflexivity. }
  destruct Hty as [-> | ->]; cbn [String.eqb Ascii.eqb Bool.eqb andb to_string];
    rewrite trace_bind, trace_fetch, outcome_fetch;
    (destruct (upload_session w fileName) as [metaResponse | e];
     [| reflexivity]);
    change (handleErrors Response_object) with (@ret value VUndefined);
    rewrite bind_ret_l; cbn [is_undefined negb];
    rewrite trace_bind, trace_fetch, outcome_fetch;
    (destruct (upload_content w fileName) as [response2 | e];
     [rewrite Hrest |]); reflexivity.
Qed.

Lemma getDocumentType_recognised (f : value) :
  recognised f = true ->
  getDocumentType (member f "mimeType") = "xlsx"
  \/ getDocumentType (member f "mimeType") = "docx".
Proof.
  unfold recognised, getDocumentType.
  destruct (is_string "application/vnd.google-apps.spreadsheet"
              (member f "mimeType")); [now left |].
  destruct (is_string "application/vnd.google-apps.document"
              (member f "mimeType")); [now right | discriminate].
Qed.

Lemma getDocumentType_skipped (f : value) :
  recognised f = false ->
  String.eqb (getDocumentType (member f "mimeType")) "xlsx"
  || String.eqb (getDocumentType (member f "mimeType")) "docx" = false.
Proof.
  unfold recognised, getDocumentType.
  destruct (is_string "application/vnd.google-apps.spreadsheet"
              (member f "mimeType")); [discriminate |].
  destruct (is_string "application/vnd.google-apps.document"
              (member f "mimeType")); [discriminate |].
  destruct (is_string "application/vnd.google-apps.folder"
              (member f "mimeType")); reflexivity.
Qed.

(** One turn of the loop on an entry that is neither [null] nor
    [undefined]. *)
Lemma copy_file_entry (f : value) :
  nullish f = false ->
  copy_file w targetFolderId gAccessToken f
  = (copy_events w targetFolderId gAccessToken f, Return tt).
Proof.
  intros Hf. unfold copy_file, copy_events, continuation.
  rewrite (get_member f "mimeType" Hf), bind_ret_l.
  destruct (recognised f) eqn:Hr.
  - destruct (getDocumentType_recognised f Hr) as [Hty | Hty].
    + unfold getFile, then_detached, export_of, export_call, exported_blob.
      rewrite Hty. cbn [String.eqb Ascii.eqb Bool.eqb andb orb].
      cbn [bind emit ret app].
      destruct (document_export w (member f "id") "xlsx") as [data | e];
        [destruct (blob data) as [b | e] |]; try reflexivity.
      rewrite uploadFile_requests by now left.
      now rewrite calls_of_requests.
    + unfold getFile, then_detached, export_of, export_call, exported_blob.
      rewrite Hty. cbn [String.eqb Ascii.eqb Bool.eqb andb orb].
      cbn [bind emit ret app].
      destruct (document_export w (member f "id") "docx") as [data | e];
        [destruct (blob data) as [b | e] |]; try reflexivity.
      rewrite uploadFile_requests by now right.
      now rewrite calls_of_requests.
  - now rewrite (getDocumentType_skipped f Hr).
Qed.

(** On [null] or [undefined] the turn raises before anything is
    requested. *)
Lemma copy_file_nullish (f : value) :
  nullish f = true ->
  exists e,
    copy_file w targetFolderId gAccessToken f = throw e
    /\ kind e = KTypeError.
Proof.
  intros Hf. destruct (get_nullish f "mimeType" Hf) as (e & He & Hk).
  exists e. split; [| exact Hk]. unfold copy_file. now rewrite He.
Qed.

(** The loop over entries none of which is [null] or [undefined]. *)
Lemma copy_loop_entries (fs : list value) :
  (forall f, In f fs -> nullish f = false) ->
  for_of fs (copy_file w targetFolderId gAccessToken)
  = (flat_map (copy_events w targetFolderId gAccessToken) fs, Return tt).
Proof.
  induction fs as [| f fs IH]; intros Hfs; cbn [for_of flat_map].
  - reflexivity.
  - rewrite (copy_file_entry f) by (apply Hfs; now left).
    rewrite IH by (intros g Hg; apply Hfs; now right).
    reflexivity.
Qed.

End Copy.

(** *** No request removes anything *)

Lemma only_emit (P : Event -> bool) (e : Event) :
  P e = true -> only P (emit e).
Proof. unfold only; cbn; now intros ->. Qed.

Lemma known_calls (t : list Event) :
  forallb known_methods t = true -> forallb known_method (calls_of t) = true.
Proof.
  induction t as [| [] t IH]; cbn [forallb known_methods]; intros H; auto.
  - apply andb_prop in H as [Hc Ht].
    change (calls_of (Net c :: t)) with (c :: calls_of t).
    cbn [forallb]. now rewrite Hc, IH.
  - apply andb_prop in H as [Hc Ht].
    change (calls_of (Detached calls :: t)) with (calls ++ calls_of t)%list.
    now rewrite forallb_app, Hc, IH.
Qed.

Lemma known_uploadFile w folderId fileName fileblob docType tok :
  only known_methods (uploadFile w folderId fileName fileblob docType tok).
Proof.
  pose proof (only_handleErrors known_methods).
  unfold uploadFile.
  destruct (if String.eqb docType "xlsx" then _ else _).
  confine.
Qed.

Lemma known_copy_file w target tok f :
  only known_methods (copy_file w target tok f).
Proof.
  unfold copy_file.
  apply only_bind; [apply only_get | intros fileMimeType].
  destruct (String.eqb _ "xlsx" || String.eqb _ "docx"); [| reflexivity].
  apply only_bind; [unfold getFile; confine | intros dataBlob].
  apply only_emit. cbn [known_methods].
  destruct dataBlob as [fileblob |]; [| reflexivity].
  apply known_calls, known_uploadFile.
Qed.

Lemma known_provision (w : World) (siteName templateName : string) :
  only known_methods (provision w siteName templateName).
Proof.
  pose proof (only_handleErrors known_methods).
  assert (only known_methods (getGitHubAuthToken w))
    by (unfold getGitHubAuthToken; confine).
  assert (forall a, only known_methods (getAccessToken w a))
    by (intro; unfold getAccessToken; confine).
  assert (forall a b, only known_methods (createUserRepo w a b))
    by (intros; unfold createUserRepo; confine).
  assert (only known_methods (getGoogleAccessToken w))
    by (unfold getGoogleAccessToken; confine).
  assert (forall a b, only known_methods (createFolder w a b))
    by (intros; unfold createFolder; confine).
  assert (forall a b, only known_methods (createPermission w a b))
    by (intros; unfold createPermission; confine).
  assert (forall a b c, only known_methods (editFsTab w a b c))
    by (intros; unfold editFsTab; confine).
  assert (forall a b c, only known_methods (getTemplateFolderId w a b c))
    by (intros; unfold getTemplateFolderId; confine).
  assert (forall a b, only known_methods (getFolderItemsByID w a b))
    by (intros; unfold getFolderItemsByID; confine).
  pose proof (known_copy_file w).
  unfold provision, sendStatusMessage, publish, installHelixbot, addTemplate.
  repeat first [ apply only_emit; reflexivity | confine ].
Qed.

Lemma requests_intermediate (t : list Event) :
  forallb is_request t = true -> forallb intermediate t = true.
Proof.
  induction t as [| [] t IH]; cbn; intros H; try discriminate; auto.
Qed.



Section Run.

Variable w : World.
Variables siteName templateName : string.

(** A run that raises nothing went through every stage, in order. *)
Lemma provision_returns :
  outcome (provision w siteName templateName) = Return tt ->
  exists gitAuthToken gitAccessToken gitData giturl gitcloneUrl
         googleAccessToken targetFolderId,
    outcome (createUserRepo w siteName gitAccessToken) = Return gitData
    /\ outcome (get gitData "clone_url") = Return gitcloneUrl
    /\ trace (provision w siteName templateName)
       = ([StatusUpdate "Setting Up Git Repo ..." 0;
           StatusUpdate "Setting Up Git Repo ..." 1]
          ++ trace (getGitHubAuthToken w)
          ++ trace (getAccessToken w gitAuthToken)
          ++ [StatusUpdate "Setting Up Git Repo ..." 15]
          ++ trace (createUserRepo w siteName gitAccessToken)
          ++ [StatusUpdate "Git repo successfully created" 33;
              StatusUpdate "Setting up Google Drive folder..." 40]
          ++ trace (getGoogleAccessToken w)
          ++ trace (createFolder w siteName googleAccessToken)
          ++ [StatusUpdate "Google Drive folder created successfully" 50;
              StatusUpdate "Giving Permission to Google Drive" 53]
          ++ trace (createPermission w targetFolderId googleAccessToken)
          ++ [StatusUpdate "Giving Permission to Google Drive" 60;
              StatusUpdate "Updating FsTab" 65]
          ++ trace (editFsTab w giturl gitAccessToken targetFolderId)
          ++ [StatusUpdate "Adding Templates" 75]
          ++ trace (addTemplate w templateName targetFolderId
                      googleAccessToken)
          ++ [StatusUpdate "Templates Added Templates" 85;
              StatusUpdate "Setup Helix Bot" 90;
              Net (WebAuthFlow "https://github.com/apps/helix-bot");
              StatusUpdate "Helix Bot added successfully" 95]
          ++ [StatusUpdate "Project setup completed !" 100;
              Publish gitcloneUrl])%list.
Proof.
  intros H. unfold provision, sendStatusMessage, publish, installHelixbot in *.
  next_stage H; [| discriminate H].
  next_stage H; [| discriminate H].
  next_stage H; [| discriminate H].
  next_stage H; [| discriminate H].
  next_stage H; [| discriminate H].
  next_stage H; [| discriminate H].
  next_stage H; [| discriminate H].
  next_stage H; [| discriminate H].
  next_stage H; [| discriminate H].
  next_stage H; [| discriminate H].
  exists a, a0, a1, a2, a3, a4, a5.
  rewrite !trace_get. repeat split; auto.
Qed.

(** C1. When no stage raises, the percentages sent to the popup are those of
    [progress], in that order: they never decrease and end at 100, and the
    message that follows the last of them is the [publish] message, which
    carries the [clone_url] member of the repository-creation reply; no
    [publish] message is sent before. *)
Theorem complete_run_progress :
  outcome (provision w siteName templateName) = Return tt ->
  let t := trace (oneclicksample w siteName templateName) in
  statuses t = progress
  /\ nondecreasing (statuses t)
  /\ last (statuses t) 0 = 100
  /\ exists before gitAccessToken gitData gitcloneUrl,
       t = (before ++ [StatusUpdate "Project setup completed !" 100;
                       Publish gitcloneUrl])%list
       /\ forallb (fun e => negb (is_publish e)) before = true
       /\ outcome (createUserRepo w siteName gitAccessToken) = Return gitData
       /\ outcome (get gitData "clone_url") = Return gitcloneUrl.
Proof.
  intros H t.
  assert (Ht : t = trace (provision w siteName templateName)).
  { subst t; unfold oneclicksample, try_catch, outcome in *.
    destruct (provision w siteName templateName) as [t' [[] | e]];
      [reflexivity | discriminate H]. }
  destruct (provision_returns H)
    as (gitAuthToken & gitAccessToken & gitData & giturl & gitcloneUrl
        & googleAccessToken & targetFolderId & Hrepo & Hclone & Htrace).
  rewrite Htrace in Ht; clear Htrace.
  pose proof (only_getGitHubAuthToken w is_request (fun _ => eq_refl)) as S1.
  pose proof (only_getAccessToken w is_request (fun _ => eq_refl)
                gitAuthToken) as S2.
  pose proof (only_createUserRepo w is_request (fun _ => eq_refl)
                siteName gitAccessToken) as S3.
  pose proof (only_getGoogleAccessToken w is_request (fun _ => eq_refl)) as S4.
  pose proof (only_createFolder w is_request (fun _ => eq_refl)
                siteName googleAccessToken) as S5.
  pose proof (only_createPermission w is_request (fun _ => eq_refl)
                targetFolderId googleAccessToken) as S6.
  pose proof (only_editFsTab w is_request (fun _ => eq_refl)
                giturl gitAccessToken targetFolderId) as S7.
  pose proof (silent_addTemplate w templateName targetFolderId
                googleAccessToken) as S8.
  unfold only in *.
  assert (Hs : statuses t = progress).
  { rewrite Ht, !statuses_app.
    rewrite (requests_statuses _ S1), (requests_statuses _ S2),
      (requests_statuses _ S3), (requests_statuses _ S4),
      (requests_statuses _ S5), (requests_statuses _ S6),
      (requests_statuses _ S7), (requests_statuses _ S8).
    reflexivity. }
  rewrite Hs.
  split; [reflexivity |].
  split; [cbn; lia |].
  split; [reflexivity |].
  eexists _, gitAccessToken, gitData, gitcloneUrl.
  split; [| split; [| split; [exact Hrepo | exact Hclone]]].
  - rewrite Ht, !app_assoc. reflexivity.
  - rewrite !forallb_app.
    rewrite (requests_not_publish _ S1), (requests_not_publish _ S2),
      (requests_not_publish _ S3), (requests_not_publish _ S4),
      (requests_not_publish _ S5), (requests_not_publish _ S6),
      (requests_not_publish _ S7), (requests_not_publish _ S8).
    reflexivity.
Qed.

(** Closes the case in which the stage just split on has raised. *)
Ltac halted H :=
  injection H as ->; eexists; rewrite ?trace_get;
  cbn [app]; rewrite ?app_nil_r, <- ?app_assoc; cbn [app]; reflexivity.

(** A run that raises stops at the first stage that raises: its log is the
    log up to the end of that stage, and the error is the one of that
    stage. *)
Lemma provision_throws (e : Exn) :
  outcome (provision w siteName templateName) = Throw e ->
  exists stage,
    first_failure w siteName templateName
    = Some (stage, e, trace (provision w siteName templateName)).
Proof.
  intros H. unfold provision, sendStatusMessage, publish, installHelixbot in *.
  unfold first_failure, log_template, log_mount, log_permission, log_folder,
    log_storage_authorization, log_repository_read, log_repository,
    log_token_exchange, log_git_authorization.
  next_stage H; [| halted H].
  next_stage H; [| halted H].
  next_stage H; [| halted H].
  next_stage H; [| halted H].
  next_stage H; [| exfalso; exact (get_again _ _ _ _ _ E2 E3)].
  next_stage H; [| halted H].
  next_stage H; [| halted H].
  next_stage H; [| halted H].
  next_stage H; [| halted H].
  next_stage H; [| halted H].
  cbn in H; discriminate H.
Qed.

(** What the log of a run that stops holds: messages and requests but
    neither [publish] nor a failure message, percentages that are an
    initial segment of [progress] stopping at 75 at the latest, and no
    continuation unless the run stops in the template copy. *)
Lemma first_failure_log (stage : Stage) (e : Exn) (before : list Event) :
  first_failure w siteName templateName = Some (stage, e, before) ->
  forallb intermediate before = true
  /\ (exists n, (n <= 10)%nat /\ statuses before = firstn n progress)
  /\ (stage <> CopyTemplate -> forallb clean before = true).
Proof.
  pose proof (only_getGitHubAuthToken w is_net (fun _ => eq_refl)) as N1.
  pose proof (only_getAccessToken w is_net (fun _ => eq_refl)) as N2.
  pose proof (only_createUserRepo w is_net (fun _ => eq_refl)) as N3.
  pose proof (only_getGoogleAccessToken w is_net (fun _ => eq_refl)) as N4.
  pose proof (only_createFolder w is_net (fun _ => eq_refl)) as N5.
  pose proof (only_createPermission w is_net (fun _ => eq_refl)) as N6.
  pose proof (only_editFsTab w is_net (fun _ => eq_refl)) as N7.
  pose proof (silent_addTemplate w) as R8.
  unfold only in *.
  pose proof (net_clean _ N1) as C1.
  pose proof (fun a => net_clean _ (N2 a)) as C2.
  pose proof (fun a b => net_clean _ (N3 a b)) as C3.
  pose proof (net_clean _ N4) as C4.
  pose proof (fun a b => net_clean _ (N5 a b)) as C5.
  pose proof (fun a b => net_clean _ (N6 a b)) as C6.
  pose proof (fun a b c => net_clean _ (N7 a b c)) as C7.
  pose proof (net_statuses _ N1) as S1.
  pose proof (fun a => net_statuses _ (N2 a)) as S2.
  pose proof (fun a b => net_statuses _ (N3 a b)) as S3.
  pose proof (net_statuses _ N4) as S4.
  pose proof (fun a b => net_statuses _ (N5 a b)) as S5.
  pose proof (fun a b => net_statuses _ (N6 a b)) as S6.
  pose proof (fun a b c => net_statuses _ (N7 a b c)) as S7.
  pose proof (fun a b c => requests_statuses _ (R8 a b c)) as S8.
  pose proof (requests_intermediate _ (net_is_request _ N1)) as I1.
  pose proof (fun a => requests_intermediate _ (net_is_request _ (N2 a)))
    as I2.
  pose proof (fun a b => requests_intermediate _ (net_is_request _ (N3 a b)))
    as I3.
  pose proof (requests_intermediate _ (net_is_request _ N4)) as I4.
  pose proof (fun a b => requests_intermediate _ (net_is_request _ (N5 a b)))
    as I5.
  pose proof (fun a b => requests_intermediate _ (net_is_request _ (N6 a b)))
    as I6.
  pose proof (fun a b c =>
                requests_intermediate _ (net_is_request _ (N7 a b c))) as I7.
  pose proof (fun a b c => requests_intermediate _ (R8 a b c)) as I8.
  clear N1 N2 N3 N4 N5 N6 N7 R8.
  intros H. unfold first_failure in H.
  repeat match type of H with
         | match ?o with _ => _ end = _ => destruct o
         end;
    try discriminate H;
    injection H as <- <- <-;
    unfold log_template, log_mount, log_permission, log_folder,
      log_storage_authorization, log_repository_read, log_repository,
      log_token_exchange, log_git_authorization;
    (split; [| split]).
  all: try (repeat progress (cbn [forallb]; rewrite ?forallb_app);
            repeat match goal with
                   | F : context [forallb intermediate _ = true] |- _ =>
                       rewrite !F
                   end;
            reflexivity).
  all: try (repeat rewrite ?statuses_status, ?statuses_app;
            repeat match goal with
                   | S : context [statuses _ = []] |- _ => rewrite !S
                   end;
            first [ exists 2%nat; split; [lia | reflexivity]
                  | exists 3%nat; split; [lia | reflexivity]
                  | exists 4%nat; split; [lia | reflexivity]
                  | exists 5%nat; split; [lia | reflexivity]
                  | exists 7%nat; split; [lia | reflexivity]
                  | exists 9%nat; split; [lia | reflexivity]
                  | exists 10%nat; split; [lia | reflexivity] ]).
  all: try (intros _;
            repeat progress (cbn [forallb]; rewrite ?forallb_app);
            repeat match goal with
                   | C : context [forallb clean _ = true] |- _ => rewrite !C
                   end;
            reflexivity).
  intros Hne. now contradiction Hne.
Qed.


End Run.

Lemma complete_run_progress_witness :
  outcome (provision Sample.healthy "site" "blog") = Return tt
  /\ statuses (trace (oneclicksample Sample.healthy "site" "blog")) = progress.
Proof.
  assert (H : outcome (provision Sample.healthy "site" "blog") = Return tt)
    by (vm_compute; reflexivity).
  split; [exact H |].
  exact (proj1 (complete_run_progress Sample.healthy "site" "blog" H)).
Defined.



(** *** The later revision

    Its [catch] block sends the fixed text alone and hands the error over
    as third argument, so that the message of the error travels in the
    member [error]. *)

(** Closes the case in which the stage just split on has raised: the log
    so far holds requests and messages that do not end a run. *)
Ltac stopped :=
  rewrite ?trace_get;
  repeat progress (cbn [forallb]; rewrite ?forallb_app);
  repeat match goal with
         | F : context [forallb intermediate _ = true] |- _ => rewrite !F
         end;
  reflexivity.

Section RevisedRun.

Variable stringify : value -> string.
Variables git_client_id git_client_secret : string.
Variable oauth2_scopes : value.
Variable oauth2_client_id : string.
Variable w : World.
Variables siteName templateName : string.

Lemma revised_stage_requests :
  only is_request (Revised.getGithubAccessToken git_client_id
                     git_client_secret w)
  /\ (forall a b, only is_request (Revised.createUserRepo stringify w a b))
  /\ only is_request (Revised.getGoogleAccessToken oauth2_scopes
                        oauth2_client_id w)
  /\ (forall a b, only is_request (Revised.createGDriveFolder w a b))
  /\ (forall a b, only is_request (Revised.createPermission w a b))
  /\ (forall a b c, only is_request (Revised.editFsTab stringify w a b c))
  /\ (forall a b c, only is_request (Revised.addTemplate w a b c)).
Proof.
  assert (G : forall r, only is_request (Revised.handleGoogleErrors r)).
  { intros r. unfold Revised.handleGoogleErrors, Revised.parse_body.
    confine. }
  assert (H : forall r, only is_request (Revised.handleGitErrors stringify r)).
  { intros r.
    unfold Revised.handleGitErrors, Revised.parse_body, Revised.join_method.
    confine. }
  repeat split; intros.
  - unfold Revised.getGithubAccessToken, Revised.getGitHubAuthToken.
    confine; apply only_try_catch; confine.
  - unfold Revised.createUserRepo. apply only_try_catch; confine.
  - unfold Revised.getGoogleAccessToken. confine.
  - unfold Revised.createGDriveFolder.
    apply only_bind; [apply only_try_catch; confine | intro; confine].
  - unfold Revised.createPermission. apply only_try_catch; confine.
  - unfold Revised.editFsTab. apply only_try_catch; confine.
  - unfold Revised.addTemplate, Revised.getTemplateFolderId,
      Revised.getFolderItemsByID.
    apply only_bind; [apply only_try_catch; confine | intro].
    apply only_bind; [apply only_try_catch; confine | intro].
    apply only_bind; [confine | intro].
    apply only_for_of. intros f. unfold Revised.copy_file, Revised.getFile.
    confine.
Qed.

(** When the [try] block of the later revision raises, the run sends
    exactly one message that reports an error, last; its text is the fixed
    one, its percentage 0 and its member [error] the message of the error
    raised.  What precedes is the log of the [try] block, which holds
    neither [publish] nor a message with the text of a failure. *)
Lemma revised_failed_run (e : Exn) :
  outcome (Revised.provision stringify git_client_id git_client_secret
             oauth2_scopes oauth2_client_id w siteName templateName)
  = Throw e ->
  Revised.oneclicksample stringify git_client_id git_client_secret
    oauth2_scopes oauth2_client_id w siteName templateName
  = (map Revised.Before
       (trace (Revised.provision stringify git_client_id git_client_secret
                 oauth2_scopes oauth2_client_id w siteName templateName))
     ++ [Revised.StatusError "Failed to create Franklin Project " 0
           (message e)])%list
  /\ forallb intermediate
       (trace (Revised.provision stringify git_client_id git_client_secret
                 oauth2_scopes oauth2_client_id w siteName templateName))
     = true.
Proof.
  intros H. split.
  { unfold Revised.oneclicksample, outcome, trace in *.
    destruct (Revised.provision _ _ _ _ _ _ _ _) as [t [[] | e']];
      cbn [fst snd] in *; [discriminate H |].
    now injection H as ->. }
  destruct revised_stage_requests as (R1 & R2 & R3 & R4 & R5 & R6 & R7).
  unfold only in *.
  pose proof (requests_intermediate _ R1) as I1.
  pose proof (fun a b => requests_intermediate _ (R2 a b)) as I2.
  pose proof (requests_intermediate _ R3) as I3.
  pose proof (fun a b => requests_intermediate _ (R4 a b)) as I4.
  pose proof (fun a b => requests_intermediate _ (R5 a b)) as I5.
  pose proof (fun a b c => requests_intermediate _ (R6 a b c)) as I6.
  pose proof (fun a b c => requests_intermediate _ (R7 a b c)) as I7.
  clear R1 R2 R3 R4 R5 R6 R7.
  unfold Revised.provision, sendStatusMessage, publish, installHelixbot in *.
  next_stage H; [| stopped].
  next_stage H; [| stopped].
  next_stage H; [| stopped].
  next_stage H; [| stopped].
  next_stage H; [| stopped].
  next_stage H; [| stopped].
  next_stage H; [| stopped].
  next_stage H; [| stopped].
  next_stage H; [| stopped].
  cbn in H; discriminate H.
Qed.

End RevisedRun.

(** ** The mount configuration *)

Module Base64Facts.
Import Base64.

Lemma sextet_of_char_of_sextet (s : sextet) :
  sextet_of_char (char_of_sextet s) = Some s.
Proof. destruct s as [[] [] [] [] [] []]; reflexivity. Qed.

Lemma char_of_sextet_not_pad (s : sextet) :
  Ascii.eqb (char_of_sextet s) pad = false.
Proof. destruct s as [[] [] [] [] [] []]; reflexivity. Qed.

Lemma first_octet_spec (a b : ascii) :
  first_octet (first_sextet a) (second_sextet a b) = a.
Proof. destruct a, b; reflexivity. Qed.

Lemma second_octet_spec (a b c : ascii) :
  second_octet (second_sextet a b) (third_sextet b c) = b.
Proof. destruct a, b, c; reflexivity. Qed.

Lemma third_octet_spec (b c : ascii) :
  third_octet (third_sextet b c) (fourth_sextet c) = c.
Proof. destruct b, c; reflexivity. Qed.

Lemma decode_btoa_bounded (n : nat) :
  forall s, (String.length s <= n)%nat -> decode (btoa s) = Some s.
Proof.
  induction n as [| n IH]; intros s Hlen.
  - destruct s; [reflexivity | cbn in Hlen; lia].
  - destruct s as [| a [| b [| c rest]]]; cbn [btoa decode].
    + reflexivity.
    + rewrite !sextet_of_char_of_sextet.
      cbn. now rewrite first_octet_spec.
    + rewrite !sextet_of_char_of_sextet, char_of_sextet_not_pad.
      cbn. now rewrite first_octet_spec, second_octet_spec.
    + rewrite !sextet_of_char_of_sextet, !char_of_sextet_not_pad.
      rewrite IH by (cbn in Hlen; lia).
      now rewrite first_octet_spec, second_octet_spec, third_octet_spec.
Qed.

(** Decoding inverts [btoa] on every string. *)
Lemma decode_btoa (s : string) : decode (btoa s) = Some s.
Proof. apply (decode_btoa_bounded (String.length s)); lia. Qed.

End Base64Facts.

Lemma editFsTab_content (w : World) (giturl : value) (gitAccessToken : string)
  (folderId : value) :
  only (carries_content (Base64.btoa (contentString folderId)))
    (editFsTab w giturl gitAccessToken folderId).
Proof.
  unfold editFsTab.
  remember (Base64.btoa (contentString folderId)) as expected.
  confine.
  apply only_request. cbn. apply String.eqb_refl.
Qed.

(** C7. The content that [editFsTab] writes for a folder id is the line
    [mountpoints:], a line feed, two spaces and [/: ] followed by the URL of
    the folder; every PUT request of [editFsTab] carries, as its [content]
    member, the Base64 encoding of that text, and decoding the member gives
    the text back. *)
Theorem fstab_content_roundtrip (w : World) (giturl : value)
  (gitAccessToken : string) (folderId : value)
  (url : string) (headers : list (string * string)) (body : Body) :
  In (Net (Fetch "PUT" url headers body))
    (trace (editFsTab w giturl gitAccessToken folderId)) ->
  contentString folderId
  = "mountpoints:" ++ JS.LF ++ "  /: "
    ++ "https://drive.google.com/drive/folders/" ++ to_string folderId
  /\ exists members encoded,
       body = JsonBody (VObj members)
       /\ lookup "content" members = VStr encoded
       /\ encoded = Base64.btoa (contentString folderId)
       /\ Base64.decode encoded = Some (contentString folderId).
Proof.
  intros Hin. split; [reflexivity |].
  pose proof (editFsTab_content w giturl gitAccessToken folderId) as Hall.
  pose proof (Base64Facts.decode_btoa (contentString folderId)) as Hdec.
  remember (Base64.btoa (contentString folderId)) as expected eqn:He.
  unfold only in Hall. rewrite forallb_forall in Hall.
  specialize (Hall _ Hin). cbn in Hall.
  destruct body as [| [| | | | | | members] |]; try discriminate Hall.
  unfold is_string in Hall.
  destruct (lookup "content" members) as [| | | | encoded | |] eqn:Hc;
    try discriminate Hall.
  apply String.eqb_eq in Hall.
  exists members, encoded. subst encoded. repeat split; auto.
Qed.

Lemma fstab_content_roundtrip_witness :
  In (Net (Fetch "PUT"
             "https://api.github.com/repos/me/site/contents/fstab.yaml"
             (json_headers "Bearer gho_1") (JsonBody Sample.fstab_update)))
    (trace (editFsTab Sample.healthy
              (VStr "https://api.github.com/repos/me/site") "gho_1"
              (VStr "folder1")))
  /\ Base64.decode
       "bW91bnRwb2ludHM6CiAgLzogaHR0cHM6Ly9kcml2ZS5nb29nbGUuY29tL2RyaXZlL2ZvbGRlcnMvZm9sZGVyMQ=="
     = Some (contentString (VStr "folder1")).
Proof.
  assert (H : In (Net (Fetch "PUT"
               "https://api.github.com/repos/me/site/contents/fstab.yaml"
               (json_headers "Bearer gho_1") (JsonBody Sample.fstab_update)))
      (trace (editFsTab Sample.healthy
                (VStr "https://api.github.com/repos/me/site") "gho_1"
                (VStr "folder1")))).
  { vm_compute. right; left; reflexivity. }
  split; [exact H |].
  destruct (fstab_content_roundtrip _ _ _ _ _ _ _ H)
    as (_ & members & encoded & Hb & Hc & He & Hd).
  injection Hb as <-. cbn in Hc. injection Hc as <-. exact Hd.
Defined.

(** ** Error bodies of the storage provider *)

(** C6, as the code has it.  For a body whose [error] member is truthy:
    when [error.message] is a string that contains [User message], the text
    surfaced by [handleErrors] starts 14 code units after the start of the
    first occurrence of the marker, that is 2 code units after its end; when
    it is a non-empty string without the marker, the text is the whole
    message; when it is absent or falsy, the parsed body itself is
    surfaced. *)
Theorem handleErrors_surfaces (data error : value) :
  outcome (get data "error") = Return error ->
  truthy error = true ->
  (forall m,
      outcome (get error "message") = Return (VStr m) ->
      JS.includes m "User message" = true ->
      outcome (handleErrors data)
      = Return (VStr (JS.substring_from m
                        (JS.indexOf m "User message" + 14))))
  /\ (forall m,
        outcome (get error "message") = Return (VStr m) ->
        m <> EmptyString ->
        JS.includes m "User message" = false ->
        outcome (handleErrors data) = Return (VStr m))
  /\ (forall msg,
        outcome (get error "message") = Return msg ->
        truthy msg = false ->
        outcome (handleErrors data) = Return data).
Proof.
  intros He Ht. unfold handleErrors.
  repeat split.
  - intros m Hm Hinc.
    rewrite outcome_bind, He, Ht, outcome_bind, Hm.
    assert (Htm : truthy (VStr m) = true).
    { destruct m; [discriminate Hinc | reflexivity]. }
    rewrite Htm. cbn. now rewrite Hinc.
  - intros m Hm Hne Hinc.
    rewrite outcome_bind, He, Ht, outcome_bind, Hm.
    assert (Htm : truthy (VStr m) = true).
    { destruct m; [contradiction | reflexivity]. }
    rewrite Htm. cbn. now rewrite Hinc.
  - intros msg Hm Hf.
    now rewrite outcome_bind, He, Ht, outcome_bind, Hm, Hf.
Qed.

Lemma handleErrors_surfaces_witness :
  outcome (handleErrors Sample.quota_error) = Return (VStr "quota exceeded").
Proof.
  refine (proj1 (handleErrors_surfaces Sample.quota_error
                   (VObj [("code", VNum 403);
                          ("message", VStr "User message: quota exceeded")])
                   _ _)
            "User message: quota exceeded" _ _); reflexivity.
Defined.

(** The text that starts right after the 12 code units of the marker is
    not the text that [handleErrors] surfaces. *)
Lemma marker_offset_counterexample :
  JS.includes "User message: quota exceeded" "User message" = true
  /\ JS.length "User message" = 12
  /\ JS.substring_from "User message: quota exceeded"
       (JS.indexOf "User message: quota exceeded" "User message" + 12)
     = ": quota exceeded"
  /\ outcome (handleErrors Sample.quota_error)
     <> Return (VStr (JS.substring_from "User message: quota exceeded"
                        (JS.indexOf "User message: quota exceeded"
                           "User message" + 12))).
Proof. repeat split; try reflexivity. vm_compute. discriminate. Qed.

(** The later helper keeps the same offset. *)
Lemma handleGoogleErrors_offset (body : string) :
  body <> EmptyString ->
  outcome (Revised.handleGoogleErrors
             (mkResponse false 403 body (Resolved Sample.quota_error)
                None (Resolved EmptyString)))
  = Throw (Error "quota exceeded").
Proof.
  intros Hb. unfold Revised.handleGoogleErrors, Revised.parse_body.
  cbn [text json]. apply String.eqb_neq in Hb. rewrite Hb. reflexivity.
Qed.

(** ** Folder creation *)

(** C10, as the code has it.  For a request that is answered with a body
    that parses: whenever [handleErrors] returns a defined value for the
    body, [createFolder] raises an error whose message is the fixed prefix
    followed by [undefined], the variable interpolated being one that is
    never assigned; whenever the [error] member of the body can be read and
    is absent or falsy, [createFolder] returns the body's [id] member;
    whenever [handleErrors] itself raises, [createFolder] raises the same
    error.  No case looks at the status of the response. *)
Theorem createFolder_outcomes (w : World) (folderName : string)
  (googleAccessToken : value) (response : Response value) (data : value) :
  folder_creation w = Resolved response ->
  json response = Resolved data ->
  (forall surfaced,
      outcome (handleErrors data) = Return surfaced ->
      surfaced <> VUndefined ->
      outcome (createFolder w folderName googleAccessToken)
      = Throw (Error (JS.LF ++ "Failed to create Google drive Folder : "
                      ++ "undefined")))
  /\ (forall error,
        outcome (get data "error") = Return error ->
        truthy error = false ->
        outcome (createFolder w folderName googleAccessToken)
        = outcome (get data "id"))
  /\ (forall e,
        outcome (handleErrors data) = Throw e ->
        outcome (createFolder w folderName googleAccessToken) = Throw e).
Proof.
  intros Hw Hj. unfold createFolder, fetch.
  rewrite !outcome_bind, Hw. cbn [emit outcome snd await ret].
  rewrite Hj. cbn [outcome snd ret].
  cbn [await]. rewrite bind_ret_l, outcome_bind.
  split; [| split].
  - intros surfaced Hs Hdef. rewrite Hs.
    destruct surfaced; try reflexivity. contradiction.
  - intros error He Hf. unfold handleErrors.
    rewrite outcome_bind, He, Hf. reflexivity.
  - intros e He. now rewrite He.
Qed.

Lemma createFolder_outcomes_witness :
  outcome (createFolder Sample.folder_refused "site" (VStr "ya29"))
  = Throw Sample.folder_failure
  /\ outcome (createFolder Sample.healthy "site" (VStr "ya29"))
     = Return (VStr "folder1").
Proof.
  split.
  - refine (proj1 (createFolder_outcomes Sample.folder_refused "site"
                     (VStr "ya29") _ Sample.quota_error eq_refl eq_refl)
              (VStr "quota exceeded") eq_refl _).
    discriminate.
  - refine (proj1 (proj2 (createFolder_outcomes Sample.healthy "site"
                            (VStr "ya29") _ (VObj [("id", VStr "folder1")])
                            eq_refl eq_refl))
              VUndefined eq_refl eq_refl).
Defined.

(** Bodies on which the two cases are not told apart by the presence of an
    [error] member: an error whose message is a number makes
    [handleErrors] raise, and the error that [createFolder] raises is that
    one; a body whose [error] member is [0] has the member and its [id] is
    returned; a body that is [null] has no member at all and
    [createFolder] raises. *)
Lemma createFolder_counterexample :
  (outcome (get Sample.numeric_error "error")
   = Return (VObj [("message", VNum 42)])
   /\ outcome (createFolder Sample.folder_numeric_error "site" (VStr "ya29"))
      = Throw (mkExn KTypeError "includes is not a function"))
  /\ (outcome (get Sample.zero_error "error") = Return (VNum 0)
      /\ outcome (createFolder Sample.folder_zero_error "site" (VStr "ya29"))
         = Return (VStr "folder1"))
  /\ outcome (createFolder Sample.folder_null "site" (VStr "ya29"))
     = Throw (mkExn KTypeError
                "Cannot read properties of null (reading 'error')").
Proof. repeat split; vm_compute; reflexivity. Qed.

(** ** Repository creation *)

(** C4, evaluated on the code: [createUserRepo] hands back the parsed body
    of any reply, whatever its status and whether or not it carries an
    [errors] member; it raises only when the request or the parse fails. *)
Theorem createUserRepo_unchecked (w : World) (repoName accessToken : string)
  (response : Response value) (data : value) :
  repo_generation w = Resolved response ->
  json response = Resolved data ->
  outcome (createUserRepo w repoName accessToken) = Return data.
Proof.
  intros Hw Hj. unfold createUserRepo, fetch.
  rewrite !outcome_bind, Hw. cbn. now rewrite Hj.
Qed.

Lemma createUserRepo_unchecked_witness :
  outcome (createUserRepo Sample.repo_refused "site" "gho_1")
  = Return Sample.name_taken.
Proof.
  exact (createUserRepo_unchecked Sample.repo_refused "site" "gho_1" _
           Sample.name_taken eq_refl eq_refl).
Defined.

(** On the refused creation the run goes on and reports success. *)
Lemma repo_refused_reported_created :
  In (StatusUpdate "Git repo successfully created" 33)
    (trace (oneclicksample Sample.repo_refused "site" "blog")).
Proof. vm_compute. do 6 right. left. reflexivity. Qed.

(** The later revision raises on every reply whose status is not a
    success. *)
Lemma revised_createUserRepo_checks (stringify : value -> string)
  (w : World) (repoName accessToken : string) (response : Response value) :
  repo_generation w = Resolved response ->
  ok response = false ->
  exists cause,
    outcome (Revised.createUserRepo stringify w repoName accessToken)
    = Throw (Error ("Failed to Create Git Repo : " ++ cause)).
Proof.
  intros Hw Hok. unfold Revised.createUserRepo, try_catch, fetch.
  rewrite Hw. cbn [emit await bind ret throw].
  unfold Revised.handleGitErrors. rewrite Hok. cbn [negb].
  match goal with
  | |- context [bind ?m ?k] => destruct (bind m k) as [t [a | e]] eqn:E
  end.
  - exfalso. revert E.
    destruct (Revised.parse_body response) as [t0 [data | e0]]; cbn;
      [| discriminate].
    destruct (get data "errors") as [t1 [errors | e1]]; cbn; [| discriminate].
    destruct (truthy errors); cbn; [| discriminate].
    destruct (Revised.join_method errors) as [t2 [j | e2]]; cbn; discriminate.
  - cbn. eexists; reflexivity.
Qed.

Lemma revised_createUserRepo_refuses (stringify : value -> string)
  (body : string) :
  body <> EmptyString ->
  outcome (Revised.createUserRepo stringify
             (Sample.world Sample.token_granted
                (Resolved (mkResponse false 422 body
                             (Resolved Sample.name_taken) None
                             (Resolved EmptyString)))
                Sample.google_granted Sample.folder_created
                (Sample.reply Sample.library)
                (fun _ => Sample.reply Sample.children))
             "site" "gho_1")
  = Throw (Error ("Failed to Create Git Repo : "
                  ++ "Could not clone: Name already exists on this account")).
Proof.
  intros Hb. apply String.eqb_neq in Hb.
  unfold Revised.createUserRepo, Revised.handleGitErrors, Revised.parse_body.
  cbn [Sample.world repo_generation fetch bind emit await ret text json ok].
  rewrite Hb. reflexivity.
Qed.

(** A reply that carries an [errors] member under a success status is
    returned by the later revision as well. *)
Lemma revised_createUserRepo_ok_errors (stringify : value -> string)
  (body : string) :
  body <> EmptyString ->
  outcome (Revised.createUserRepo stringify
             (Sample.world Sample.token_granted
                (Resolved (mkResponse true 200 body
                             (Resolved Sample.name_taken) None
                             (Resolved EmptyString)))
                Sample.google_granted Sample.folder_created
                (Sample.reply Sample.library)
                (fun _ => Sample.reply Sample.children))
             "site" "gho_1")
  = Return Sample.name_taken.
Proof.
  intros Hb. apply String.eqb_neq in Hb.
  unfold Revised.createUserRepo, Revised.handleGitErrors, Revised.parse_body.
  cbn [Sample.world repo_generation fetch bind emit await ret text json ok].
  rewrite Hb. reflexivity.
Qed.

(** ** Authorization *)

(** C5, evaluated on the code: when the redirect of the storage provider
    contains [access_denied], [getGoogleAccessToken] raises nothing and
    returns [null]. *)
Theorem getGoogleAccessToken_denied (w : World) (redirectUrl : string) :
  google_authorization w = Resolved redirectUrl ->
  JS.includes redirectUrl "access_denied" = true ->
  outcome (getGoogleAccessToken w) = Return VNull.
Proof.
  intros Hw Hd. unfold getGoogleAccessToken, launchWebAuthFlow.
  rewrite !outcome_bind, Hw. cbn [emit await outcome snd ret].
  rewrite Hd. destruct (lastError w); reflexivity.
Qed.

Lemma getGoogleAccessToken_denied_witness :
  outcome (getGoogleAccessToken Sample.google_denied) = Return VNull.
Proof.
  exact (getGoogleAccessToken_denied Sample.google_denied
           "https://ext.chromiumapp.org/#error=access_denied"
           eq_refl eq_refl).
Defined.

(** The source-control side raises on the same marker. *)
Lemma getGitHubAuthToken_denied (w : World) (redirectUrl : string) :
  git_authorization w = Resolved redirectUrl ->
  JS.includes redirectUrl "error=access_denied" = true ->
  outcome (getGitHubAuthToken w)
  = Throw (Error "Failed to Authorize Git :  Access denied !").
Proof.
  intros Hw Hd. unfold getGitHubAuthToken, launchWebAuthFlow.
  rewrite !outcome_bind, Hw. cbn [emit await outcome snd ret].
  now rewrite Hd.
Qed.

(** After the denial the run goes on to create the folder, with [null] as
    the bearer token. *)
Lemma google_denied_run_continues :
  In (Net (Fetch "POST" "https://www.googleapis.com/drive/v3/files"
             (json_headers "Bearer null")
             (JsonBody
                (VObj [("name", VStr "site");
                       ("mimeType",
                        VStr "application/vnd.google-apps.folder")]))))
    (trace (oneclicksample Sample.google_denied "site" "blog")).
Proof. vm_compute. do 9 right. left. reflexivity. Qed.

(** ** Stage ordering around the token exchange *)

Lemma off_storage_getGitHubAuthToken (w : World) :
  only off_storage (getGitHubAuthToken w).
Proof. unfold getGitHubAuthToken; confine. Qed.

Lemma off_storage_getAccessToken (w : World) (gitAuthToken : string) :
  only off_storage (getAccessToken w gitAuthToken).
Proof. unfold getAccessToken; confine. Qed.


Lemma off_storage_calls (t : list Event) :
  forallb off_storage t = true ->
  forall c, In c (calls_of t) -> storage_side c = false.
Proof.
  intros Hall c Hin. unfold calls_of in Hin.
  apply in_flat_map in Hin as (e & He & Hc).
  rewrite forallb_forall in Hall. specialize (Hall e He).
  unfold off_storage in Hall. cbn [calls_of flat_map] in Hall.
  rewrite app_nil_r, forallb_forall in Hall.
  specialize (Hall c Hc). now destruct (storage_side c).
Qed.




(** ** The template copy *)

Lemma bind_assoc {A B C} (m : M A) (f : A -> M B) (g : B -> M C) :
  bind (bind m f) g = bind m (fun x => bind (f x) g).
Proof.
  destruct m as [t [a | e]]; cbn; [| reflexivity].
  destruct (f a) as [t1 [b | e1]]; cbn; [| reflexivity].
  destruct (g b) as [t2 r]. now rewrite app_assoc.
Qed.

Lemma other_requests (t : list Event) :
  forallb other_request t = true ->
  filter is_export (calls_of t) = []
  /\ filter is_upload (calls_of t) = []
  /\ filter is_detached t = [].
Proof.
  induction t as [| [| | c |] t IH]; cbn [forallb other_request];
    intros H; try discriminate; [repeat split |].
  apply andb_prop in H as [Hc Ht]. apply andb_prop in Hc as [He Hu].
  destruct (IH Ht) as (IHe & IHu & IHd).
  change (calls_of (Net c :: t)) with (c :: calls_of t).
  cbn [filter is_detached].
  destruct (is_export c); [discriminate |].
  destruct (is_upload c); [discriminate |]. auto.
Qed.

Lemma Permutation_filter {A} (p : A -> bool) (l l' : list A) :
  Permutation l l' -> Permutation (filter p l) (filter p l').
Proof.
  induction 1 as [| x l l' _ IH | x y l | l l' l'' _ IH1 _ IH2]; cbn.
  - constructor.
  - destruct (p x); [constructor |]; exact IH.
  - destruct (p x), (p y); try reflexivity. constructor.
  - now transitivity (filter p l').
Qed.

Lemma member_string (v : value) (k x : string) :
  member v k = VStr x -> nullish v = false.
Proof. destruct v; cbn; intros H; try discriminate H; reflexivity. Qed.

(** A computation that returns, followed by another. *)
Lemma bind_returned {A B} (m : M A) (k : A -> M B) (a : A) :
  outcome m = Return a ->
  bind m k = ((trace m ++ trace (k a))%list, outcome (k a)).
Proof.
  destruct m as [t [x | e]]; cbn; intros H; [| discriminate H].
  injection H as ->. now destruct (k a).
Qed.

Lemma bind_logged {A B} (t : list Event) (a : A) (k : A -> M B) :
  bind (t, Return a) k = ((t ++ trace (k a))%list, outcome (k a)).
Proof. cbn. now destruct (k a). Qed.

Section CopyLoop.

Variable w : World.
Variables targetFolderId gAccessToken : value.

(** Exports, continuations and opened uploads of one turn of the loop. *)
Lemma copy_events_counts (f : value) :
  let t := copy_events w targetFolderId gAccessToken f in
  filter is_export (calls_of t) = (if recognised f then [export_of f] else [])
  /\ filter is_detached t
     = (if recognised f
        then [continuation w targetFolderId gAccessToken f] else [])
  /\ List.length (filter is_upload (calls_of t))
     = (if recognised f && exported w f then 1 else 0)%nat.
Proof.
  unfold copy_events, continuation, exported, upload_calls.
  destruct (recognised f); [| repeat split].
  destruct (exported_blob w f) as [fileblob |]; [| repeat split].
  destruct (upload_session w (member f "name")); repeat split.
Qed.

Lemma copy_loop_counts (fs : list value) :
  let t := flat_map (copy_events w targetFolderId gAccessToken) fs in
  filter is_export (calls_of t) = map export_of (filter recognised fs)
  /\ filter is_detached t
     = map (continuation w targetFolderId gAccessToken) (filter recognised fs)
  /\ List.length (filter is_upload (calls_of t))
     = List.length (filter (exported w) (filter recognised fs)).
Proof.
  induction fs as [| f fs IH]; cbn zeta in *; [repeat split |].
  cbn [flat_map].
  destruct IH as (IHe & IHd & IHu).
  destruct (copy_events_counts f) as (He & Hd & Hu).
  rewrite calls_of_app, !filter_app, !length_app, He, Hd, Hu, IHe, IHd, IHu.
  cbn [filter]. destruct (recognised f); cbn [andb filter map List.length app];
    [destruct (exported w f) |]; repeat split.
Qed.

(** The two listing requests of [addTemplate] are neither exports nor
    uploads. *)
Lemma listing_requests (tempName : string) (templateFolderId : value) :
  forallb other_request
    (trace (getTemplateFolderId w TEMPLATE_FOLDER_ID tempName gAccessToken)
     ++ trace (getFolderItemsByID w templateFolderId gAccessToken)) = true.
Proof.
  assert (N1 : only other_request
                 (getTemplateFolderId w TEMPLATE_FOLDER_ID tempName
                    gAccessToken)).
  { pose proof (only_handleErrors other_request).
    unfold getTemplateFolderId; confine. }
  assert (N2 : only other_request
                 (getFolderItemsByID w templateFolderId gAccessToken)).
  { unfold getFolderItemsByID; confine. }
  unfold only in *.
  now rewrite forallb_app, N1, N2.
Qed.

(** [addTemplate] once the template folder is resolved and its listing is
    an array none of whose entries is [null] or [undefined]. *)
Lemma addTemplate_listed (tempName : string) (templateFolderId : value)
  (fs : list value) :
  outcome (getTemplateFolderId w TEMPLATE_FOLDER_ID tempName gAccessToken)
  = Return templateFolderId ->
  outcome (getFolderItemsByID w templateFolderId gAccessToken)
  = Return (VArr fs) ->
  (forall f, In f fs -> nullish f = false) ->
  addTemplate w tempName targetFolderId gAccessToken
  = (((trace (getTemplateFolderId w TEMPLATE_FOLDER_ID tempName gAccessToken)
       ++ trace (getFolderItemsByID w templateFolderId gAccessToken))
      ++ flat_map (copy_events w targetFolderId gAccessToken) fs)%list,
     Return tt).
Proof.
  intros H1 H2 Hfs. unfold addTemplate.
  rewrite (bind_returned _ _ _ H1), (bind_returned _ _ _ H2).
  cbn [iterate]. rewrite bind_ret_l, (copy_loop_entries _ _ _ _ Hfs).
  cbn [trace outcome fst snd]. now rewrite app_assoc.
Qed.

End CopyLoop.

(** C8, as the code has it.  When the template folder lists exactly one
    spreadsheet, one word-processor document and one entry of another
    type, in any order, [addTemplate] returns normally; it issues exactly
    two export requests, one with format [xlsx] for the spreadsheet and one
    with format [docx] for the document, and registers exactly two
    continuations, one for each of the two.  A continuation issues
    requests only if its export has settled with a blob: it then opens the
    upload with the name of the file, its type and the target folder and,
    once that request is answered, sends the blob to the address of the
    reply.  The number of uploads opened is thus the number of exports that
    settle with a blob.  The turn of the loop on the third entry logs
    nothing. *)
Theorem template_copy_two_files (w : World) (tempName : string)
  (targetFolderId gAccessToken templateFolderId : value)
  (fs : list value) (s d o : value) :
  outcome (getTemplateFolderId w TEMPLATE_FOLDER_ID tempName gAccessToken)
  = Return templateFolderId ->
  outcome (getFolderItemsByID w templateFolderId gAccessToken)
  = Return (VArr fs) ->
  Permutation fs [s; d; o] ->
  member s "mimeType" = VStr "application/vnd.google-apps.spreadsheet" ->
  member d "mimeType" = VStr "application/vnd.google-apps.document" ->
  nullish o = false ->
  recognised o = false ->
  let t := trace (addTemplate w tempName targetFolderId gAccessToken) in
  outcome (addTemplate w tempName targetFolderId gAccessToken) = Return tt
  /\ Permutation (filter is_export (calls_of t))
       [export_call (to_string (member s "id")) "xlsx";
        export_call (to_string (member d "id")) "docx"]
  /\ Permutation (filter is_detached t)
       [Detached
          match exported_blob w s with
          | Some fileblob =>
              session_call targetFolderId (member s "name") "xlsx"
                gAccessToken
              :: match upload_session w (member s "name") with
                 | Resolved metaResponse =>
                     [content_call (location metaResponse) gAccessToken
                        fileblob]
                 | Rejected _ => []
                 end
          | None => []
          end;
        Detached
          match exported_blob w d with
          | Some fileblob =>
              session_call targetFolderId (member d "name") "docx"
                gAccessToken
              :: match upload_session w (member d "name") with
                 | Resolved metaResponse =>
                     [content_call (location metaResponse) gAccessToken
                        fileblob]
                 | Rejected _ => []
                 end
          | None => []
          end]
  /\ List.length (filter is_upload (calls_of t))
     = List.length (filter (exported w) [s; d])
  /\ copy_file w targetFolderId gAccessToken o = ret tt.
Proof.
  intros H1 H2 Hperm Hs Hd Ho Ro t.
  assert (Rs : recognised s = true) by (unfold recognised; now rewrite Hs).
  assert (Rd : recognised d = true) by (unfold recognised; now rewrite Hd).
  assert (Hrec : Permutation (filter recognised fs) [s; d]).
  { rewrite (Permutation_filter recognised _ _ Hperm).
    cbn [filter]. now rewrite Rs, Rd, Ro. }
  assert (Hfs : forall f, In f fs -> nullish f = false).
  { intros f Hf. apply (Permutation_in _ Hperm) in Hf.
    destruct Hf as [<- | [<- | [<- | []]]];
      [exact (member_string _ _ _ Hs) | exact (member_string _ _ _ Hd)
       | exact Ho]. }
  pose proof (addTemplate_listed w targetFolderId gAccessToken tempName
                templateFolderId fs H1 H2 Hfs) as Ht.
  destruct (other_requests _ (listing_requests w gAccessToken tempName
                                templateFolderId)) as (Le & Lu & Ld).
  destruct (copy_loop_counts w targetFolderId gAccessToken fs)
    as (Ce & Cd & Cu).
  subst t. rewrite Ht. cbn [outcome trace fst snd].
  remember (trace (getTemplateFolderId w TEMPLATE_FOLDER_ID tempName
                     gAccessToken)
            ++ trace (getFolderItemsByID w templateFolderId gAccessToken))%list
    as listing.
  rewrite calls_of_app, !filter_app, !length_app.
  rewrite Le, Lu, Ld, Ce, Cd, Cu. cbn [app List.length plus].
  split; [reflexivity |].
  split; [| split; [| split]].
  - rewrite (Permutation_map export_of Hrec). cbn [map].
    unfold export_of, getDocumentType. rewrite Hs, Hd. reflexivity.
  - rewrite (Permutation_map _ Hrec). cbn [map].
    unfold continuation, upload_calls, getDocumentType. rewrite Hs, Hd.
    reflexivity.
  - apply Permutation_length, Permutation_filter, Hrec.
  - rewrite (copy_file_entry w targetFolderId gAccessToken o Ho).
    unfold copy_events. now rewrite Ro.
Qed.

Lemma template_copy_two_files_witness :
  filter is_detached
    (trace (addTemplate Sample.healthy "blog" (VStr "folder1") (VStr "ya29")))
  = [Detached
       [session_call (VStr "folder1") (VStr "helix-query") "xlsx"
          (VStr "ya29");
        content_call (Some "https://www.googleapis.com/upload/session/1")
          (VStr "ya29") "bytes"];
     Detached
       [session_call (VStr "folder1") (VStr "index") "docx" (VStr "ya29");
        content_call (Some "https://www.googleapis.com/upload/session/1")
          (VStr "ya29") "bytes"]]
  /\ List.length
       (filter is_upload
          (calls_of (trace (addTemplate Sample.healthy "blog"
                              (VStr "folder1") (VStr "ya29")))))
     = 2%nat.
Proof.
  split; [reflexivity |].
  exact (proj1 (proj2 (proj2 (proj2
           (template_copy_two_files Sample.healthy "blog" (VStr "folder1")
              (VStr "ya29") (VStr "t1")
              [Sample.sheet; Sample.doc; Sample.picture]
              Sample.sheet Sample.doc Sample.picture
              eq_refl eq_refl (Permutation_refl _) eq_refl eq_refl
              eq_refl eq_refl))))).
Defined.

(** The template folder lists a spreadsheet, a document and a picture, and
    every export request is rejected: the two exports are requested and
    nothing is uploaded. *)
Lemma template_copy_counterexample :
  outcome (getFolderItemsByID Sample.export_down (VStr "t1") (VStr "ya29"))
  = Return (VArr [Sample.sheet; Sample.doc; Sample.picture])
  /\ filter is_export
       (calls_of (trace (addTemplate Sample.export_down "blog"
                           (VStr "folder1") (VStr "ya29"))))
     = [export_call "s1" "xlsx"; export_call "d1" "docx"]
  /\ filter is_upload
       (calls_of (trace (addTemplate Sample.export_down "blog"
                           (VStr "folder1") (VStr "ya29"))))
     = []
  /\ filter is_detached
       (trace (addTemplate Sample.export_down "blog" (VStr "folder1")
                 (VStr "ya29")))
     = [Detached []; Detached []].
Proof. repeat split; vm_compute; reflexivity. Qed.

(** ** Template resolution *)

Lemma first_named_absent (templateName : string) (items : list value) :
  (forall item, In item items ->
                nullish item = false
                /\ is_string templateName (member item "name") = false) ->
  first_named templateName items = ret VNull.
Proof.
  induction items as [| item items IH]; intros Hno; cbn [first_named];
    [reflexivity |].
  destruct (Hno item (or_introl eq_refl)) as [Hn Hs].
  rewrite (get_member item "name" Hn), bind_ret_l, Hs.
  apply IH. intros i Hi. apply Hno. now right.
Qed.

(** The later revision, which checks the status and the [error] member of
    the reply, ends on the same [return null]. *)
Lemma revised_getTemplateFolderId_null :
  outcome (Revised.getTemplateFolderId Sample.healthy
             TEMPLATE_FOLDER_ID "nosuch" (VStr "ya29"))
  = Return VNull.
Proof. reflexivity. Qed.

(** C9, as the code has it.  Let the query on the template library be
    answered with a body on which [handleErrors] raises nothing and whose
    [files] member is an array of objects none of which bears the requested
    name.  Then [getTemplateFolderId] raises nothing and returns [null];
    [addTemplate] goes on as it does for any folder: its second request is
    the query ['null' in parents], and its log and outcome from there are
    those of the listing of [null] followed by the copy loop.  In
    particular, when that listing is an array of objects the stage returns
    normally, each entry of a recognised type is exported, and the
    continuation registered for it uploads the export if it yields a
    blob. *)
Theorem template_not_found_returns_null (w : World) (tempName : string)
  (targetFolderId gAccessToken : value) (response : Response value)
  (responseJson surfaced : value) (items : list value) :
  template_lookup w = Resolved response ->
  json response = Resolved responseJson ->
  outcome (handleErrors responseJson) = Return surfaced ->
  member responseJson "files" = VArr items ->
  (forall item, In item items ->
                nullish item = false
                /\ is_string tempName (member item "name") = false) ->
  let lookup :=
    Net (Fetch "GET"
           (drive_query ("'" ++ TEMPLATE_FOLDER_ID
                         ++ "' in parents and name='" ++ tempName ++ "'"))
           (json_headers (bearer gAccessToken)) NoBody) in
  let listing :=
    Net (Fetch "GET"
           "https://www.googleapis.com/drive/v3/files?q=%27null%27+in+parents"
           (json_headers (bearer gAccessToken)) NoBody) in
  getTemplateFolderId w TEMPLATE_FOLDER_ID tempName gAccessToken
  = ([lookup], Return VNull)
  /\ trace (getFolderItemsByID w VNull gAccessToken) = [listing]
  /\ trace (addTemplate w tempName targetFolderId gAccessToken)
     = (lookup
        :: trace (templateFiles <- getFolderItemsByID w VNull gAccessToken ;;
                  entries <- iterate "templateFiles" templateFiles ;;
                  for_of entries (copy_file w targetFolderId gAccessToken)))
  /\ outcome (addTemplate w tempName targetFolderId gAccessToken)
     = outcome (templateFiles <- getFolderItemsByID w VNull gAccessToken ;;
                entries <- iterate "templateFiles" templateFiles ;;
                for_of entries (copy_file w targetFolderId gAccessToken))
  /\ (forall fs,
        outcome (getFolderItemsByID w VNull gAccessToken) = Return (VArr fs) ->
        (forall f, In f fs -> nullish f = false) ->
        addTemplate w tempName targetFolderId gAccessToken
        = ((lookup :: listing
            :: flat_map (copy_events w targetFolderId gAccessToken) fs)%list,
           Return tt)).
Proof.
  intros Hw Hj Hh Hf Hno lookup listing.
  assert (Hid : getTemplateFolderId w TEMPLATE_FOLDER_ID tempName gAccessToken
                = ([lookup], Return VNull)).
  { unfold getTemplateFolderId, fetch. rewrite Hw. cbn [emit await bind ret app].
    rewrite Hj. cbn [await bind ret app].
    pose proof (trace_handleErrors responseJson) as Htr.
    assert (Hn : nullish responseJson = false).
    { destruct responseJson; try reflexivity; discriminate Hh. }
    unfold outcome, trace in *.
    destruct (handleErrors responseJson) as [th [v | e]];
      cbn [fst snd] in *; [| discriminate Hh].
    subst th. cbn [bind ret app].
    rewrite (get_member responseJson "files" Hn), Hf.
    cbn [iterate bind ret app].
    now rewrite (first_named_absent tempName items Hno). }
  assert (Hl : trace (getFolderItemsByID w VNull gAccessToken) = [listing]).
  { unfold getFolderItemsByID.
    rewrite trace_bind, trace_fetch.
    destruct (outcome (fetch _ _ _ _ _)) as [r |]; [| reflexivity].
    rewrite trace_bind, trace_await.
    destruct (outcome (await (json r))); [| reflexivity].
    now rewrite trace_get. }
  split; [exact Hid |].
  split; [exact Hl |].
  unfold addTemplate. rewrite Hid, bind_logged.
  split; [reflexivity |].
  split; [reflexivity |].
  intros fs Hfs Hobj.
  rewrite (bind_returned _ _ _ Hfs), Hl.
  cbn [iterate]. rewrite bind_ret_l, (copy_loop_entries _ _ _ _ Hobj).
  reflexivity.
Qed.

Lemma template_not_found_returns_null_witness :
  outcome (getTemplateFolderId Sample.healthy TEMPLATE_FOLDER_ID "nosuch"
             (VStr "ya29"))
  = Return VNull
  /\ filter is_export
       (calls_of (trace (addTemplate Sample.healthy "nosuch" (VStr "folder1")
                           (VStr "ya29"))))
     = [export_call "s1" "xlsx"; export_call "d1" "docx"].
Proof.
  assert (Hno : forall item, In item [Sample.blog] ->
                  nullish item = false
                  /\ is_string "nosuch" (member item "name") = false).
  { intros item [<- | []]. split; reflexivity. }
  destruct (template_not_found_returns_null Sample.healthy "nosuch"
              (VStr "folder1") (VStr "ya29") _ Sample.library VUndefined
              [Sample.blog] eq_refl eq_refl eq_refl eq_refl Hno)
    as (Hid & _ & _ & _ & Hcopy).
  split; [now rewrite Hid |].
  rewrite (Hcopy [Sample.sheet; Sample.doc; Sample.picture] eq_refl).
  - reflexivity.
  - intros f [<- | [<- | [<- | []]]]; reflexivity.
Defined.

(** A template name without a match: the resolution returns [null], the
    stage completes, and a file found by the query on [null] is exported
    and uploaded. *)
Lemma template_not_found_counterexample :
  outcome (getTemplateFolderId Sample.template_missing TEMPLATE_FOLDER_ID
             "nosuch" (VStr "ya29"))
  = Return VNull
  /\ In (Net (Fetch "GET"
                "https://www.googleapis.com/drive/v3/files?q=%27null%27+in+parents"
                (json_headers "Bearer ya29") NoBody))
       (trace (addTemplate Sample.template_missing "nosuch" (VStr "folder1")
                 (VStr "ya29")))
  /\ outcome (addTemplate Sample.template_missing "nosuch" (VStr "folder1")
                (VStr "ya29"))
     = Return tt
  /\ filter is_export
       (calls_of (trace (addTemplate Sample.template_missing "nosuch"
                           (VStr "folder1") (VStr "ya29"))))
     = [export_call "s1" "xlsx"]
  /\ List.length
       (filter is_upload
          (calls_of (trace (addTemplate Sample.template_missing "nosuch"
                              (VStr "folder1") (VStr "ya29")))))
     = 1%nat.
Proof.
  repeat split; try (vm_compute; reflexivity).
  vm_compute. right; left; reflexivity.
Qed.

(** ** Facts on strings *)

Module JSFacts.

Lemma length_append (a b : string) :
  String.length (a ++ b) = (String.length a + String.length b)%nat.
Proof. induction a as [| c a IH]; cbn; [reflexivity | now rewrite IH]. Qed.

Lemma append_assoc (a b c : string) : (a ++ b) ++ c = a ++ (b ++ c).
Proof. induction a as [| x a IH]; cbn; [reflexivity | now rewrite IH]. Qed.

Lemma substring_all (n : nat) (s : string) :
  (String.length s <= n)%nat -> String.substring 0 n s = s.
Proof.
  revert n; induction s as [| c s IH]; intros [| n] H; cbn in *;
    try reflexivity; try lia.
  rewrite IH by lia. reflexivity.
Qed.

Lemma substring_skip (a b : string) (n : nat) :
  String.substring (String.length a) n (a ++ b) = String.substring 0 n b.
Proof. induction a as [| c a IH]; cbn; [reflexivity | exact IH]. Qed.

Lemma substring_take (a b : string) :
  String.substring 0 (String.length a) (a ++ b) = a.
Proof.
  induction a as [| c a IH]; cbn; [now destruct b | now rewrite IH].
Qed.

Lemma substring_none (s : string) : String.substring 0 0 s = EmptyString.
Proof. now destruct s. Qed.

(** [s.substring(|a|)] drops the leading [a]. *)
Lemma substring_from_append (a b : string) :
  JS.substring_from (a ++ b) (JS.length a) = b.
Proof.
  unfold JS.substring_from, JS.substring, JS.clamp, JS.length.
  rewrite length_append, Nat2Z.inj_add.
  replace (Z.max 0 (Z.min (Z.of_nat (String.length a))
                      (Z.of_nat (String.length a)
                       + Z.of_nat (String.length b))))
    with (Z.of_nat (String.length a)) by lia.
  replace (Z.max 0 (Z.min (Z.of_nat (String.length a)
                           + Z.of_nat (String.length b))
                      (Z.of_nat (String.length a)
                       + Z.of_nat (String.length b))))
    with (Z.of_nat (String.length a) + Z.of_nat (String.length b)) by lia.
  rewrite Z.min_l, Z.max_r by lia.
  rewrite Nat2Z.id.
  replace (Z.of_nat (String.length a) + Z.of_nat (String.length b)
           - Z.of_nat (String.length a))
    with (Z.of_nat (String.length b)) by lia.
  rewrite Nat2Z.id, substring_skip. apply substring_all; lia.
Qed.

(** [s.substring(0, |a|)] keeps the leading [a]. *)
Lemma substring_to_append (a b : string) :
  JS.substring (a ++ b) 0 (JS.length a) = a.
Proof.
  unfold JS.substring, JS.clamp, JS.length.
  rewrite length_append, Nat2Z.inj_add.
  replace (Z.max 0 (Z.min 0 (Z.of_nat (String.length a)
                             + Z.of_nat (String.length b)))) with 0 by lia.
  replace (Z.max 0 (Z.min (Z.of_nat (String.length a))
                      (Z.of_nat (String.length a)
                       + Z.of_nat (String.length b))))
    with (Z.of_nat (String.length a)) by lia.
  rewrite Z.min_l, Z.max_r by lia.
  rewrite Z.sub_0_r, Nat2Z.id. apply substring_take.
Qed.

(** [s.substring(0, -1)] is empty. *)
Lemma substring_to_minus_one (s : string) :
  JS.substring s 0 (-1) = EmptyString.
Proof.
  unfold JS.substring, JS.clamp.
  replace (Z.max 0 (Z.min 0 (JS.length s))) with 0
    by (unfold JS.length; lia).
  replace (Z.max 0 (Z.min (-1) (JS.length s))) with 0
    by (unfold JS.length; lia).
  apply substring_none.
Qed.

(** The scan either fails with [-1], wherever it started, or finds a
    position counted from its starting index. *)
Lemma indexOf_from_shift (sub s : string) (i : Z) :
  (JS.indexOf_from sub s 0 = -1 /\ JS.indexOf_from sub s i = -1)
  \/ (0 <= JS.indexOf_from sub s 0
      /\ JS.indexOf_from sub s 0 <= JS.length s
      /\ JS.indexOf_from sub s i = i + JS.indexOf_from sub s 0).
Proof.
  revert i; induction s as [| c s IH]; intros i; cbn [JS.indexOf_from].
  - destruct (JS.startsWith EmptyString sub);
      [right; cbn; lia | left; auto].
  - destruct (JS.startsWith (String c s) sub).
    + right. unfold JS.length; cbn [String.length]. lia.
    + destruct (IH (i + 1)) as [[H0 Hi] | (H0 & Hl & Hi)];
        destruct (IH (0 + 1)) as [[H0' H1] | (H0' & Hl' & H1)]; try lia.
      right. rewrite H1, Hi. unfold JS.length in *; cbn [String.length].
      lia.
Qed.

Lemma indexOf_range (s sub : string) :
  JS.indexOf s sub = -1
  \/ (0 <= JS.indexOf s sub <= JS.length s).
Proof.
  unfold JS.indexOf.
  destruct (indexOf_from_shift sub s 0) as [[H _] | (H & Hl & _)]; lia.
Qed.

Lemma includes_false (s sub : string) :
  JS.includes s sub = false <-> JS.indexOf s sub = -1.
Proof.
  unfold JS.includes. destruct (Z.eqb_spec (JS.indexOf s sub) (-1)); cbn.
  - tauto.
  - split; [discriminate | contradiction].
Qed.

Lemma indexOf_cons (c : ascii) (s sub : string) :
  JS.startsWith (String c s) sub = false ->
  JS.indexOf (String c s) sub
  = (if JS.indexOf s sub =? -1 then -1 else 1 + JS.indexOf s sub).
Proof.
  intros H. unfold JS.indexOf. cbn [JS.indexOf_from]. rewrite H.
  destruct (indexOf_from_shift sub s (0 + 1)) as [[H0 H1] | (H0 & _ & H1)].
  - now rewrite H0, H1.
  - rewrite H1. destruct (Z.eqb_spec (JS.indexOf_from sub s 0) (-1)); lia.
Qed.

(** The first [sep] of [a ++ sep ++ b] is at the end of [a] when [a] holds
    none. *)
Lemma indexOf_separator (sep : ascii) (a b : string) :
  JS.includes a (String sep EmptyString) = false ->
  JS.indexOf (a ++ String sep b) (String sep EmptyString) = JS.length a.
Proof.
  induction a as [| c a IH]; intros Hno.
  - unfold JS.indexOf; cbn. now rewrite Ascii.eqb_refl.
  - apply includes_false in Hno.
    assert (Hc : JS.startsWith (String c a) (String sep EmptyString) = false).
    { destruct (JS.startsWith (String c a) (String sep EmptyString)) eqn:E;
        [| reflexivity].
      unfold JS.indexOf in Hno. cbn [JS.indexOf_from] in Hno.
      rewrite E in Hno. discriminate Hno. }
    rewrite (indexOf_cons c a _ Hc) in Hno.
    assert (Ha : JS.indexOf a (String sep EmptyString) = -1).
    { destruct (Z.eqb_spec (JS.indexOf a (String sep EmptyString)) (-1));
        [assumption |].
      destruct (indexOf_range a (String sep EmptyString)); lia. }
    cbn [append].
    assert (Hc' : JS.startsWith (String c (a ++ String sep b))
                    (String sep EmptyString) = false).
    { cbn in *. destruct (Ascii.eqb sep c); [discriminate Hc | reflexivity]. }
    rewrite (indexOf_cons c _ _ Hc'), IH by (now apply includes_false).
    unfold JS.length; cbn [String.length].
    destruct (Z.eqb_spec (Z.of_nat (String.length a)) (-1)); lia.
Qed.

End JSFacts.

(** ** Reading a token out of a reply *)

(** The two-step scan shared by [getAccessToken] and
    [getGoogleAccessToken]: skip to the end of the first [marker], then cut
    at the first ampersand. *)
Lemma scan_token (data pre marker tok rest : string) :
  data = pre ++ marker ++ tok ++ String "&" rest ->
  JS.indexOf data marker = JS.length pre ->
  JS.includes tok "&" = false ->
  JS.substring
    (JS.substring_from data (JS.indexOf data marker + JS.length marker)) 0
    (JS.indexOf
       (JS.substring_from data (JS.indexOf data marker + JS.length marker))
       "&")
  = tok.
Proof.
  intros -> Hidx Hno. rewrite Hidx.
  replace (JS.length pre + JS.length marker) with (JS.length (pre ++ marker))
    by (unfold JS.length; rewrite JSFacts.length_append; lia).
  rewrite <- JSFacts.append_assoc, JSFacts.substring_from_append.
  rewrite (JSFacts.indexOf_separator "&" tok rest Hno).
  apply JSFacts.substring_to_append.
Qed.

(** When nothing follows the token, the cut at the first ampersand leaves
    the empty string. *)
Lemma scan_last_parameter (data pre marker tok : string) :
  data = pre ++ marker ++ tok ->
  JS.indexOf data marker = JS.length pre ->
  JS.includes tok "&" = false ->
  JS.substring
    (JS.substring_from data (JS.indexOf data marker + JS.length marker)) 0
    (JS.indexOf
       (JS.substring_from data (JS.indexOf data marker + JS.length marker))
       "&")
  = EmptyString.
Proof.
  intros -> Hidx Hno. rewrite Hidx.
  replace (JS.length pre + JS.length marker) with (JS.length (pre ++ marker))
    by (unfold JS.length; rewrite JSFacts.length_append; lia).
  rewrite <- JSFacts.append_assoc, JSFacts.substring_from_append.
  apply JSFacts.includes_false in Hno. rewrite Hno.
  apply JSFacts.substring_to_minus_one.
Qed.

(** X1. When the reply of the token endpoint holds [access_token=], first
    at the end of [pre], followed by a token without ampersand and by an
    ampersand, [getAccessToken] returns exactly that token, whatever the
    status of the reply. *)
Theorem getAccessToken_scans (w : World) (gitAuthToken : string)
  (response : Response value) (pre tok rest : string) :
  git_token_exchange w = Resolved response ->
  text response = pre ++ "access_token=" ++ tok ++ String "&" rest ->
  JS.indexOf (text response) "access_token=" = JS.length pre ->
  JS.includes tok "&" = false ->
  outcome (getAccessToken w gitAuthToken) = Return tok.
Proof.
  intros Hw Ht Hi Hno. unfold getAccessToken, fetch.
  rewrite !outcome_bind, Hw. cbn [emit await outcome snd ret].
  f_equal. exact (scan_token _ pre "access_token=" tok rest Ht Hi Hno).
Qed.

Lemma getAccessToken_scans_witness :
  outcome (getAccessToken Sample.healthy "c0de") = Return "gho_1".
Proof.
  exact (getAccessToken_scans Sample.healthy "c0de" _ EmptyString "gho_1"
           "scope=repo&token_type=bearer" eq_refl eq_refl eq_refl eq_refl).
Defined.

(** X2. When the token is the last parameter of the reply, no ampersand
    following it, [getAccessToken] returns the empty string: the cut at
    index [-1] keeps nothing. *)
Theorem getAccessToken_last_parameter (w : World) (gitAuthToken : string)
  (response : Response value) (pre tok : string) :
  git_token_exchange w = Resolved response ->
  text response = pre ++ "access_token=" ++ tok ->
  JS.indexOf (text response) "access_token=" = JS.length pre ->
  JS.includes tok "&" = false ->
  outcome (getAccessToken w gitAuthToken) = Return EmptyString.
Proof.
  intros Hw Ht Hi Hno. unfold getAccessToken, fetch.
  rewrite !outcome_bind, Hw. cbn [emit await outcome snd ret].
  f_equal. exact (scan_last_parameter _ pre "access_token=" tok Ht Hi Hno).
Qed.

Lemma getAccessToken_last_parameter_witness :
  outcome (getAccessToken Sample.token_last "c0de") = Return EmptyString.
Proof.
  exact (getAccessToken_last_parameter Sample.token_last "c0de" _
           "token_type=bearer&" "gho_1" eq_refl eq_refl eq_refl eq_refl).
Defined.

(** X3. When the flow of the storage provider reports no error and its
    redirect holds no [access_denied] but holds [access_token=], first at
    the end of [pre], followed by a token without ampersand and by an
    ampersand, [getGoogleAccessToken] returns that token. *)
Theorem getGoogleAccessToken_scans (w : World)
  (redirectUrl pre tok rest : string) :
  google_authorization w = Resolved redirectUrl ->
  lastError w = false ->
  JS.includes redirectUrl "access_denied" = false ->
  redirectUrl = pre ++ "access_token=" ++ tok ++ String "&" rest ->
  JS.indexOf redirectUrl "access_token=" = JS.length pre ->
  JS.includes tok "&" = false ->
  outcome (getGoogleAccessToken w) = Return (VStr tok).
Proof.
  intros Hw Hl Hd Hu Hi Hno. unfold getGoogleAccessToken, launchWebAuthFlow.
  rewrite !outcome_bind, Hw. cbn [emit await outcome snd ret].
  rewrite Hl, Hd. cbn [outcome snd ret]. do 2 f_equal.
  exact (scan_token _ pre "access_token=" tok rest Hu Hi Hno).
Qed.

Lemma getGoogleAccessToken_scans_witness :
  outcome (getGoogleAccessToken Sample.healthy) = Return (VStr "ya29").
Proof.
  exact (getGoogleAccessToken_scans Sample.healthy _
           "https://ext.chromiumapp.org/#state=s&" "ya29" "token_type=Bearer"
           eq_refl eq_refl eq_refl eq_refl eq_refl eq_refl).
Defined.

(** X4. When the redirect of the source-control flow holds no
    [error=access_denied] and holds [code=], first at the end of [pre],
    [getGitHubAuthToken] returns everything that follows, further
    parameters included; when it holds no [code=] at all, it returns the
    redirect without its first four code units. *)
Theorem getGitHubAuthToken_code (w : World) (redirectUrl : string) :
  git_authorization w = Resolved redirectUrl ->
  JS.includes redirectUrl "error=access_denied" = false ->
  (forall pre rest,
      redirectUrl = pre ++ "code=" ++ rest ->
      JS.indexOf redirectUrl "code=" = JS.length pre ->
      outcome (getGitHubAuthToken w) = Return rest)
  /\ (JS.includes redirectUrl "code=" = false ->
      outcome (getGitHubAuthToken w)
      = Return (JS.substring_from redirectUrl 4)).
Proof.
  intros Hw Hd. unfold getGitHubAuthToken, launchWebAuthFlow.
  rewrite !outcome_bind, Hw. cbn [emit await outcome snd ret].
  rewrite Hd. cbn [outcome snd ret]. split.
  - intros pre rest -> Hi. f_equal. rewrite Hi.
    replace (JS.length pre + 5) with (JS.length (pre ++ "code="))
      by (unfold JS.length; rewrite JSFacts.length_append; cbn; lia).
    rewrite <- JSFacts.append_assoc. apply JSFacts.substring_from_append.
  - intros Hno. apply JSFacts.includes_false in Hno. now rewrite Hno.
Qed.

Lemma getGitHubAuthToken_code_witness :
  outcome (getGitHubAuthToken Sample.healthy) = Return "c0de".
Proof.
  exact (proj1 (getGitHubAuthToken_code Sample.healthy _ eq_refl eq_refl)
           "https://ext.chromiumapp.org/?" "c0de" eq_refl eq_refl).
Defined.

(** ** Error inspection *)

(** X5. [handleErrors] returns [undefined] exactly when the [error] member
    of the body can be read and is falsy; every other body makes it return
    a defined value or raise. *)
Theorem handleErrors_undefined_iff (data : value) :
  outcome (handleErrors data) = Return VUndefined
  <-> exists error,
        outcome (get data "error") = Return error /\ truthy error = false.
Proof.
  split.
  - unfold handleErrors. rewrite outcome_bind.
    destruct (outcome (get data "error")) as [error |] eqn:Hg;
      [| discriminate].
    destruct (truthy error) eqn:Ht; [| intros _; eauto].
    intros H. exfalso. revert H. rewrite outcome_bind.
    destruct error as [| | b | n | s | items | members]; try discriminate Ht;
      cbn [get ret outcome snd].
    1-4: destruct data; try discriminate Hg; discriminate.
    destruct (truthy (lookup "message" members)) eqn:Hm.
    + rewrite outcome_bind.
      destruct (lookup "message" members) as [| | b | n | s | items | ms];
        try discriminate Hm; cbn [includes_method ret throw outcome snd];
        try discriminate.
      * destruct (JS.includes s "User message"); [discriminate |].
        cbn. destruct s; [discriminate Hm | discriminate].
      * destruct (existsb (is_string "User message") items); discriminate.
    + destruct data; try discriminate Hg; discriminate.
  - intros (error & Hg & Ht). unfold handleErrors.
    now rewrite outcome_bind, Hg, Ht.
Qed.

Lemma handleErrors_undefined_iff_witness :
  outcome (handleErrors (VObj [("id", VStr "folder1")])) = Return VUndefined.
Proof.
  apply (proj2 (handleErrors_undefined_iff (VObj [("id", VStr "folder1")]))).
  exists VUndefined. split; reflexivity.
Defined.



(** ** Rewriting the mount configuration *)

Lemma trace_includes_method (v : value) (sub : string) :
  trace (includes_method v sub) = [].
Proof. destruct v; reflexivity. Qed.

(** Unfolds the next [bind] of a log in [H] and splits on the outcome of
    its first computation. *)
Ltac walk H :=
  rewrite trace_bind in H;
  rewrite ?trace_fetch, ?trace_await, ?trace_handleErrors, ?trace_get,
    ?trace_includes_method in H;
  rewrite ?outcome_fetch, ?outcome_await in H;
  cbn [app] in H.

(** X7. [editFsTab] writes only after a successful read: a PUT request
    appears in its log only if the GET request was answered with a body
    that parses and in which [handleErrors] finds nothing; the PUT then
    goes to the same URL as the GET and carries, unchanged, the [sha]
    member of the body that was read. *)
Theorem editFsTab_writes_after_read (w : World) (giturl : value)
  (gitAccessToken : string) (folderId : value)
  (url : string) (headers : list (string * string)) (body : Body) :
  In (Net (Fetch "PUT" url headers body))
    (trace (editFsTab w giturl gitAccessToken folderId)) ->
  exists response data1 blobsha,
    fstab_read w = Resolved response
    /\ json response = Resolved data1
    /\ outcome (handleErrors data1) = Return VUndefined
    /\ outcome (get data1 "sha") = Return blobsha
    /\ url = to_string giturl ++ "/contents/fstab.yaml"
    /\ In (Net (Fetch "GET" url headers NoBody))
         (trace (editFsTab w giturl gitAccessToken folderId))
    /\ body = JsonBody
                (VObj [("message", VStr "updated FsTab.Yaml");
                       ("content",
                        VStr (Base64.btoa (contentString folderId)));
                       ("sha", blobsha)]).
Proof.
  intros Hin.
  assert (Hget : In (Net (Fetch "GET"
                            (to_string giturl ++ "/contents/fstab.yaml")
                            (json_headers ("Bearer " ++ gitAccessToken))
                            NoBody))
                   (trace (editFsTab w giturl gitAccessToken folderId))).
  { unfold editFsTab. rewrite trace_bind, trace_fetch. now left. }
  revert Hget. unfold editFsTab in Hin |- *.
  remember (Base64.btoa (contentString folderId)) as encoded.
  walk Hin. destruct Hin as [Hin | Hin]; [discriminate Hin |].
  destruct (fstab_read w) as [response |] eqn:Hr; [| contradiction].
  walk Hin. destruct (json response) as [data1 |] eqn:Hj; [| contradiction].
  walk Hin.
  destruct (outcome (handleErrors data1)) as [errormsg |] eqn:Hh;
    [| contradiction].
  destruct errormsg; cbn [is_undefined negb] in Hin;
    try (cbn in Hin; contradiction).
  walk Hin.
  destruct (outcome (get data1 "sha")) as [blobsha |] eqn:Hs;
    [| contradiction].
  walk Hin. destruct Hin as [Hin | Hin].
  - injection Hin as <- <- <-. intros Hget.
    exists response, data1, blobsha. repeat split; auto.
  - exfalso.
    destruct (fstab_write w) as [response2 |]; [| contradiction].
    walk Hin. destruct (json response2) as [data |]; [| contradiction].
    walk Hin.
    destruct (outcome (handleErrors data)) as [errormsg |];
      [| contradiction].
    destruct errormsg; cbn [is_undefined negb] in Hin;
    try (cbn in Hin; contradiction).
    walk Hin.
    destruct (outcome (get data "commit")) as [commit |]; [| contradiction].
    walk Hin.
    destruct (outcome (get commit "message")) as [msg |]; [| contradiction].
    walk Hin.
    destruct (outcome (includes_method msg "updated")); contradiction.
Qed.

Lemma editFsTab_writes_after_read_witness :
  In (Net (Fetch "PUT"
             "https://api.github.com/repos/me/site/contents/fstab.yaml"
             (json_headers "Bearer gho_1") (JsonBody Sample.fstab_update)))
    (trace (editFsTab Sample.healthy
              (VStr "https://api.github.com/repos/me/site") "gho_1"
              (VStr "folder1")))
  /\ In (Net (Fetch "GET"
                "https://api.github.com/repos/me/site/contents/fstab.yaml"
                (json_headers "Bearer gho_1") NoBody))
       (trace (editFsTab Sample.healthy
                 (VStr "https://api.github.com/repos/me/site") "gho_1"
                 (VStr "folder1"))).
Proof.
  assert (H : In (Net (Fetch "PUT"
               "https://api.github.com/repos/me/site/contents/fstab.yaml"
               (json_headers "Bearer gho_1") (JsonBody Sample.fstab_update)))
      (trace (editFsTab Sample.healthy
                (VStr "https://api.github.com/repos/me/site") "gho_1"
                (VStr "folder1")))).
  { vm_compute. right; left; reflexivity. }
  split; [exact H |].
  destruct (editFsTab_writes_after_read _ _ _ _ _ _ _ H)
    as (response & data1 & blobsha & _ & _ & _ & _ & _ & Hget & _).
  exact Hget.
Defined.

(** Splits on the outcome of the next computation of a sequence. *)
Ltac next_outcome H :=
  rewrite outcome_bind in H;
  rewrite ?outcome_fetch, ?outcome_await in H;
  match type of H with
  | match ?o with _ => _ end = _ =>
      let a := fresh "a" in
      let E := fresh "E" in
      destruct o as [a |] eqn:E; [| discriminate H]
  end.

(** X8. [editFsTab] returns only the parsed body of the reply to its PUT
    request, and only when [handleErrors] finds nothing in it and its
    [commit.message] member is a string or an array: a reply to a
    successful write that lacks [commit.message] makes the stage raise. *)
Theorem editFsTab_returns (w : World) (giturl : value)
  (gitAccessToken : string) (folderId data : value) :
  outcome (editFsTab w giturl gitAccessToken folderId) = Return data ->
  exists response commit commit_message,
    fstab_write w = Resolved response
    /\ json response = Resolved data
    /\ outcome (handleErrors data) = Return VUndefined
    /\ outcome (get data "commit") = Return commit
    /\ outcome (get commit "message") = Return commit_message
    /\ ((exists s, commit_message = VStr s)
        \/ (exists items, commit_message = VArr items)).
Proof.
  intros H. unfold editFsTab in H.
  next_outcome H. next_outcome H. next_outcome H.
  destruct a1; cbn [is_undefined negb] in H; try discriminate H.
  next_outcome H. next_outcome H. next_outcome H. next_outcome H.
  destruct a4; cbn [is_undefined negb] in H; try discriminate H.
  next_outcome H. next_outcome H. next_outcome H.
  cbn in H. injection H as <-.
  exists a2, a4, a5.
  destruct (fstab_write w) as [response |]; [| discriminate E3].
  injection E3 as ->.
  destruct (json a2) as [data |]; [| discriminate E4].
  injection E4 as ->.
  repeat split; auto.
  destruct a5; try discriminate E8; eauto.
Qed.

Lemma editFsTab_returns_witness :
  outcome (editFsTab Sample.healthy
             (VStr "https://api.github.com/repos/me/site") "gho_1"
             (VStr "folder1"))
  = Return (VObj [("commit", VObj [("message", VStr "updated FsTab.Yaml")])])
  /\ outcome (handleErrors
                (VObj [("commit",
                        VObj [("message", VStr "updated FsTab.Yaml")])]))
     = Return VUndefined.
Proof.
  assert (H : outcome (editFsTab Sample.healthy
                         (VStr "https://api.github.com/repos/me/site")
                         "gho_1" (VStr "folder1"))
              = Return (VObj [("commit",
                               VObj [("message",
                                      VStr "updated FsTab.Yaml")])]))
    by (vm_compute; reflexivity).
  split; [exact H |].
  destruct (editFsTab_returns _ _ _ _ _ H)
    as (response & commit & msg & _ & _ & Hh & _).
  exact Hh.
Defined.

(** ** Copying one file *)

Lemma only_none (A : Type) (m : M A) :
  only (fun _ => false) m -> trace m = [].
Proof.
  unfold only. destruct (trace m); [reflexivity | discriminate].
Qed.

Section Upload.

Variable w : World.
Variables folderId googleAccessToken : value.

(** X9. [uploadFile] does not look at the reply that opens the upload
    session: as soon as that request is answered, whatever its status,
    the blob is sent by a PUT request to the [location] header of the reply,
    or to [null] when the header is absent. *)
Theorem uploadFile_session_unchecked (fileName : value)
  (fileblob docType : string) (metaResponse : Response value) :
  upload_session w fileName = Resolved metaResponse ->
  exists open,
    is_upload open = true
    /\ trace (uploadFile w folderId fileName fileblob docType
                googleAccessToken)
       = [Net open;
          Net (Fetch "PUT"
                 match location metaResponse with
                 | Some l => l
                 | None => "null"
                 end
                 [("Authorization", bearer googleAccessToken)]
                 (BlobBody fileblob))].
Proof.
  intros Hw. unfold uploadFile.
  destruct (if String.eqb docType "xlsx" then _ else _)
    as [uploadContentType mimeType].
  unfold fetch at 1. rewrite Hw, bind_assoc, trace_emit_bind.
  eexists. split.
  2: { f_equal.
       cbn [await]. rewrite bind_ret_l.
       change (handleErrors Response_object) with (@ret value VUndefined).
       rewrite bind_ret_l. cbn [is_undefined negb].
       rewrite trace_bind, trace_fetch. cbn [app]. f_equal.
       destruct (outcome (fetch _ _ _ _ _)) as [response2 |];
         [| reflexivity].
       apply only_none.
       pose proof (only_handleErrors (fun _ => false)).
       confine. }
  reflexivity.
Qed.

End Upload.

Lemma uploadFile_session_unchecked_witness :
  In (Net (Fetch "PUT" "https://www.googleapis.com/upload/session/1"
             [("Authorization", "Bearer ya29")] (BlobBody "bytes")))
    (trace (uploadFile Sample.healthy (VStr "folder1") (VStr "index") "bytes"
              "docx" (VStr "ya29"))).
Proof.
  destruct (uploadFile_session_unchecked Sample.healthy (VStr "folder1")
              (VStr "ya29") (VStr "index") "bytes" "docx" _ eq_refl)
    as (open & _ & Ht).
  rewrite Ht. right; left; reflexivity.
Defined.

Lemma is_string_true (s : string) (v : value) :
  is_string s v = true -> v = VStr s.
Proof.
  destruct v; cbn; intros H; try discriminate H.
  apply String.eqb_eq in H. now subst.
Qed.

Lemma recognised_entry (f : value) :
  recognised f = true ->
  nullish f = false
  /\ (member f "mimeType" = VStr "application/vnd.google-apps.spreadsheet"
      \/ member f "mimeType" = VStr "application/vnd.google-apps.document").
Proof.
  unfold recognised. intros H. apply orb_prop in H.
  destruct H as [H | H]; apply is_string_true in H;
    (split; [exact (member_string _ _ _ H) | auto]).
Qed.

Section CopyOne.

Variable w : World.
Variables targetFolderId gAccessToken : value.

(** X10. For a spreadsheet or a document whose export request is answered
    with a body that can be read, whatever the status of the answer, that
    body is what is uploaded: the turn of the loop logs the export request
    and a continuation that opens an upload session whose metadata carry
    the name of the file, the MIME type it had in the template, and the
    target folder as only parent, and that, once the session request is
    answered, sends the exported bytes by a PUT request to the [location]
    header of the answer, or to [null] when the header is absent. *)
Theorem copy_file_uploads (f : value) (data : Response value)
  (fileblob : string) :
  recognised f = true ->
  document_export w (member f "id") (getDocumentType (member f "mimeType"))
  = Resolved data ->
  blob data = Resolved fileblob ->
  trace (copy_file w targetFolderId gAccessToken f)
  = [Net (export_of f);
     Detached
       (Fetch "POST"
          "https://www.googleapis.com/upload/drive/v3/files?uploadType=resumable"
          [("Authorization", bearer gAccessToken);
           ("Content-Type", "application/json");
           ("X-Upload-Content-Type",
            if String.eqb (getDocumentType (member f "mimeType")) "xlsx"
            then "application/vnd.openxmlformats-officedocument.spreadsheetml.sheet"
            else "application/vnd.openxmlformats-officedocument.wordprocessingml.document")]
          (JsonBody
             (VObj [("name", member f "name");
                    ("mimeType", member f "mimeType");
                    ("parents", VArr [targetFolderId])]))
        :: match upload_session w (member f "name") with
           | Resolved metaResponse =>
               [Fetch "PUT"
                  match location metaResponse with
                  | Some l => l
                  | None => "null"
                  end
                  [("Authorization", bearer gAccessToken)]
                  (BlobBody fileblob)]
           | Rejected _ => []
           end)].
Proof.
  intros Hr He Hb.
  destruct (recognised_entry f Hr) as [Hn Hm].
  rewrite (copy_file_entry w targetFolderId gAccessToken f Hn).
  unfold copy_events, continuation, exported_blob, upload_calls, session_call,
    content_call.
  rewrite Hr, He, Hb. cbn [trace fst].
  destruct Hm as [Hm | Hm]; rewrite Hm; reflexivity.
Qed.

(** X11. When the export of a spreadsheet or document is rejected, or its
    body cannot be read, the continuation issues nothing: the file is
    neither uploaded nor reported. *)
Theorem copy_file_export_lost (f : value) :
  recognised f = true ->
  exported w f = false ->
  trace (copy_file w targetFolderId gAccessToken f)
  = [Net (export_of f); Detached []]
  /\ outcome (copy_file w targetFolderId gAccessToken f) = Return tt.
Proof.
  intros Hr He.
  destruct (recognised_entry f Hr) as [Hn _].
  rewrite (copy_file_entry w targetFolderId gAccessToken f Hn).
  unfold copy_events, continuation, exported in *. rewrite Hr.
  destruct (exported_blob w f); [discriminate He |]. split; reflexivity.
Qed.

(** X12. Once the template folder is resolved and its children are
    listed, none of them being [null], [addTemplate] returns normally
    whatever becomes of the exports and uploads; its export requests are
    those of the spreadsheets and documents of the listing, in the order of
    the listing, folders and other files being skipped. *)
Theorem addTemplate_exports_in_order (tempName : string)
  (templateFolderId : value) (fs : list value) :
  outcome (getTemplateFolderId w TEMPLATE_FOLDER_ID tempName gAccessToken)
  = Return templateFolderId ->
  outcome (getFolderItemsByID w templateFolderId gAccessToken)
  = Return (VArr fs) ->
  (forall f, In f fs -> nullish f = false) ->
  outcome (addTemplate w tempName targetFolderId gAccessToken) = Return tt
  /\ filter is_export
       (calls_of (trace (addTemplate w tempName targetFolderId gAccessToken)))
     = map export_of (filter recognised fs).
Proof.
  intros H1 H2 Hfs.
  rewrite (addTemplate_listed w targetFolderId gAccessToken tempName
             templateFolderId fs H1 H2 Hfs).
  split; [reflexivity |]. cbn [trace fst].
  destruct (other_requests _ (listing_requests w gAccessToken tempName
                                templateFolderId)) as (Le & _ & _).
  destruct (copy_loop_counts w targetFolderId gAccessToken fs)
    as (Ce & _ & _).
  remember (trace (getTemplateFolderId w TEMPLATE_FOLDER_ID tempName
                     gAccessToken)
            ++ trace (getFolderItemsByID w templateFolderId gAccessToken))%list
    as listing.
  now rewrite calls_of_app, filter_app, Le, Ce.
Qed.

End CopyOne.

Lemma copy_file_uploads_witness :
  trace (copy_file Sample.healthy (VStr "folder1") (VStr "ya29") Sample.doc)
  = [Net (export_call "d1" "docx");
     Detached
       [session_call (VStr "folder1") (VStr "index") "docx" (VStr "ya29");
        Fetch "PUT" "https://www.googleapis.com/upload/session/1"
          [("Authorization", "Bearer ya29")] (BlobBody "bytes")]].
Proof.
  rewrite (copy_file_uploads Sample.healthy (VStr "folder1") (VStr "ya29")
             Sample.doc _ "bytes" eq_refl eq_refl eq_refl).
  reflexivity.
Defined.

Lemma copy_file_export_lost_witness :
  trace (copy_file Sample.export_down (VStr "folder1") (VStr "ya29")
           Sample.sheet)
  = [Net (export_call "s1" "xlsx"); Detached []].
Proof.
  exact (proj1 (copy_file_export_lost Sample.export_down (VStr "folder1")
                  (VStr "ya29") Sample.sheet eq_refl eq_refl)).
Defined.

Lemma addTemplate_exports_in_order_witness :
  filter is_export
    (calls_of (trace (addTemplate Sample.healthy "blog" (VStr "folder1")
                        (VStr "ya29"))))
  = [export_call "s1" "xlsx"; export_call "d1" "docx"].
Proof.
  refine (proj2 (addTemplate_exports_in_order Sample.healthy (VStr "folder1")
                   (VStr "ya29") "blog" (VStr "t1")
                   [Sample.sheet; Sample.doc; Sample.picture]
                   eq_refl eq_refl _)).
  intros f [<- | [<- | [<- | []]]]; reflexivity.
Defined.

(** ** Resolving the template *)




(** ** Every run *)

(** X14. Whatever the outside world answers, a run of [oneclicksample]
    raises nothing and its log ends with exactly one terminal message,
    either [publish] or the failure message, no other message of the log
    being of either kind. *)
Theorem run_terminal_message (w : World) (siteName templateName : string) :
  outcome (oneclicksample w siteName templateName) = Return tt
  /\ exists before last,
       trace (oneclicksample w siteName templateName)
       = (before ++ [last])%list
       /\ forallb intermediate before = true
       /\ (is_publish last = true /\ is_failure last = false
           \/ is_publish last = false /\ is_failure last = true).
Proof.
  destruct (outcome (provision w siteName templateName)) as [[] | e] eqn:Ho.
  - assert (Ht : trace (oneclicksample w siteName templateName)
                 = trace (provision w siteName templateName)
               /\ outcome (oneclicksample w siteName templateName)
                  = Return tt).
    { unfold oneclicksample, try_catch, outcome, trace in *.
      destruct (provision w siteName templateName) as [t' [[] | e]];
        [split; reflexivity | discriminate Ho]. }
    destruct Ht as [Ht Hout]. split; [exact Hout |].
    destruct (provision_returns w siteName templateName Ho)
      as (gitAuthToken & gitAccessToken & gitData & giturl & gitcloneUrl
          & googleAccessToken & targetFolderId & _ & _ & Htrace).
    rewrite Ht, Htrace.
    eexists _, (Publish gitcloneUrl). split.
    { rewrite !app_assoc.
      change [StatusUpdate "Project setup completed !" 100;
              Publish gitcloneUrl]
        with ([StatusUpdate "Project setup completed !" 100]
              ++ [Publish gitcloneUrl])%list.
      rewrite app_assoc. reflexivity. }
    split; [| left; split; reflexivity].
    pose proof (only_getGitHubAuthToken w is_request (fun _ => eq_refl)) as S1.
    pose proof (only_getAccessToken w is_request (fun _ => eq_refl)
                  gitAuthToken) as S2.
    pose proof (only_createUserRepo w is_request (fun _ => eq_refl)
                  siteName gitAccessToken) as S3.
    pose proof (only_getGoogleAccessToken w is_request (fun _ => eq_refl))
      as S4.
    pose proof (only_createFolder w is_request (fun _ => eq_refl)
                  siteName googleAccessToken) as S5.
    pose proof (only_createPermission w is_request (fun _ => eq_refl)
                  targetFolderId googleAccessToken) as S6.
    pose proof (only_editFsTab w is_request (fun _ => eq_refl)
                  giturl gitAccessToken targetFolderId) as S7.
    pose proof (silent_addTemplate w templateName targetFolderId
                  googleAccessToken) as S8.
    unfold only in *.
    rewrite !forallb_app.
    rewrite (requests_intermediate _ S1), (requests_intermediate _ S2),
      (requests_intermediate _ S3), (requests_intermediate _ S4),
      (requests_intermediate _ S5), (requests_intermediate _ S6),
      (requests_intermediate _ S7), (requests_intermediate _ S8).
    reflexivity.
  - destruct (provision_throws w siteName templateName e Ho)
      as (stage & Hstage).
    destruct (first_failure_log w siteName templateName stage e _ Hstage)
      as (Hint & _).
    assert (Ht : trace (oneclicksample w siteName templateName)
                 = (trace (provision w siteName templateName)
                    ++ [StatusUpdate (failure_message e) 0])%list
               /\ outcome (oneclicksample w siteName templateName)
                  = Return tt).
    { unfold oneclicksample, try_catch, outcome, trace in *.
      destruct (provision w siteName templateName) as [t' [[] | e']];
        [discriminate Ho |].
      cbn in Ho; injection Ho as ->. split; reflexivity. }
    destruct Ht as [Ht Hout]. split; [exact Hout |].
    eexists _, _. split; [exact Ht |].
    split; [exact Hint |].
    right. split; reflexivity.
Qed.

(** X15. Whatever the outside world answers, every request of a run,
    those of the upload continuations included, is an authorization flow or
    a [fetch] with method GET, POST or PUT: nothing that the run has created
    is ever removed. *)
Theorem run_never_removes (w : World) (siteName templateName : string) :
  forallb known_method
    (calls_of (trace (oneclicksample w siteName templateName))) = true.
Proof.
  apply known_calls.
  pose proof (known_provision w siteName templateName) as Hp.
  unfold only, oneclicksample, try_catch, trace in *.
  destruct (provision w siteName templateName) as [t [[] | e]];
    cbn [fst] in *; [exact Hp |].
  cbn [sendStatusMessage emit fst]. now rewrite forallb_app, Hp.
Qed.

(** ** The later revisions *)

Lemma substring_middle_nat (x y z : string) :
  String.substring (String.length x) (String.length y) (x ++ y ++ z) = y.
Proof.
  rewrite JSFacts.substring_skip. apply JSFacts.substring_take.
Qed.

(** [s.substring(a, b)] cuts the same piece whichever of [a] and [b] comes
    first. *)
Lemma substring_middle (x y z : string) :
  JS.substring (x ++ y ++ z) (JS.length x) (JS.length x + JS.length y) = y
  /\ JS.substring (x ++ y ++ z) (JS.length x + JS.length y) (JS.length x) = y.
Proof.
  unfold JS.substring, JS.clamp, JS.length.
  rewrite !JSFacts.length_append, !Nat2Z.inj_add.
  set (a := Z.of_nat (String.length x)).
  set (b := Z.of_nat (String.length y)).
  set (c := Z.of_nat (String.length z)).
  assert (0 <= a /\ 0 <= b /\ 0 <= c) as (Ha & Hb & Hc) by (subst a b c; lia).
  replace (Z.max 0 (Z.min a (a + (b + c)))) with a by lia.
  replace (Z.max 0 (Z.min (a + b) (a + (b + c)))) with (a + b) by lia.
  rewrite Z.min_l, Z.max_r, Z.min_r, Z.max_l by lia.
  replace (a + b - a) with b by lia.
  subst a b. rewrite !Nat2Z.id.
  split; apply substring_middle_nat.
Qed.

Section RevisedToken.

Variables git_client_id git_client_secret : string.
Variable w : World.

(** X16. In the later revision the token is cut at the first ampersand of
    the whole reply.  When no ampersand comes before the end of the token,
    [getGithubAccessToken] returns the token; when a parameter comes before
    [access_token=], it returns instead the piece that runs from the first
    ampersand to the end of the marker, not the token. *)
Theorem revised_token_scan (gitAuthToken : string)
  (response : Response value) :
  outcome (Revised.getGitHubAuthToken git_client_id w) = Return gitAuthToken ->
  git_token_exchange w = Resolved response ->
  (forall pre tok rest,
      text response = pre ++ ("access_token=" ++ tok) ++ String "&" rest ->
      JS.indexOf (text response) "access_token=" = JS.length pre ->
      JS.includes (pre ++ "access_token=" ++ tok) "&" = false ->
      outcome (Revised.getGithubAccessToken git_client_id git_client_secret w)
      = Return tok)
  /\ (forall first more rest,
        text response
        = first ++ (String "&" more ++ "access_token=") ++ rest ->
        JS.indexOf (text response) "access_token="
        = JS.length first + 1 + JS.length more ->
        JS.includes first "&" = false ->
        outcome (Revised.getGithubAccessToken git_client_id
                   git_client_secret w)
        = Return (String "&" more ++ "access_token=")).
Proof.
  intros Hauth Hw.
  unfold Revised.getGithubAccessToken.
  rewrite outcome_bind, Hauth.
  unfold try_catch, fetch. rewrite Hw.
  cbn [emit await bind ret app outcome snd].
  split.
  - intros pre tok rest Ht Hi Hno. f_equal. rewrite Hi.
    assert (Hamp : JS.indexOf (text response) "&"
                   = JS.length pre + 13 + JS.length tok).
    { rewrite Ht.
      replace (pre ++ ("access_token=" ++ tok) ++ String "&" rest)
        with ((pre ++ "access_token=" ++ tok) ++ String "&" rest)
        by (now rewrite !JSFacts.append_assoc).
      rewrite (JSFacts.indexOf_separator "&" _ rest Hno).
      unfold JS.length. rewrite !JSFacts.length_append. cbn; lia. }
    rewrite Hamp, Ht.
    replace (pre ++ ("access_token=" ++ tok) ++ String "&" rest)
      with ((pre ++ "access_token=") ++ tok ++ String "&" rest)
      by (now rewrite !JSFacts.append_assoc).
    replace (JS.length pre + 13) with (JS.length (pre ++ "access_token="))
      by (unfold JS.length; rewrite JSFacts.length_append; cbn; lia).
    apply substring_middle.
  - intros first more rest Ht Hi Hno. f_equal. rewrite Hi.
    assert (Hamp : JS.indexOf (text response) "&" = JS.length first).
    { rewrite Ht.
      replace (first ++ (String "&" more ++ "access_token=") ++ rest)
        with (first ++ String "&" (more ++ "access_token=" ++ rest))
        by (cbn; now rewrite !JSFacts.append_assoc).
      apply (JSFacts.indexOf_separator "&" first _ Hno). }
    rewrite Hamp, Ht.
    replace (JS.length first + 1 + JS.length more + 13)
      with (JS.length first + JS.length (String "&" more ++ "access_token="))
      by (unfold JS.length; cbn [String.length append];
          rewrite JSFacts.length_append; cbn; lia).
    apply substring_middle.
Qed.

End RevisedToken.

Lemma revised_token_scan_witness :
  outcome (Revised.getGithubAccessToken "id" "secret" Sample.healthy)
  = Return "gho_1"
  /\ outcome (Revised.getGithubAccessToken "id" "secret" Sample.token_last)
     = Return "&access_token=".
Proof.
  split.
  - exact (proj1 (revised_token_scan "id" "secret" Sample.healthy "c0de" _
                    eq_refl eq_refl)
             EmptyString "gho_1" "scope=repo&token_type=bearer"
             eq_refl eq_refl eq_refl).
  - exact (proj2 (revised_token_scan "id" "secret" Sample.token_last "c0de" _
                    eq_refl eq_refl)
             "token_type=bearer" EmptyString "gho_1"
             eq_refl eq_refl eq_refl).
Defined.

(** X17. The later [createUserRepo], on a reply whose body is not empty
    and parses: with a success status it returns the parsed body; with any
    other status it raises an error whose message is the fixed prefix
    followed by the comma-joined [errors] member when that member is an
    array, and by the serialised body when the member is absent or
    falsy. *)
Theorem revised_createUserRepo_outcomes (stringify : value -> string)
  (w : World) (repoName accessToken : string) (response : Response value)
  (data : value) :
  repo_generation w = Resolved response ->
  text response <> EmptyString ->
  json response = Resolved data ->
  (ok response = true ->
   outcome (Revised.createUserRepo stringify w repoName accessToken)
   = Return data)
  /\ (ok response = false ->
      forall errors,
        outcome (get data "errors") = Return errors ->
        (truthy errors = false ->
         outcome (Revised.createUserRepo stringify w repoName accessToken)
         = Throw (Error ("Failed to Create Git Repo : " ++ stringify data)))
        /\ (forall items,
               errors = VArr items ->
               outcome (Revised.createUserRepo stringify w repoName
                          accessToken)
               = Throw (Error ("Failed to Create Git Repo : "
                               ++ to_string (VArr items))))).
Proof.
  intros Hw Ht Hj. apply String.eqb_neq in Ht.
  unfold Revised.createUserRepo, try_catch, fetch. rewrite Hw.
  cbn [emit await bind ret app].
  unfold Revised.handleGitErrors, Revised.parse_body. rewrite Ht, Hj.
  rewrite bind_ret_l.
  split.
  - intros Hok. rewrite Hok. reflexivity.
  - intros Hok errors He. rewrite Hok. cbn [negb].
    unfold outcome in He.
    destruct (get data "errors") as [te [errors' |]] eqn:Hg;
      cbn [snd] in He; [| discriminate He].
    injection He as ->.
    assert (te = []) as -> by (pose proof (trace_get data "errors") as T;
                               now rewrite Hg in T).
    split.
    + intros Hf. cbn [bind]. rewrite Hf. reflexivity.
    + intros items ->. reflexivity.
Qed.

Lemma revised_createUserRepo_outcomes_witness :
  outcome (Revised.createUserRepo to_string Sample.repo_refused_text "site"
             "gho_1")
  = Throw (Error ("Failed to Create Git Repo : "
                  ++ "Could not clone: Name already exists on this account")).
Proof.
  refine (proj2 (proj2 (revised_createUserRepo_outcomes to_string
                          Sample.repo_refused_text "site" "gho_1" _
                          Sample.name_taken eq_refl _ eq_refl)
                   eq_refl _ eq_refl) _ eq_refl).
  discriminate.
Defined.

(** X18. On a reply whose status is not a success and whose body is not
    empty and parses, the later [handleGoogleErrors] raises an error whose
    message is exactly the text that [handleErrors] surfaces for the same
    body, whenever that is a string. *)
Theorem handleGoogleErrors_agrees (response : Response value) (data : value)
  (m : string) :
  ok response = false ->
  text response <> EmptyString ->
  json response = Resolved data ->
  outcome (handleErrors data) = Return (VStr m) ->
  outcome (Revised.handleGoogleErrors response) = Throw (Error m).
Proof.
  intros Hok Ht Hj Hh. apply String.eqb_neq in Ht.
  unfold Revised.handleGoogleErrors, Revised.parse_body.
  rewrite Ht, Hj, bind_ret_l, Hok. cbn [negb].
  revert Hh. unfold handleErrors. rewrite !outcome_bind.
  destruct (outcome (get data "error")) as [error |] eqn:Hg;
    [| discriminate].
  destruct (truthy error) eqn:He.
  2: { discriminate. }
  rewrite !outcome_bind.
  destruct (outcome (get error "message")) as [msg |]; [| discriminate].
  destruct (truthy msg) eqn:Hm.
  2: { cbn [ret outcome snd]. intros [= ->].
       cbn in Hg. injection Hg as <-. discriminate He. }
  rewrite !outcome_bind. cbn [ret outcome snd]. rewrite !outcome_bind.
  destruct msg as [| | b | n | s | items | ms]; cbn [includes_method];
    cbn [ret throw outcome snd]; try discriminate.
  - destruct (JS.includes s "User message"); cbn [substring_after ret].
    + cbn [outcome snd]. rewrite outcome_bind. cbn [outcome snd ret].
      intros [= <-]. reflexivity.
    + cbn [outcome snd]. rewrite outcome_bind. cbn [outcome snd ret].
      intros [= <-]. destruct s; [discriminate Hm | reflexivity].
  - destruct (existsb (is_string "User message") items); discriminate.
Qed.

Lemma handleGoogleErrors_agrees_witness :
  outcome (Revised.handleGoogleErrors Sample.quota_reply)
  = Throw (Error "quota exceeded").
Proof.
  refine (handleGoogleErrors_agrees Sample.quota_reply Sample.quota_error
            "quota exceeded" eq_refl _ eq_refl eq_refl).
  discriminate.
Defined.

(** The intermediate [handleErrors] returns no [undefined], and raises
    only type errors. *)
Lemma interim_handleErrors_results (data : value) :
  match outcome (Interim.handleErrors data) with
  | Return v => v <> VUndefined
  | Throw e => kind e = KTypeError
  end.
Proof.
  unfold Interim.handleErrors. rewrite outcome_bind.
  destruct data as [| | b | n | s | items | members];
    cbn [get ret throw outcome snd]; try reflexivity;
    try (cbn; discriminate).
  - cbn. destruct (JS.includes s "User message"); cbn; discriminate.
  - cbn. destruct (existsb (is_string "User message") items); cbn;
      [reflexivity | discriminate].
  - destruct (truthy (lookup "error" members)) eqn:Ht;
      [| cbn; reflexivity].
    rewrite !outcome_bind.
    destruct (lookup "error" members) as [| | b | n | s | items | ms];
      try discriminate Ht; cbn [get ret throw outcome snd]; try reflexivity.
    rewrite outcome_bind.
    destruct (lookup "message" ms) as [| | b | n | s | items | ms'];
      cbn [includes_method ret throw outcome snd]; try reflexivity.
    + destruct (JS.includes s "User message"); cbn; discriminate.
    + destruct (existsb (is_string "User message") items); cbn;
        [reflexivity | discriminate].
Qed.

(** X19. In the intermediate revision, [createGDriveFolder] looks at the
    body only when the status is not 200: with status 200 it returns the
    [id] member of whatever body it received; with any other status it
    always raises, either a type error or the fixed message that ends with
    [undefined], and never the message of the provider. *)
Theorem interim_createGDriveFolder_outcomes (w : World) (folderName : string)
  (googleAccessToken : value) (response : Response value) (data : value) :
  folder_creation w = Resolved response ->
  json response = Resolved data ->
  (status response = 200 ->
   outcome (Interim.createGDriveFolder w folderName googleAccessToken)
   = outcome (get data "id"))
  /\ (status response <> 200 ->
      exists e,
        outcome (Interim.createGDriveFolder w folderName googleAccessToken)
        = Throw e
        /\ (kind e = KTypeError
            \/ e = Error (JS.LF ++ "Failed to create Google drive Folder : "
                          ++ "undefined"))).
Proof.
  intros Hw Hj. unfold Interim.createGDriveFolder.
  rewrite outcome_bind, outcome_fetch, Hw. cbn beta iota.
  rewrite Hj. cbn [await]. rewrite bind_ret_l.
  split.
  - intros ->. reflexivity.
  - intros Hs. apply Z.eqb_neq in Hs. rewrite Hs. cbn [negb].
    rewrite outcome_bind.
    pose proof (interim_handleErrors_results data) as Hr.
    destruct (outcome (Interim.handleErrors data)) as [v | e].
    + destruct v; try contradiction; eexists; split; try reflexivity;
        right; reflexivity.
    + exists e. auto.
Qed.

Lemma interim_createGDriveFolder_outcomes_witness :
  outcome (Interim.createGDriveFolder Sample.folder_refused "site"
             (VStr "ya29"))
  = Throw Sample.folder_failure.
Proof.
  destruct (proj2 (interim_createGDriveFolder_outcomes Sample.folder_refused
                     "site" (VStr "ya29") _ Sample.quota_error
                     eq_refl eq_refl))
    as (e & He & _).
  - discriminate.
  - rewrite He. vm_compute in He. injection He as <-. reflexivity.
Defined.

(** ** Order of the stages *)

Lemma until_detached_app (t u : list Event) :
  forallb (fun e => negb (is_detached e)) t = true ->
  until_detached (t ++ u) = (t ++ until_detached u)%list.
Proof.
  induction t as [| e t IH]; cbn; [reflexivity |].
  intros H. apply andb_prop in H as [He Ht].
  destruct (is_detached e); [discriminate He |]. now rewrite IH.
Qed.

Lemma until_detached_none (t : list Event) :
  forallb (fun e => negb (is_detached e)) t = true ->
  existsb is_detached t = false.
Proof.
  induction t as [| e t IH]; cbn; [reflexivity |].
  intros H. apply andb_prop in H as [He Ht].
  destruct (is_detached e); [discriminate He |]. now apply IH.
Qed.

Lemma until_detached_cut (t u : list Event) :
  existsb is_detached t = true -> until_detached (t ++ u) = until_detached t.
Proof.
  induction t as [| e t IH]; [discriminate |].
  cbn. destruct (is_detached e); [reflexivity |].
  cbn. intros H. now rewrite IH.
Qed.

(** The only request of [createPermission]. *)
Lemma createPermission_log (w : World) (fileId googleAccessToken : value) :
  trace (createPermission w fileId googleAccessToken)
  = [Net (Fetch "POST"
            ("https://www.googleapis.com/drive/v3/files/"
             ++ to_string fileId ++ "/permissions")
            (json_headers (bearer googleAccessToken))
            (JsonBody
               (VObj [("role", VStr "writer"); ("type", VStr "user");
                      ("emailAddress", VStr "helix@adobe.com")])))].
Proof.
  unfold createPermission. rewrite trace_bind, trace_fetch.
  destruct (outcome (fetch _ _ _ _ _)) as [response |]; [| reflexivity].
  cbn [app]. f_equal. apply only_none.
  pose proof (only_handleErrors (fun _ => false)).
  confine.
Qed.

(** The two requests of an [editFsTab] that returns. *)
Lemma editFsTab_returned_log (w : World) (giturl : value)
  (gitAccessToken : string) (folderId data : value) :
  outcome (editFsTab w giturl gitAccessToken folderId) = Return data ->
  exists blobsha,
    trace (editFsTab w giturl gitAccessToken folderId)
    = [Net (Fetch "GET" (to_string giturl ++ "/contents/fstab.yaml")
              (json_headers ("Bearer " ++ gitAccessToken)) NoBody);
       Net (Fetch "PUT" (to_string giturl ++ "/contents/fstab.yaml")
              (json_headers ("Bearer " ++ gitAccessToken))
              (JsonBody
                 (VObj [("message", VStr "updated FsTab.Yaml");
                        ("content",
                         VStr (Base64.btoa (contentString folderId)));
                        ("sha", blobsha)])))].
Proof.
  intros H. unfold editFsTab in *.
  remember (Base64.btoa (contentString folderId)) as encoded.
  next_stage H; [| discriminate H].
  next_stage H; [| discriminate H].
  next_stage H; [| discriminate H].
  destruct a1; cbn [is_undefined negb] in *; try discriminate H.
  next_stage H; [| discriminate H].
  exists a1.
  rewrite trace_bind, !trace_fetch, trace_await, trace_handleErrors, trace_get.
  cbn [app]. do 2 f_equal.
  match goal with
  | |- match ?o with _ => _ end = [] => destruct o; [| reflexivity]
  end.
  apply only_none.
  pose proof (only_handleErrors (fun _ => false)).
  confine.
Qed.

(** Splits on the outcome of the next awaited stage of a log. *)
Ltac next_log :=
  rewrite ?trace_emit_bind; rewrite trace_bind;
  match goal with
  | |- context [match outcome ?m with _ => _ end] =>
      let a := fresh "a" in
      let E := fresh "E" in
      destruct (outcome m) as [a |] eqn:E
  end.

(** Closes the case in which the stage just split on has raised: the log
    so far holds no continuation. *)
Ltac no_continuation :=
  left; rewrite ?trace_get;
  repeat progress (cbn [forallb is_detached negb andb];
                   rewrite ?forallb_app);
  repeat match goal with
         | D : context [forallb _ _ = true] |- _ => rewrite !D
         end;
  reflexivity.

Section Reached.

Variable w : World.
Variables siteName templateName : string.

(** Either no continuation is registered during the [try] block, or the
    block has come to the template copy, every stage before it having
    returned. *)
Lemma provision_shape :
  forallb (fun e => negb (is_detached e))
    (trace (provision w siteName templateName)) = true
  \/ exists gitAuthToken gitAccessToken giturl googleAccessToken
            targetFolderId written rest,
       outcome (createPermission w targetFolderId googleAccessToken)
       = Return tt
       /\ outcome (editFsTab w giturl gitAccessToken targetFolderId)
          = Return written
       /\ trace (provision w siteName templateName)
          = (log_mount w siteName gitAuthToken gitAccessToken giturl
               googleAccessToken targetFolderId
             ++ [StatusUpdate "Adding Templates" 75]
             ++ trace (addTemplate w templateName targetFolderId
                         googleAccessToken)
             ++ rest)%list
       /\ forallb (fun e => negb (is_detached e)) rest = true.
Proof.
  pose proof (net_not_detached _
                (only_getGitHubAuthToken w is_net (fun _ => eq_refl))) as D1.
  pose proof (fun a => net_not_detached _
                (only_getAccessToken w is_net (fun _ => eq_refl) a)) as D2.
  pose proof (fun a b => net_not_detached _
                (only_createUserRepo w is_net (fun _ => eq_refl) a b)) as D3.
  pose proof (net_not_detached _
                (only_getGoogleAccessToken w is_net (fun _ => eq_refl)))
    as D4.
  pose proof (fun a b => net_not_detached _
                (only_createFolder w is_net (fun _ => eq_refl) a b)) as D5.
  pose proof (fun a b => net_not_detached _
                (only_createPermission w is_net (fun _ => eq_refl) a b))
    as D6.
  pose proof (fun a b c => net_not_detached _
                (only_editFsTab w is_net (fun _ => eq_refl) a b c)) as D7.
  unfold provision, sendStatusMessage, publish, installHelixbot.
  next_log; [| no_continuation].
  next_log; [| no_continuation].
  next_log; [| no_continuation].
  next_log; [| no_continuation].
  next_log; [| no_continuation].
  next_log; [| no_continuation].
  next_log; [| no_continuation].
  next_log; [| no_continuation].
  next_log; [| no_continuation].
  right. destruct a6.
  exists a, a0, a2, a4, a5, a7.
  rewrite ?trace_emit_bind, trace_bind, !trace_get.
  eexists. split; [exact E6 |]. split; [exact E7 |].
  split.
  - unfold log_mount, log_permission, log_folder, log_storage_authorization,
      log_repository_read, log_repository, log_token_exchange,
      log_git_authorization.
    cbn [app]. rewrite <- ?app_assoc. cbn [app]. reflexivity.
  - destruct (outcome (addTemplate w templateName a5 a4)); reflexivity.
Qed.

End Reached.

(** X20. In every run in which the copy loop registers a continuation,
    every stage before the template copy has returned, and the part of the
    log that precedes the first continuation shows, in this order: the
    messages up to 53, the request that grants the permission on the
    folder, the messages 60 and 65, the read and the write of the mount
    configuration, and the message 75, followed by requests only.  The
    permission has thus been requested and accepted, and the mount
    configuration rewritten, before any file of the template is copied. *)
Theorem copies_after_permission (w : World) (siteName templateName : string) :
  existsb is_detached (trace (oneclicksample w siteName templateName)) = true ->
  exists gitAuthToken gitAccessToken giturl googleAccessToken targetFolderId
         blobsha written,
    outcome (createPermission w targetFolderId googleAccessToken) = Return tt
    /\ outcome (editFsTab w giturl gitAccessToken targetFolderId)
       = Return written
    /\ until_detached (trace (oneclicksample w siteName templateName))
       = (log_folder w siteName gitAuthToken gitAccessToken googleAccessToken
          ++ [StatusUpdate "Google Drive folder created successfully" 50;
              StatusUpdate "Giving Permission to Google Drive" 53;
              Net (Fetch "POST"
                     ("https://www.googleapis.com/drive/v3/files/"
                      ++ to_string targetFolderId ++ "/permissions")
                     (json_headers (bearer googleAccessToken))
                     (JsonBody
                        (VObj [("role", VStr "writer");
                               ("type", VStr "user");
                               ("emailAddress", VStr "helix@adobe.com")])));
              StatusUpdate "Giving Permission to Google Drive" 60;
              StatusUpdate "Updating FsTab" 65;
              Net (Fetch "GET" (to_string giturl ++ "/contents/fstab.yaml")
                     (json_headers ("Bearer " ++ gitAccessToken)) NoBody);
              Net (Fetch "PUT" (to_string giturl ++ "/contents/fstab.yaml")
                     (json_headers ("Bearer " ++ gitAccessToken))
                     (JsonBody
                        (VObj [("message", VStr "updated FsTab.Yaml");
                               ("content",
                                VStr (Base64.btoa
                                        (contentString targetFolderId)));
                               ("sha", blobsha)])));
              StatusUpdate "Adding Templates" 75]
          ++ until_detached
               (trace (addTemplate w templateName targetFolderId
                         googleAccessToken)))%list
    /\ statuses (log_folder w siteName gitAuthToken gitAccessToken
                   googleAccessToken)
       = [0; 1; 15; 33; 40]
    /\ forallb is_net
         (until_detached
            (trace (addTemplate w templateName targetFolderId
                      googleAccessToken))) = true.
Proof.
  intros Hd.
  assert (Ht : exists tail,
             trace (oneclicksample w siteName templateName)
             = (trace (provision w siteName templateName) ++ tail)%list
             /\ forallb (fun e => negb (is_detached e)) tail = true).
  { unfold oneclicksample, try_catch, trace.
    destruct (provision w siteName templateName) as [t' [[] | e]];
      cbn [fst sendStatusMessage emit].
    - exists []. now rewrite app_nil_r.
    - eexists. split; reflexivity. }
  destruct Ht as (tail & Ht & Htail).
  rewrite Ht in *. rewrite existsb_app in Hd.
  rewrite (until_detached_none _ Htail), orb_false_r in Hd.
  destruct (provision_shape w siteName templateName)
    as [Hnone | (gitAuthToken & gitAccessToken & giturl & googleAccessToken
                 & targetFolderId & written & rest & Hperm & Hfstab
                 & Hlog & Hrest)].
  { rewrite (until_detached_none _ Hnone) in Hd. discriminate Hd. }
  destruct (editFsTab_returned_log w giturl gitAccessToken targetFolderId
              written Hfstab) as (blobsha & Hwrite).
  exists gitAuthToken, gitAccessToken, giturl, googleAccessToken,
    targetFolderId, blobsha, written.
  split; [exact Hperm |]. split; [exact Hfstab |].
  pose proof (only_getGitHubAuthToken w is_net (fun _ => eq_refl)) as N1.
  pose proof (only_getAccessToken w is_net (fun _ => eq_refl)
                gitAuthToken) as N2.
  pose proof (only_createUserRepo w is_net (fun _ => eq_refl)
                siteName gitAccessToken) as N3.
  pose proof (only_getGoogleAccessToken w is_net (fun _ => eq_refl)) as N4.
  pose proof (only_createFolder w is_net (fun _ => eq_refl)
                siteName googleAccessToken) as N5.
  unfold only in *.
  assert (Hfolder : forallb (fun e => negb (is_detached e))
                      (log_folder w siteName gitAuthToken gitAccessToken
                         googleAccessToken) = true).
  { unfold log_folder, log_storage_authorization, log_repository_read,
      log_repository, log_token_exchange, log_git_authorization.
    repeat progress (cbn [forallb is_detached negb andb];
                     rewrite ?forallb_app).
    now rewrite (net_not_detached _ N1), (net_not_detached _ N2),
      (net_not_detached _ N3), (net_not_detached _ N4),
      (net_not_detached _ N5). }
  set (T := trace (addTemplate w templateName targetFolderId
                     googleAccessToken)) in *.
  assert (HT : existsb is_detached T = true).
  { rewrite Hlog in Hd. unfold log_mount, log_permission in Hd.
    rewrite Hwrite, createPermission_log in Hd.
    rewrite !existsb_app in Hd.
    rewrite (until_detached_none _ Hfolder),
      (until_detached_none _ Hrest) in Hd.
    cbn [existsb is_detached orb] in Hd.
    now rewrite orb_false_r in Hd. }
  split; [| split].
  - rewrite Hlog. unfold log_mount, log_permission.
    rewrite Hwrite, createPermission_log.
    rewrite <- !app_assoc.
    rewrite until_detached_app by exact Hfolder.
    f_equal. cbn [app until_detached is_detached].
    do 8 f_equal. apply until_detached_cut, HT.
  - unfold log_folder, log_storage_authorization, log_repository_read,
      log_repository, log_token_exchange, log_git_authorization.
    rewrite !statuses_app.
    now rewrite (net_statuses _ N1), (net_statuses _ N2),
      (net_statuses _ N3), (net_statuses _ N4), (net_statuses _ N5).
  - pose proof (silent_addTemplate w templateName targetFolderId
                  googleAccessToken) as S8.
    unfold only in S8. fold T in S8. clear - S8.
    induction T as [| [] T IH]; cbn in *; try discriminate; auto.
Qed.

Lemma copies_after_permission_witness :
  existsb is_detached (trace (oneclicksample Sample.healthy "site" "blog"))
  = true
  /\ statuses (until_detached (trace (oneclicksample Sample.healthy "site"
                                        "blog")))
     = [0; 1; 15; 33; 40; 50; 53; 60; 65; 75].
Proof.
  assert (H : existsb is_detached
                (trace (oneclicksample Sample.healthy "site" "blog")) = true)
    by reflexivity.
  split; [exact H |].
  destruct (copies_after_permission Sample.healthy "site" "blog" H)
    as (a & t & u & g & f & sha & written & _ & _ & Hlog & Hst & Hnet).
  rewrite Hlog, !statuses_app, Hst, (net_statuses _ Hnet). reflexivity.
Defined.

Lemma off_storage_createUserRepo (w : World) (repoName accessToken : string) :
  only off_storage (createUserRepo w repoName accessToken).
Proof. unfold createUserRepo; confine. Qed.

(** X21. When the request that generates the repository is rejected, or
    its reply does not parse, [createUserRepo] raises and the run issues no
    request to the storage provider. *)
Theorem repo_failure_no_storage_call (w : World)
  (siteName templateName : string) (reason : Exn) :
  repo_generation w = Rejected reason
  \/ (exists response,
        repo_generation w = Resolved response
        /\ json response = Rejected reason) ->
  (forall accessToken,
      outcome (createUserRepo w siteName accessToken) = Throw reason)
  /\ forall c,
       In c (calls_of (trace (oneclicksample w siteName templateName))) ->
       storage_side c = false.
Proof.
  intros Hw.
  assert (Hrepo : forall accessToken,
             outcome (createUserRepo w siteName accessToken) = Throw reason).
  { intros accessToken. unfold createUserRepo.
    rewrite outcome_bind, outcome_fetch.
    destruct Hw as [-> | (response & -> & Hj)]; [reflexivity |].
    cbn beta iota. now rewrite outcome_await, Hj. }
  split; [exact Hrepo |].
  apply off_storage_calls.
  pose proof (off_storage_getGitHubAuthToken w) as O1.
  pose proof (off_storage_getAccessToken w) as O2.
  pose proof (off_storage_createUserRepo w siteName) as O3.
  unfold only in *.
  assert (Hp : exists e,
             outcome (provision w siteName templateName) = Throw e
             /\ forallb off_storage
                  (trace (provision w siteName templateName)) = true).
  { unfold provision, sendStatusMessage.
    rewrite !outcome_emit_bind, !trace_emit_bind, outcome_bind, trace_bind.
    destruct (outcome (getGitHubAuthToken w)) as [gitAuthToken | e].
    - rewrite outcome_bind, trace_bind.
      destruct (outcome (getAccessToken w gitAuthToken))
        as [gitAccessToken | e].
      + exists reason.
        rewrite outcome_emit_bind, trace_emit_bind, outcome_bind, trace_bind.
        rewrite (Hrepo gitAccessToken). split; [reflexivity |].
        cbn [forallb]. rewrite !forallb_app. cbn [forallb].
        now rewrite O1, O2, !forallb_app, O3.
      + exists e. split; [reflexivity |].
        cbn [forallb]. now rewrite !forallb_app, O1, O2.
    - exists e. split; [reflexivity |].
      cbn [forallb]. now rewrite !forallb_app, O1. }
  destruct Hp as (e & Ho & Ht).
  unfold oneclicksample, try_catch, outcome, trace in *.
  destruct (provision w siteName templateName) as [t [[] | e']];
    [discriminate Ho |].
  cbn [fst snd] in *. cbn [sendStatusMessage emit fst].
  now rewrite forallb_app, Ht.
Qed.

Lemma repo_failure_no_storage_call_witness :
  outcome (createUserRepo Sample.repo_unreachable "site" "gho_1")
  = Throw (mkExn KTypeError "Failed to fetch").
Proof.
  exact (proj1 (repo_failure_no_storage_call Sample.repo_unreachable "site"
                  "blog" (mkExn KTypeError "Failed to fetch")
                  (or_introl eq_refl))
           "gho_1").
Defined.
